(** * create_thesis_docx.py: the thesis-document builder script

    The repository is one Python script.  It creates a python-docx
    [Document], sets the page margins, appends headings, paragraphs, list
    items, two tables and page breaks in one straight line of calls, saves
    the document to a constant path and prints a summary.

    The script is embedded as a program over the calls it makes on the
    document library: each Python statement is one line of the programs
    below, a Python object reference is a handle (the position of the object
    in its owner), and an attribute assignment is an in-place update through
    that handle.  The library itself is not part of the repository.  Its
    operations are given twice: as the builder of the specification, whose
    calls always go through ([step], [exec]), for the properties the
    specification states of its components; and with the checks python-docx
    makes on texts, style names, lengths and colours ([docx_step],
    [docx_exec]), for the properties of the helper functions and the loops
    of the script.  On the calls of the script the two agree. *)

From Stdlib Require Import List String Ascii ZArith QArith Bool Lia Permutation.
From Stdlib Require Import DecimalString.
Import ListNotations.
Close Scope Q_scope.
Open Scope string_scope.
Open Scope Z_scope.

Set Implicit Arguments.

(* ====================================================================== *)
(** ** Python built-ins used by the script *)
(* ====================================================================== *)

Module Py.

(** The newline character, written [\n] in a Python literal. *)
Definition newline : ascii := ascii_of_nat 10.
Definition nl : string := String newline EmptyString.

(** A triple-quoted literal, given line by line. *)
Definition lines (ls : list string) : string := String.concat nl ls.

(** [str(n)] and the [{n}] field of an f-string, for an int. *)
Definition str (n : Z) : string := NilZero.string_of_int (Z.to_int n).

(** [len(l)] *)
Definition len {A} (l : list A) : Z := Z.of_nat (List.length l).

(** [enumerate(l, start)] *)
Fixpoint enumerate {A} (l : list A) (start : Z) : list (Z * A) :=
  match l with
  | [] => []
  | x :: l' => (start, x) :: enumerate l' (start + 1)
  end.

(** [s1 <= s2] on [str]: lexicographic by code point.  The strings are
    UTF-8 byte strings here, and UTF-8 keeps the code-point order. *)
Definition str_le (s1 s2 : string) : bool := String.leb s1 s2.

(** [s.split(sep)] for a one-character separator: the pieces between the
    occurrences of [sep], one more piece than occurrences. *)
Fixpoint split_go (sep : ascii) (s : string) (piece : string) : list string :=
  match s with
  | EmptyString => [piece]
  | String c s' =>
      if Ascii.eqb c sep then piece :: split_go sep s' EmptyString
      else split_go sep s' (piece ++ String c EmptyString)
  end.

Definition split (s : string) (sep : ascii) : list string :=
  split_go sep s EmptyString.

(** [l[i]] position: a negative index counts from the end, an index out of
    range has no position (Python raises IndexError). *)
Definition index (n : nat) (i : Z) : option nat :=
  if (0 <=? i) && (i <? Z.of_nat n) then Some (Z.to_nat i)
  else if (i <? 0) && (- Z.of_nat n <=? i) then Some (Z.to_nat (Z.of_nat n + i))
  else None.

(** [range(n)] as a count: no iteration for a negative [n]. *)
Definition range_count (n : Z) : nat := Z.to_nat n.

End Py.

(** In-place update of the element at a position; nothing happens out of
    range (the callers check the range first). *)
Fixpoint update_nth {A} (i : nat) (f : A -> A) (l : list A) : list A :=
  match l, i with
  | [], _ => []
  | x :: l', O => f x :: l'
  | x :: l', S i' => x :: update_nth i' f l'
  end.

(* ====================================================================== *)
(** ** The document model *)
(* ====================================================================== *)

(** [docx.shared]: lengths are kept as written, [Inches(1.25)], [Pt(12)]. *)
Inductive Length : Type :=
| Inches (x : Q)
| Pt (x : Z).
Arguments Inches x%_Q.

(** [docx.shared.RGBColor(r, g, b)] *)
Inductive Color : Type :=
| RGBColor (r g b : Z).

(** [docx.enum.text.WD_ALIGN_PARAGRAPH], the members the script names. *)
Inductive WD_ALIGN_PARAGRAPH : Type :=
| LEFT
| CENTER.

(** A run: a styled span of text of a paragraph.  [run.bold] and
    [run.font.bold] are one property. *)
Record Run : Type := mkRun {
  run_text : string;
  run_bold : option bool;
  run_italic : option bool;
  run_size : option Length;
  run_color : option Color
}.

Definition new_run (text : string) : Run :=
  mkRun text None None None None.

(** A paragraph with its paragraph format. *)
Record Paragraph : Type := mkParagraph {
  p_style : option string;
  p_alignment : option WD_ALIGN_PARAGRAPH;
  p_space_before : option Length;
  p_space_after : option Length;
  p_line_spacing : option Q;
  p_runs : list Run
}.

(** A table: a grid of cell texts. *)
Record Table : Type := mkTable {
  t_style : option string;
  t_rows : list (list string)
}.

(** The blocks of the document body, by the call that appended them.  The
    script drops the paragraph that [add_page_break] returns, so a page
    break carries no paragraph here. *)
Inductive Block : Type :=
| Heading (level : Z) (p : Paragraph)
| Para (p : Paragraph)
| Tbl (t : Table)
| PageBreak.

(** A section: the page margins. *)
Record Section_ : Type := mkSection {
  top_margin : option Length;
  bottom_margin : option Length;
  left_margin : option Length;
  right_margin : option Length
}.

Record Document : Type := mkDocument {
  sections : list Section_;
  body : list Block
}.

(** [Document()]: the library's default template gives the sections; the
    body is empty. *)
Definition Document_ (template : list Section_) : Document :=
  mkDocument template [].

(* ====================================================================== *)
(** ** The calls of the script on the library *)
(* ====================================================================== *)

(** Object references: the position of the object in its owner.  The body
    only grows at its end, so a position keeps naming the same block. *)
Inductive BlockRef : Type := block_at (i : nat).
Inductive RunRef : Type := run_at (i : nat) (r : nat).
Inductive CellsRef : Type := cells_at (i : nat) (row : nat).
Inductive SectionRef : Type := section_at (i : nat).

(** The four calls that append a block: [doc.add_paragraph(text, style)],
    [doc.add_heading(text, level)], [doc.add_table(rows, cols)] and
    [doc.add_page_break()]. *)
Inductive Call : Type :=
| add_paragraph (text : string) (style : option string)
| add_heading (text : string) (level : Z)
| add_table (rows cols : Z)
| add_page_break.

(** Attribute assignments on a paragraph ([p.alignment], [p.style] and the
    [p.paragraph_format] fields), on a run and on a section. *)
Inductive ParagraphAttr : Type :=
| Alignment (a : WD_ALIGN_PARAGRAPH)
| Style (s : string)
| SpaceBefore (l : Length)
| SpaceAfter (l : Length)
| LineSpacing (x : Q).

Inductive RunAttr : Type :=
| Bold (b : bool)
| Italic (b : bool)
| FontSize (l : Length)
| FontColorRGB (c : Color).

Inductive Margin : Type := TopMargin | BottomMargin | LeftMargin | RightMargin.

Inductive Op : Type :=
| Append (c : Call)
| AddRun (p : BlockRef) (text : string)
| Runs (p : BlockRef)
| SetParagraph (p : BlockRef) (a : ParagraphAttr)
| SetRun (r : RunRef) (a : RunAttr)
| SetTableStyle (t : BlockRef) (s : string)
| RowCells (t : BlockRef) (i : Z)
| SetCellText (c : CellsRef) (j : Z) (s : string)
| Sections
| SetMargin (s : SectionRef) (m : Margin) (l : Length)
| Save (path : string)
| Print (line : string)
| Now.

(** What each call returns. *)
Definition Resp (o : Op) : Type :=
  match o with
  | Append _ => BlockRef
  | AddRun _ _ => RunRef
  | Runs _ => list RunRef
  | RowCells _ _ => CellsRef
  | Sections => list SectionRef
  | Now => string
  | _ => unit
  end.

(** The exceptions the calls can raise. *)
Inductive Exn : Type :=
| ValueError (msg : string)
| KeyError (msg : string)
| IndexError
| AttributeError
| IOError (path : string).

Inductive Result (A : Type) : Type :=
| Ok (a : A)
| Raised (e : Exn).
Arguments Raised {A} e.

(** The world of a run: the document being built, the files on disk and
    the lines printed. *)
Record World : Type := mkWorld {
  doc : Document;
  files : list (string * Document);
  stdout : list string
}.

(** The styles of a template have a type ([docx.enum.style.WD_STYLE_TYPE]):
    a paragraph takes a paragraph style, a table a table style. *)
Inductive StyleType : Type := ParagraphStyle | CharacterStyle | TableStyle.

(** What a run finds outside: which paths can be written, the clock that
    [datetime.now()] would read, and the styles the template has beside
    those the script names (by name, style id or built-in alias). *)
Record Env : Type := mkEnv {
  writable : string -> bool;
  clock : string;
  more_styles : string -> option StyleType
}.

(* ---------------------------------------------------------------------- *)
(** *** The blocks the append calls create *)

(** Modelled from the spec: [doc.add_paragraph] is in the python-docx
    library, not in the repository.  The paragraph holds [text] as its one
    run (no run for the empty text) and has the style given. *)
Definition new_paragraph (text : string) (sty : option string) : Paragraph :=
  mkParagraph sty None None None None
    (if String.eqb text "" then [] else [new_run text]).

(** Modelled from the spec: [doc.add_table] is in the python-docx library,
    not in the repository.  The table has [rows] rows of [cols] cells, and
    a cell that was never written reads as the empty string (spec 9: the
    table API leaves cells blank). *)
Definition new_table (rows cols : Z) : Table :=
  mkTable None (repeat (repeat "" (Py.range_count cols)) (Py.range_count rows)).

(** The block a call appends.  A heading is a paragraph of style
    [Heading <level>] ([Title] at level 0). *)
Definition heading_style (level : Z) : string :=
  if level =? 0 then "Title" else "Heading " ++ Py.str level.

Definition call_block (c : Call) : Block :=
  match c with
  | add_paragraph text sty => Para (new_paragraph text sty)
  | add_heading text level =>
      Heading level (new_paragraph text (Some (heading_style level)))
  | add_table rows cols => Tbl (new_table rows cols)
  | add_page_break => PageBreak
  end.

(** Modelled from the spec: [doc.add_heading] is in the python-docx
    library, not in the repository.  The heading level is bounded by the
    format's supported depth (spec 3); the library raises ValueError for a
    level outside 0-9. *)
Definition level_ok (level : Z) : bool := (0 <=? level) && (level <=? 9).

Definition call_ok (c : Call) : bool :=
  match c with
  | add_heading _ level => level_ok level
  | _ => true
  end.

Definition new_block (c : Call) : Result Block :=
  match c with
  | add_heading _ level =>
      if level_ok level then Ok (call_block c)
      else Raised (ValueError ("level must be in range 0-9, got " ++ Py.str level))
  | _ => Ok (call_block c)
  end.

(* ---------------------------------------------------------------------- *)
(** *** In-place updates *)

Definition set_paragraph_attr (a : ParagraphAttr) (p : Paragraph) : Paragraph :=
  match a with
  | Alignment x =>
      mkParagraph (p_style p) (Some x) (p_space_before p) (p_space_after p)
        (p_line_spacing p) (p_runs p)
  | Style s =>
      mkParagraph (Some s) (p_alignment p) (p_space_before p) (p_space_after p)
        (p_line_spacing p) (p_runs p)
  | SpaceBefore l =>
      mkParagraph (p_style p) (p_alignment p) (Some l) (p_space_after p)
        (p_line_spacing p) (p_runs p)
  | SpaceAfter l =>
      mkParagraph (p_style p) (p_alignment p) (p_space_before p) (Some l)
        (p_line_spacing p) (p_runs p)
  | LineSpacing x =>
      mkParagraph (p_style p) (p_alignment p) (p_space_before p) (p_space_after p)
        (Some x) (p_runs p)
  end.

Definition set_run_attr (a : RunAttr) (r : Run) : Run :=
  match a with
  | Bold b => mkRun (run_text r) (Some b) (run_italic r) (run_size r) (run_color r)
  | Italic b => mkRun (run_text r) (run_bold r) (Some b) (run_size r) (run_color r)
  | FontSize l => mkRun (run_text r) (run_bold r) (run_italic r) (Some l) (run_color r)
  | FontColorRGB c => mkRun (run_text r) (run_bold r) (run_italic r) (run_size r) (Some c)
  end.

Definition set_margin_attr (m : Margin) (l : Length) (s : Section_) : Section_ :=
  match m with
  | TopMargin => mkSection (Some l) (bottom_margin s) (left_margin s) (right_margin s)
  | BottomMargin => mkSection (top_margin s) (Some l) (left_margin s) (right_margin s)
  | LeftMargin => mkSection (top_margin s) (bottom_margin s) (Some l) (right_margin s)
  | RightMargin => mkSection (top_margin s) (bottom_margin s) (left_margin s) (Some l)
  end.

(** The paragraph behind a reference: a heading is a paragraph too; a
    table and a page break have no paragraph attributes. *)
Definition paragraph_of (b : Block) : option Paragraph :=
  match b with
  | Heading _ p | Para p => Some p
  | Tbl _ | PageBreak => None
  end.

Definition with_paragraph (f : Paragraph -> Paragraph) (b : Block) : Block :=
  match b with
  | Heading level p => Heading level (f p)
  | Para p => Para (f p)
  | Tbl t => Tbl t
  | PageBreak => PageBreak
  end.

Definition table_of (b : Block) : option Table :=
  match b with
  | Tbl t => Some t
  | _ => None
  end.

Definition with_table (f : Table -> Table) (b : Block) : Block :=
  match b with
  | Tbl t => Tbl (f t)
  | _ => b
  end.

Definition set_body (d : Document) (bs : list Block) : Document :=
  mkDocument (sections d) bs.

Definition set_doc (w : World) (d : Document) : World :=
  mkWorld d (files w) (stdout w).

Definition update_block (i : nat) (f : Block -> Block) (w : World) : World :=
  set_doc w (set_body (doc w) (update_nth i f (body (doc w)))).

(** The paragraph at a reference, or AttributeError when the object there
    is not a paragraph. *)
Definition paragraph_at (w : World) (i : nat) : option Paragraph :=
  match nth_error (body (doc w)) i with
  | Some b => paragraph_of b
  | None => None
  end.

Definition table_at (w : World) (i : nat) : option Table :=
  match nth_error (body (doc w)) i with
  | Some b => table_of b
  | None => None
  end.

(* ---------------------------------------------------------------------- *)
(** *** One call *)

(** Modelled from the spec: the append calls are in the python-docx
    library, not in the repository.  [appendBlock] puts the new block at
    the end of the document's block sequence, in place (spec 4.1), and
    returns the reference to it. *)
Definition append_block (b : Block) (w : World) : BlockRef * World :=
  (block_at (List.length (body (doc w))),
   set_doc w (set_body (doc w) (body (doc w) ++ [b]))).

(** Modelled from the spec: [doc.save] is in the python-docx library, not
    in the repository.  It writes the whole document to the path, creating
    or overwriting the file, and fails with an IOError when the path is
    unwritable, leaving the files as they were (spec 4.4 and 8). *)
Definition saved (path : string) (d : Document) (disk : list (string * Document)) :
    list (string * Document) :=
  (path, d) :: filter (fun f => negb (String.eqb (fst f) path)) disk.

Definition save_to (e : Env) (path : string) (w : World) : Result unit * World :=
  if writable e path then
    (Ok tt, mkWorld (doc w) (saved path (doc w) (files w)) (stdout w))
  else (Raised (IOError path), w).

(** Modelled from the spec: one call on the builder of the specification.
    Styling is a mapping without failure modes (spec 4.2) and the inputs
    are taken as well-formed (spec 7): a text, a style name, a length or a
    colour is stored as given, and the only failures are a heading level
    out of range, a reference to an object of another kind, an index out
    of range and an unwritable path.  What python-docx refuses is in
    [docx_step] below. *)
Definition step (e : Env) (o : Op) (w : World) : Result (Resp o) * World :=
  match o as o' return Result (Resp o') * World with
  | Append c =>
      match new_block c with
      | Ok b => let (r, w') := append_block b w in (Ok r, w')
      | Raised x => (Raised x, w)
      end
  | AddRun (block_at i) text =>
      match paragraph_at w i with
      | Some p =>
          (Ok (run_at i (List.length (p_runs p))),
           update_block i
             (with_paragraph (fun p =>
                mkParagraph (p_style p) (p_alignment p) (p_space_before p)
                  (p_space_after p) (p_line_spacing p) (p_runs p ++ [new_run text])))
             w)
      | None => (Raised AttributeError, w)
      end
  | Runs (block_at i) =>
      match paragraph_at w i with
      | Some p => (Ok (map (run_at i) (seq 0 (List.length (p_runs p)))), w)
      | None => (Raised AttributeError, w)
      end
  | SetParagraph (block_at i) a =>
      match paragraph_at w i with
      | Some _ => (Ok tt, update_block i (with_paragraph (set_paragraph_attr a)) w)
      | None => (Raised AttributeError, w)
      end
  | SetRun (run_at i r) a =>
      match paragraph_at w i with
      | Some p =>
          if (r <? List.length (p_runs p))%nat then
            (Ok tt,
             update_block i
               (with_paragraph (fun p =>
                  mkParagraph (p_style p) (p_alignment p) (p_space_before p)
                    (p_space_after p) (p_line_spacing p)
                    (update_nth r (set_run_attr a) (p_runs p))))
               w)
          else (Raised AttributeError, w)
      | None => (Raised AttributeError, w)
      end
  | SetTableStyle (block_at i) s =>
      match table_at w i with
      | Some _ =>
          (Ok tt, update_block i (with_table (fun t => mkTable (Some s) (t_rows t))) w)
      | None => (Raised AttributeError, w)
      end
  | RowCells (block_at i) row =>
      match table_at w i with
      | Some t =>
          match Py.index (List.length (t_rows t)) row with
          | Some n => (Ok (cells_at i n), w)
          | None => (Raised IndexError, w)
          end
      | None => (Raised AttributeError, w)
      end
  | SetCellText (cells_at i row) j s =>
      match table_at w i with
      | Some t =>
          match nth_error (t_rows t) row with
          | Some cells =>
              match Py.index (List.length cells) j with
              | Some n =>
                  (Ok tt,
                   update_block i
                     (with_table (fun t =>
                        mkTable (t_style t)
                          (update_nth row (update_nth n (fun _ => s)) (t_rows t))))
                     w)
              | None => (Raised IndexError, w)
              end
          | None => (Raised AttributeError, w)
          end
      | None => (Raised AttributeError, w)
      end
  | Sections =>
      (Ok (map section_at (seq 0 (List.length (sections (doc w))))), w)
  | SetMargin (section_at i) m l =>
      if (i <? List.length (sections (doc w)))%nat then
        (Ok tt,
         set_doc w
           (mkDocument (update_nth i (set_margin_attr m l) (sections (doc w)))
              (body (doc w))))
      else (Raised AttributeError, w)
  | Save path => save_to e path w
  | Print line => (Ok tt, mkWorld (doc w) (files w) (stdout w ++ [line]))
  | Now => (Ok (clock e), w)
  end.

(* ---------------------------------------------------------------------- *)
(** *** One call, with the checks of python-docx *)

(** [step] gives each call the behaviour of the specification's builder:
    whatever text, style name, length and colour it is given, the call goes
    through.  The library is stricter.  It hands every text to lxml, which
    raises ValueError for a string that is not XML-compatible; it looks a
    style name up in the styles of the template and raises KeyError for a
    name that is not there and ValueError for a style of another type; and
    it raises ValueError for a spacing, a font size or a margin whose EMU
    count is out of the range of its XML type, and for a colour component
    outside 0-255.  A call that fails half-way leaves what it had
    done: [doc.add_paragraph] appends the paragraph, then adds the run,
    then assigns the style.  python-docx and lxml are not in the
    repository; the checks below are those of [docx.oxml.simpletypes],
    [docx.styles.styles], [docx.oxml.text.run], [docx.blkcntnr],
    [docx.shared] and of lxml's [_utf8]. *)

(** The code of a byte of the UTF-8 form of a [str]. *)
Definition code (c : ascii) : N := N_of_ascii c.

(** libxml2's [xmlIsChar_ch], for a byte below 128: tab, line feed,
    carriage return and the bytes from the space on. *)
Definition xml_char (n : N) : bool :=
  ((32 <=? n) || (n =? 9) || (n =? 10) || (n =? 13))%N.

(** The three-byte forms lxml refuses: U+FFFE and U+FFFF (EF BF BE and
    EF BF BF) and the surrogates (ED A0 80 to ED BF BF). *)
Definition forbidden (a b c : N) : bool :=
  let n := (a * 65536 + b * 256 + c)%N in
  ((n =? 15712190) || (n =? 15712191) || ((15573120 <=? n) && (n <=? 15581119)))%N.

(** lxml's [_is_valid_xml_utf8]: no control character but tab, line feed
    and carriage return, and none of the forbidden forms. *)
Fixpoint xml_text (s : string) : bool :=
  match s with
  | EmptyString => true
  | String a s' =>
      (if (128 <=? code a)%N then
         match s' with
         | String b (String c _) => negb (forbidden (code a) (code b) (code c))
         | _ => true
         end
       else xml_char (code a)) && xml_text s'
  end.

Definition xml_message : string :=
  "All strings must be XML compatible: Unicode or ASCII, no NULL bytes or control characters".

Definition tab : ascii := ascii_of_nat 9.
Definition carriage_return : ascii := ascii_of_nat 13.

(** [run.text = text]: the text goes into the run piece by piece.  A tab
    becomes a tab element, a line feed or a carriage return a line break
    (both read back as a line feed), and the characters between them one
    text element, which lxml checks.  The result is the text the run reads
    back, and whether every piece went in: the pieces before a refused
    one stay. *)
Fixpoint put_text (text done buffer : string) : string * bool :=
  match text with
  | EmptyString =>
      if xml_text buffer then (done ++ buffer, true) else (done, false)
  | String c text' =>
      if Ascii.eqb c tab then
        if xml_text buffer
        then put_text text' (done ++ buffer ++ String tab EmptyString) EmptyString
        else (done, false)
      else if Ascii.eqb c Py.newline || Ascii.eqb c carriage_return then
        if xml_text buffer
        then put_text text' (done ++ buffer ++ Py.nl) EmptyString
        else (done, false)
      else put_text text' done (buffer ++ String c EmptyString)
  end.

(** A length in English Metric Units, as [Inches] and [Pt] compute it
    ([int] cuts towards zero). *)
Definition emu (l : Length) : Z :=
  match l with
  | Inches x => Z.quot (Qnum x * 914400) (Zpos (Qden x))
  | Pt x => x * 12700
  end.

(** [p.line_spacing = x] for a number: [x] lines, in EMU. *)
Definition line_emu (x : Q) : Z := Z.quot (Qnum x * 152400) (Zpos (Qden x)).

(** [XsdUnsignedLong.validate], the check on [space_before],
    [space_after], the font size and the left and right margins, and
    [XsdInt.validate], the check on the line spacing and the top and
    bottom margins. *)
Definition unsigned_long (v : Z) : bool :=
  (0 <=? v) && (v <=? 18446744073709551615).

Definition signed_int (v : Z) : bool :=
  (-2147483648 <=? v) && (v <=? 2147483647).

Definition check_length (l : Length) : Result unit :=
  if unsigned_long (emu l) then Ok tt
  else Raised (ValueError
         ("value must be in range 0 to 18446744073709551615 inclusive, got " ++
          Py.str (emu l))).

Definition check_signed (v : Z) : Result unit :=
  if signed_int v then Ok tt
  else Raised (ValueError
         ("value must be in range -2147483648 to 2147483647 inclusive, got " ++
          Py.str v)).

(** [RGBColor(r, g, b)] takes three integers from 0 to 255. *)
Definition color_ok (c : Color) : bool :=
  match c with
  | RGBColor r g b =>
      (0 <=? r) && (r <=? 255) && (0 <=? g) && (g <=? 255) && (0 <=? b) && (b <=? 255)
  end.

(** The styles of the default template that the script and its helpers
    name.  Whatever else the template holds comes with the environment. *)
Definition default_paragraph_styles : list string :=
  ["Normal"; "Title"; "Heading 1"; "Heading 2"; "Heading 3"; "Heading 4";
   "Heading 5"; "Heading 6"; "Heading 7"; "Heading 8"; "Heading 9";
   "List Bullet"; "List Number"; "No Spacing"].

Definition default_table_styles : list string := ["Light Grid Accent 1"].

Definition style_type (e : Env) (s : string) : option StyleType :=
  if existsb (String.eqb s) default_paragraph_styles then Some ParagraphStyle
  else if existsb (String.eqb s) default_table_styles then Some TableStyle
  else more_styles e s.

Definition style_type_eqb (k k' : StyleType) : bool :=
  match k, k' with
  | ParagraphStyle, ParagraphStyle | CharacterStyle, CharacterStyle
  | TableStyle, TableStyle => true
  | _, _ => false
  end.

Definition style_type_name (k : StyleType) : string :=
  match k with
  | ParagraphStyle => "PARAGRAPH (1)"
  | CharacterStyle => "CHARACTER (2)"
  | TableStyle => "TABLE (3)"
  end.

(** [styles[name]] for an object that takes a style of the type [need]. *)
Definition find_style (e : Env) (need : StyleType) (s : string) : Result unit :=
  match style_type e s with
  | Some k =>
      if style_type_eqb k need then Ok tt
      else Raised (ValueError
             ("assigned style is type " ++ style_type_name k ++
              ", need type " ++ style_type_name need))
  | None => Raised (KeyError ("no style with name '" ++ s ++ "'"))
  end.

(** [doc.add_paragraph(text, style)]: the paragraph that ends up in the
    body and how the call ends.  The run is added when the text is not
    empty; a refused text ends the call before the style is assigned, a
    refused style leaves the paragraph without style. *)
Definition docx_paragraph (e : Env) (text : string) (sty : option string) :
    Result unit * Paragraph :=
  let '(stored, ok) := put_text text EmptyString EmptyString in
  let rs := if String.eqb text "" then [] else [new_run stored] in
  if ok then
    match sty with
    | None => (Ok tt, mkParagraph None None None None None rs)
    | Some s =>
        match find_style e ParagraphStyle s with
        | Ok _ => (Ok tt, mkParagraph (Some s) None None None None rs)
        | Raised x => (Raised x, mkParagraph None None None None None rs)
        end
    end
  else (Raised (ValueError xml_message), mkParagraph None None None None None rs).

Definition docx_append (mk : Paragraph -> Block) (r : Result unit * Paragraph)
    (w : World) : Result BlockRef * World :=
  let (ref, w') := append_block (mk (snd r)) w in
  match fst r with
  | Ok _ => (Ok ref, w')
  | Raised x => (Raised x, w')
  end.

(** What the library checks of an attribute before it assigns it. *)
Definition check_paragraph_attr (e : Env) (a : ParagraphAttr) : Result unit :=
  match a with
  | Style s => find_style e ParagraphStyle s
  | SpaceBefore l | SpaceAfter l => check_length l
  | LineSpacing x => check_signed (line_emu x)
  | Alignment _ => Ok tt
  end.

Definition check_run_attr (a : RunAttr) : Result unit :=
  match a with
  | FontSize l => check_length l
  | Bold _ | Italic _ | FontColorRGB _ => Ok tt
  end.

(** The value assigned is computed before the run is looked at: a colour
    is refused by [RGBColor] itself. *)
Definition check_run_value (a : RunAttr) : Result unit :=
  match a with
  | FontColorRGB c =>
      if color_ok c then Ok tt
      else Raised (ValueError "RGBColor() takes three integer values 0-255")
  | Bold _ | Italic _ | FontSize _ => Ok tt
  end.

Definition check_margin (m : Margin) (l : Length) : Result unit :=
  match m with
  | TopMargin | BottomMargin => check_signed (emu l)
  | LeftMargin | RightMargin => check_length l
  end.

(** One call on the library.  The calls that take no text, style, length
    or colour are those of [step]; the table takes its width from the last
    section, which the default template has. *)
Definition docx_step (e : Env) (o : Op) (w : World) : Result (Resp o) * World :=
  match o as o' return Result (Resp o') * World with
  | Append (add_paragraph text sty) =>
      docx_append Para (docx_paragraph e text sty) w
  | Append (add_heading text level) =>
      if level_ok level then
        docx_append (Heading level)
          (docx_paragraph e text (Some (heading_style level))) w
      else
        (Raised (ValueError ("level must be in range 0-9, got " ++ Py.str level)), w)
  | Append (add_table rows cols) => step e (Append (add_table rows cols)) w
  | Append add_page_break => step e (Append add_page_break) w
  | AddRun (block_at i) text =>
      match paragraph_at w i with
      | Some p =>
          let '(stored, ok) := put_text text EmptyString EmptyString in
          let w' :=
            update_block i
              (with_paragraph (fun p =>
                 mkParagraph (p_style p) (p_alignment p) (p_space_before p)
                   (p_space_after p) (p_line_spacing p) (p_runs p ++ [new_run stored])))
              w in
          if ok then (Ok (run_at i (List.length (p_runs p))), w')
          else (Raised (ValueError xml_message), w')
      | None => (Raised AttributeError, w)
      end
  | Runs p => step e (Runs p) w
  | SetParagraph (block_at i) a =>
      match paragraph_at w i with
      | Some _ =>
          match check_paragraph_attr e a with
          | Ok _ => (Ok tt, update_block i (with_paragraph (set_paragraph_attr a)) w)
          | Raised x => (Raised x, w)
          end
      | None => (Raised AttributeError, w)
      end
  | SetRun (run_at i r) a =>
      match check_run_value a with
      | Ok _ =>
          match paragraph_at w i with
          | Some p =>
              if (r <? List.length (p_runs p))%nat then
                match check_run_attr a with
                | Ok _ => step e (SetRun (run_at i r) a) w
                | Raised x => (Raised x, w)
                end
              else (Raised AttributeError, w)
          | None => (Raised AttributeError, w)
          end
      | Raised x => (Raised x, w)
      end
  | SetTableStyle (block_at i) s =>
      match table_at w i with
      | Some _ =>
          match find_style e TableStyle s with
          | Ok _ => step e (SetTableStyle (block_at i) s) w
          | Raised x => (Raised x, w)
          end
      | None => (Raised AttributeError, w)
      end
  | RowCells t i => step e (RowCells t i) w
  | SetCellText (cells_at i row) j s =>
      match table_at w i with
      | Some t =>
          match nth_error (t_rows t) row with
          | Some cells =>
              match Py.index (List.length cells) j with
              | Some n =>
                  let '(stored, ok) := put_text s EmptyString EmptyString in
                  let w' :=
                    update_block i
                      (with_table (fun t =>
                         mkTable (t_style t)
                           (update_nth row (update_nth n (fun _ => stored)) (t_rows t))))
                      w in
                  if ok then (Ok tt, w') else (Raised (ValueError xml_message), w')
              | None => (Raised IndexError, w)
              end
          | None => (Raised AttributeError, w)
          end
      | None => (Raised AttributeError, w)
      end
  | Sections => step e Sections w
  | SetMargin (section_at i) m l =>
      if (i <? List.length (sections (doc w)))%nat then
        match check_margin m l with
        | Ok _ => step e (SetMargin (section_at i) m l) w
        | Raised x => (Raised x, w)
        end
      else (Raised AttributeError, w)
  | Save path => step e (Save path) w
  | Print line => step e (Print line) w
  | Now => step e Now w
  end.

(* ====================================================================== *)
(** ** Programs over the calls *)
(* ====================================================================== *)

(** A program: it returns, raises, or makes one call and goes on with the
    answer. *)
Inductive Prog (A : Type) : Type :=
| Ret (a : A)
| Throw (x : Exn)
| Vis (o : Op) (k : Resp o -> Prog A).
Arguments Ret {A} a.
Arguments Throw {A} x.

Fixpoint bind {A B} (p : Prog A) (f : A -> Prog B) : Prog B :=
  match p with
  | Ret a => f a
  | Throw x => Throw x
  | Vis o k => Vis o (fun r => bind (k r) f)
  end.

Declare Scope prog_scope.
Delimit Scope prog_scope with prog.
Bind Scope prog_scope with Prog.
Notation "x <- c ;; k" := (bind c (fun x => k))
  (at level 61, c at next level, right associativity) : prog_scope.
Notation "c ;; k" := (bind c (fun _ => k))
  (at level 61, right associativity) : prog_scope.
Open Scope prog_scope.

Definition call (o : Op) : Prog (Resp o) := Vis o (fun r => Ret r).

(** [for x in l: body] *)
Fixpoint for_each {A B} (l : list A) (body : A -> Prog B) : Prog unit :=
  match l with
  | [] => Ret tt
  | x :: l' => body x ;; for_each l' body
  end.

(** [if c: body], with no [else]. *)
Definition when (c : bool) (body : Prog unit) : Prog unit :=
  if c then body else Ret tt.

(** [l[i]] on a Python list. *)
Definition item {A} (l : list A) (i : Z) : Prog A :=
  match Py.index (List.length l) i with
  | Some n =>
      match nth_error l n with
      | Some x => Ret x
      | None => Throw IndexError
      end
  | None => Throw IndexError
  end.

(** Running a program: the first exception ends the run (the script has no
    [try]), and the world stays as the failing call left it. *)
Fixpoint exec {A} (e : Env) (p : Prog A) (w : World) : Result A * World :=
  match p with
  | Ret a => (Ok a, w)
  | Throw x => (Raised x, w)
  | Vis o k =>
      match step e o w with
      | (Ok r, w') => exec e (k r) w'
      | (Raised x, w') => (Raised x, w')
      end
  end.

(** The calls a run completes, in order. *)
Fixpoint trace {A} (e : Env) (p : Prog A) (w : World) : list Op :=
  match p with
  | Ret _ => []
  | Throw _ => []
  | Vis o k =>
      match step e o w with
      | (Ok r, w') => o :: trace e (k r) w'
      | (Raised _, _) => []
      end
  end.

Definition outcome {A} (e : Env) (p : Prog A) (w : World) : Result A :=
  fst (exec e p w).

Definition final {A} (e : Env) (p : Prog A) (w : World) : World :=
  snd (exec e p w).

(** Running a program on the library with its checks. *)
Fixpoint docx_exec {A} (e : Env) (p : Prog A) (w : World) : Result A * World :=
  match p with
  | Ret a => (Ok a, w)
  | Throw x => (Raised x, w)
  | Vis o k =>
      match docx_step e o w with
      | (Ok r, w') => docx_exec e (k r) w'
      | (Raised x, w') => (Raised x, w')
      end
  end.

Definition docx_outcome {A} (e : Env) (p : Prog A) (w : World) : Result A :=
  fst (docx_exec e p w).

Definition docx_final {A} (e : Env) (p : Prog A) (w : World) : World :=
  snd (docx_exec e p w).

(** The append calls of a trace. *)
Definition appended_by (o : Op) : list Call :=
  match o with
  | Append c => [c]
  | _ => []
  end.

Definition appends (t : list Op) : list Call := flat_map appended_by t.

(** [appendBlock]: one of the four append calls; a sequence of them. *)
Definition appendBlock (c : Call) : Prog BlockRef := call (Append c).

Definition append_all (cs : list Call) : Prog unit := for_each cs appendBlock.

(** The kind of a block, and of the block a call appends. *)
Inductive Kind : Type := KHeading | KParagraph | KTable | KPageBreak.

Definition block_kind (b : Block) : Kind :=
  match b with
  | Heading _ _ => KHeading
  | Para _ => KParagraph
  | Tbl _ => KTable
  | PageBreak => KPageBreak
  end.

Definition call_kind (c : Call) : Kind := block_kind (call_block c).

Definition kinds (w : World) : list Kind := map block_kind (body (doc w)).

(* ---------------------------------------------------------------------- *)
(** *** The library's surface, as the script writes it *)

(** [doc.add_paragraph(text='', style=None)] *)
Definition doc_add_paragraph (text : string) (sty : option string) : Prog BlockRef :=
  call (Append (add_paragraph text sty)).

(** [doc.add_heading(text, level=level)] *)
Definition doc_add_heading (text : string) (level : Z) : Prog BlockRef :=
  call (Append (add_heading text level)).

(** [doc.add_table(rows=rows, cols=cols)] *)
Definition doc_add_table (rows cols : Z) : Prog BlockRef :=
  call (Append (add_table rows cols)).

(** [doc.add_page_break()] *)
Definition doc_add_page_break : Prog BlockRef :=
  call (Append add_page_break).

(** [doc.sections] *)
Definition doc_sections : Prog (list SectionRef) := call Sections.

(** [doc.save(path)] *)
Definition doc_save (path : string) : Prog unit := call (Save path).

(** [print(line)] *)
Definition print (line : string) : Prog unit := call (Print line).

(** [p.add_run(text)] *)
Definition add_run (p : BlockRef) (text : string) : Prog RunRef :=
  call (AddRun p text).

(** [p.runs] *)
Definition runs (p : BlockRef) : Prog (list RunRef) := call (Runs p).

(** [p.paragraph_format] and [run.font]: proxies that write through to
    their paragraph and run. *)
Definition paragraph_format (p : BlockRef) : BlockRef := p.
Definition font (r : RunRef) : RunRef := r.

(** [obj.attr = value] on a paragraph (or its format), a run (or its font),
    a table and a section. *)
Definition set_alignment (p : BlockRef) (a : WD_ALIGN_PARAGRAPH) : Prog unit :=
  call (SetParagraph p (Alignment a)).
Definition set_style (p : BlockRef) (s : string) : Prog unit :=
  call (SetParagraph p (Style s)).
Definition set_space_before (p : BlockRef) (l : Length) : Prog unit :=
  call (SetParagraph p (SpaceBefore l)).
Definition set_space_after (p : BlockRef) (l : Length) : Prog unit :=
  call (SetParagraph p (SpaceAfter l)).
Definition set_line_spacing (p : BlockRef) (x : Q) : Prog unit :=
  call (SetParagraph p (LineSpacing x)).
Arguments set_line_spacing p x%_Q.

Definition set_bold (r : RunRef) (b : bool) : Prog unit :=
  call (SetRun r (Bold b)).
Definition set_italic (r : RunRef) (b : bool) : Prog unit :=
  call (SetRun r (Italic b)).
Definition set_size (r : RunRef) (l : Length) : Prog unit :=
  call (SetRun r (FontSize l)).
Definition set_color_rgb (r : RunRef) (c : Color) : Prog unit :=
  call (SetRun r (FontColorRGB c)).

Definition set_table_style (t : BlockRef) (s : string) : Prog unit :=
  call (SetTableStyle t s).

Definition set_top_margin (s : SectionRef) (l : Length) : Prog unit :=
  call (SetMargin s TopMargin l).
Definition set_bottom_margin (s : SectionRef) (l : Length) : Prog unit :=
  call (SetMargin s BottomMargin l).
Definition set_left_margin (s : SectionRef) (l : Length) : Prog unit :=
  call (SetMargin s LeftMargin l).
Definition set_right_margin (s : SectionRef) (l : Length) : Prog unit :=
  call (SetMargin s RightMargin l).

(** [table.rows[i].cells] and [cells[j].text = s] *)
Definition rows_cells (t : BlockRef) (i : Z) : Prog CellsRef := call (RowCells t i).
Definition set_text (c : CellsRef) (j : Z) (s : string) : Prog unit :=
  call (SetCellText c j s).

(* ====================================================================== *)
(** ** The script *)
(* ====================================================================== *)

(** The script has one document, [doc = Document()], created before
    anything else; the programs below run on it, and the [doc] argument
    of the helper functions is that document. *)

(* ---------------------------------------------------------------------- *)
(** *** The helper functions *)

(** [set_paragraph_spacing(paragraph, space_before=0, space_after=12)] *)
Definition set_paragraph_spacing (paragraph : BlockRef)
    (space_before space_after : Z) : Prog unit :=
  let p := paragraph_format paragraph in
  set_space_before p (Pt space_before) ;;
  set_space_after p (Pt space_after) ;;
  set_line_spacing p 1.5.

(** [add_heading_with_styling(doc, text, level)] *)
Definition add_heading_with_styling (text : string) (level : Z) : Prog BlockRef :=
  heading <- doc_add_heading text level ;;
  set_style heading ("Heading " ++ Py.str level) ;;
  when (level =? 1) (
    let heading_format := paragraph_format heading in
    set_space_before heading_format (Pt 12) ;;
    set_space_after heading_format (Pt 12) ;;
    set_alignment heading_format LEFT) ;;
  Ret heading.

(** [add_styled_paragraph(doc, text, style='Normal', bold=False, italic=False)] *)
Definition add_styled_paragraph (text : string) (style : string)
    (bold italic : bool) : Prog BlockRef :=
  p <- doc_add_paragraph text (Some style) ;;
  when (bold || italic) (
    p_runs <- runs p ;;
    for_each p_runs (fun run =>
      when bold (set_bold run true) ;;
      when italic (set_italic run true))) ;;
  set_paragraph_spacing p 0 12 ;;
  Ret p.

(* ---------------------------------------------------------------------- *)
(** *** Create document; set document margins *)

Definition set_document_margins : Prog unit :=
  (* Set document margins *)
  sections <- doc_sections ;;
  for_each sections (fun section =>
    set_top_margin section (Inches 1) ;;
    set_bottom_margin section (Inches 1) ;;
    set_left_margin section (Inches 1.25) ;;
    set_right_margin section (Inches 1.25)) ;;
  Ret tt.

(* ---------------------------------------------------------------------- *)
(** *** TITLE PAGE *)

Definition info_text : string :=
  ("Author: Developer" ++ Py.nl ++ "Date: January 26, 2026" ++ Py.nl ++ "Institution: [University Name]" ++ Py.nl ++ "Program: Computer Science / Software Engineering / Information Systems").

Definition title_page : Prog unit :=
  title <- doc_add_paragraph "" None ;;
  set_alignment title CENTER ;;
  title_run <- add_run title ("Design and Implementation of a Microservice-Based System" ++ Py.nl ++ "for GitHub Data Processing Using NestJS") ;;
  set_size (font title_run) (Pt 16) ;;
  set_bold (font title_run) true ;;
  set_color_rgb (font title_run) (RGBColor 0 51 102) ;;
  doc_add_paragraph "" None  (* Spacing *) ;;
  (* Subtitle *)
  subtitle <- doc_add_paragraph "" None ;;
  set_alignment subtitle CENTER ;;
  subtitle_run <- add_run subtitle "Bachelor Thesis Documentation" ;;
  set_size (font subtitle_run) (Pt 14) ;;
  set_bold (font subtitle_run) true ;;
  doc_add_paragraph "" None ;;
  doc_add_paragraph "" None ;;
  doc_add_paragraph "" None ;;
  (* Author and date info *)
  info <- doc_add_paragraph "" None ;;
  set_alignment info CENTER ;;
  for_each (Py.split info_text Py.newline) (fun line =>
    p <- doc_add_paragraph line None ;;
    set_alignment p CENTER ;;
    set_paragraph_spacing p 0 0) ;;
  doc_add_page_break ;;
  Ret tt.

(* ---------------------------------------------------------------------- *)
(** *** TABLE OF CONTENTS *)

Definition toc_items : list string :=
  [
    "1. Abstract";
    "2. Introduction";
    "3. Theoretical Background";
    "4. Technologies and Tools";
    "5. System Requirements and Analysis";
    "6. System Architecture Design";
    "7. Implementation Details";
    "8. Testing and Validation";
    "9. Security Considerations";
    "10. Results and Evaluation";
    "11. Future Improvements";
    "12. Conclusion";
    "13. References";
    "14. Appendices"].

Definition table_of_contents : Prog unit :=
  doc_add_heading "Table of Contents" 1 ;;
  for_each toc_items (fun item =>
    p <- doc_add_paragraph item (Some "List Bullet") ;;
    set_paragraph_spacing p 0 6) ;;
  doc_add_page_break ;;
  Ret tt.

(* ---------------------------------------------------------------------- *)
(** *** ABSTRACT *)

Definition abstract_text : string :=
  Py.lines [
    "This thesis presents the design and implementation of a microservice-based system for processing GitHub repository data using the NestJS framework. The system integrates with the GitHub REST API to retrieve and process repository information, manages user authentication through JWT tokens, facilitates email notifications, and implements centralized logging capabilities.";
    "";
    "The architecture follows microservices principles, utilizing Docker for containerization and deployment, PostgreSQL for persistent storage, and Redis for caching and logging infrastructure. The primary contribution of this work is demonstrating how modern backend frameworks like NestJS can be effectively used to build scalable, maintainable microservice architectures that handle complex external API integration, authentication, and inter-service communication.";
    "";
    "This thesis explores architectural decisions, implementation patterns, security considerations, and best practices for building production-ready microservices. The system is composed of four main services: API Gateway for request routing and authentication, GitHub Stack Service for GitHub API integration, Email Service for notification delivery, and Logger Service for centralized log aggregation."].

Definition abstract : Prog unit :=
  doc_add_heading "Abstract" 1 ;;
  abstract_para <- doc_add_paragraph abstract_text None ;;
  set_paragraph_spacing abstract_para 0 12 ;;
  keywords_para <- doc_add_paragraph "" None ;;
  keywords_run <- add_run keywords_para "Keywords: " ;;
  set_bold keywords_run true ;;
  add_run keywords_para "Microservices, NestJS, GitHub API, Docker, JWT Authentication, Distributed Systems, REST API, TypeORM, Redis, PostgreSQL" ;;
  set_paragraph_spacing keywords_para 0 12 ;;
  doc_add_page_break ;;
  Ret tt.

(* ---------------------------------------------------------------------- *)
(** *** 1. INTRODUCTION *)

Definition motivation_items : list string :=
  [
    "Efficiently processing and storing GitHub repository metadata";
    "Managing user authentication and authorization in a secure manner";
    "Delivering asynchronous notifications to users";
    "Implementing centralized logging across distributed services";
    "Scaling independently based on workload demands"].

Definition problems : list (string * string) :=
  [
    ("Monolithic Limitations", "Single-deployment architectures make it difficult to scale specific components independently, leading to inefficient resource utilization and potential bottlenecks.");
    ("API Rate Limiting", "GitHub enforces strict rate limits on API requests. Without proper caching and request management strategies, applications quickly exhaust their quota and fail to respond to user requests.");
    ("Authentication Complexity", "Managing authentication across multiple services while maintaining security requires careful design of token generation, validation, and refresh mechanisms.");
    ("Asynchronous Operations", "Sending email notifications, processing large datasets, and logging operations cannot all be performed synchronously without significant performance degradation.");
    ("Data Persistence", "Storing GitHub data while maintaining consistency, handling concurrent updates, and providing efficient queries requires sophisticated database schema design.");
    ("Observability", "In distributed systems, understanding request flows, identifying bottlenecks, and debugging issues becomes exponentially more complex without proper logging and monitoring infrastructure.")].

Definition objectives : list string :=
  [
    "Design a Scalable Microservice Architecture: Create a system composed of independent, loosely coupled services that can be developed, deployed, and scaled independently.";
    "Implement GitHub API Integration: Build robust integration with GitHub's REST API, handling authentication, pagination, rate limiting, and error scenarios.";
    "Develop Email Notification System: Implement a reliable email service capable of sending notifications asynchronously without blocking primary application logic.";
    "Establish Centralized Logging: Create a logging infrastructure that aggregates logs from multiple services for analysis and debugging.";
    "Ensure Security: Implement industry-standard security practices including JWT authentication, secure configuration management, and API protection.";
    "Demonstrate Production Readiness: Implement testing, error handling, and deployment configurations suitable for production environments."].

Definition questions : list string :=
  [
    "How can microservice architecture improve the scalability and maintainability of backend systems compared to monolithic approaches?";
    "What are the most effective patterns and practices for integrating external APIs (specifically GitHub) within a microservice architecture?";
    "How can NestJS features (dependency injection, modules, guards) be leveraged to build secure, maintainable microservices?";
    "What trade-offs exist between service independence and operational complexity when implementing distributed systems?";
    "How can centralized logging and monitoring be effectively implemented in a microservice environment?"].

Definition structure_text : string :=
  Py.lines [
    "This documentation is organized into twelve main sections:";
    "";
    "• Theoretical Background (Section 2) establishes foundational concepts in software architecture, microservices principles, and related technologies.";
    "";
    "• Technologies and Tools (Section 3) provides an in-depth overview of the specific technologies employed in the implementation.";
    "";
    "• System Requirements and Analysis (Section 4) details functional and non-functional requirements, use cases, and constraints.";
    "";
    "• System Architecture Design (Section 5) presents the overall system design, including service decomposition and data models.";
    "";
    "• Implementation Details (Section 6) describes how each component was implemented, including code examples and design decisions.";
    "";
    "• Testing and Validation (Section 7) covers testing strategies employed to ensure system correctness.";
    "";
    "• Security Considerations (Section 8) examines security measures implemented throughout the system.";
    "";
    "• Results and Evaluation (Section 9) analyzes the system's performance and achievement of objectives.";
    "";
    "• Future Improvements (Section 10) identifies potential enhancements and extensions.";
    "";
    "• Conclusion (Section 11) summarizes findings and addresses the research questions."].

Definition introduction : Prog unit :=
  doc_add_heading "1. Introduction" 1 ;;
  doc_add_heading "1.1 Background and Motivation" 2 ;;
  doc_add_paragraph "The evolution of software architecture over the past two decades has fundamentally transformed how developers approach building large-scale applications. Traditional monolithic architectures, while suitable for smaller projects, have shown significant limitations when addressing the demands of modern distributed systems, particularly in scenarios involving multiple external integrations and varying scalability requirements." None ;;
  doc_add_paragraph "GitHub has become the central platform for collaborative software development, hosting millions of repositories and serving as a critical component in many development workflows. The GitHub platform provides extensive APIs that enable programmatic access to repository data, user information, release management, and event processing. However, leveraging these APIs effectively requires careful handling of rate limits, authentication mechanisms, and data processing workflows." None ;;
  doc_add_paragraph "The motivation for this thesis stems from the practical need to build a backend system capable of:" None ;;
  for_each motivation_items (fun item =>
    doc_add_paragraph item (Some "List Bullet")) ;;
  doc_add_paragraph "The choice of NestJS as the primary framework is motivated by its rich ecosystem, built-in support for microservices patterns, strong TypeScript integration, and comprehensive documentation. NestJS provides excellent abstractions for implementing dependency injection, middleware chains, and module organization, making it an ideal choice for enterprise-grade backend systems." None ;;
  doc_add_heading "1.2 Problem Statement" 2 ;;
  doc_add_paragraph "Contemporary backend systems face several interconnected challenges when integrating external APIs like GitHub:" None ;;
  for_each problems (fun '(title, description) =>
    p <- doc_add_paragraph "" None ;;
    p_run <- add_run p (title ++ ": ") ;;
    set_bold p_run true ;;
    add_run p description) ;;
  doc_add_heading "1.3 Goals and Objectives" 2 ;;
  doc_add_paragraph "The primary objectives of this thesis are:" None ;;
  for_each (Py.enumerate objectives 1) (fun '(i, obj) =>
    doc_add_paragraph obj (Some "List Number")) ;;
  doc_add_heading "1.4 Research Questions" 2 ;;
  doc_add_paragraph "This thesis aims to answer the following research questions:" None ;;
  for_each questions (fun q =>
    doc_add_paragraph q (Some "List Number")) ;;
  doc_add_heading "1.5 Thesis Structure Overview" 2 ;;
  doc_add_paragraph structure_text None ;;
  doc_add_page_break ;;
  Ret tt.

(* ---------------------------------------------------------------------- *)
(** *** 2. THEORETICAL BACKGROUND *)

Definition char_mono : list string :=
  ["Single codebase and deployment unit"; "Shared database"; "Tight coupling between components"; "Unified technology stack"].

Definition adv_mono : list string :=
  ["Simpler initial development"; "Easier debugging and testing in early stages"; "Straightforward deployment process"].

Definition dis_mono : list string :=
  ["Difficult to scale individual components"; "Technology lock-in"; "Higher risk of cascading failures"; "Slower development cycles for large teams"; "Complex to modify and maintain"].

Definition soa_intro : string :=
  "Service-Oriented Architecture (SOA) is an intermediate approach between monolithic and microservices architectures. It breaks down a system into loosely coupled, reusable services that communicate through well-defined interfaces, typically using web services (SOAP, XML-RPC).".

Definition char_soa : list string :=
  ["Services are independent but may share databases"; "Services communicate through formal contracts"; "Emphasis on service reusability"; "Enterprise Service Bus (ESB) for message routing"].

Definition microservices_intro : string :=
  "Microservice architecture extends SOA principles further by emphasizing service independence, decentralized data management, and lightweight communication protocols. Each microservice is typically responsible for a single business capability and can be developed, deployed, and scaled independently.".

Definition char_ms : list string :=
  ["Small, focused services"; "Independent data stores per service"; "Lightweight communication (HTTP, event-based)"; "Decentralized development and deployment"; "Each service deployable independently"].

Definition adv_ms : list string :=
  ["True scalability - scale only what's needed"; "Technology flexibility per service"; "Independent development cycles"; "Fault isolation"; "Rapid deployment and iteration"; "Language and framework diversity"].

Definition data : list (list string) :=
  [
    ["Deployment"; "Single unit"; "Multiple services"; "Independent services"];
    ["Scalability"; "Component level"; "Service level"; "Fine-grained"];
    ["Technology"; "Unified"; "Mixed"; "Flexible per service"];
    ["Data Management"; "Shared DB"; "Often shared"; "Independent per service"]].

Definition principles : list (string * string) :=
  [
    ("Service Independence", "Each microservice should be independently deployable and developable. Services have their own codebase, can be deployed without redeploying others, can use different technology stacks, and can be developed by different teams.");
    ("Decentralized Data Management", "Rather than sharing a single database, each microservice manages its own data store. Services own their data schema, database schemas evolve independently, and data consistency is eventual rather than immediate.");
    ("Fault Isolation", "Failure of one service should not cascade to other services. Services communicate asynchronously when possible, circuit breakers prevent cascading failures, timeouts and retries are essential, and service discovery enables automatic recovery.");
    ("Scalability and Resilience", "Microservices architectures enable granular scaling. Services can be scaled independently based on demand, different services may require different infrastructure, horizontal scaling is straightforward, and load balancing distributes requests.")].

Definition nestjs_info : string :=
  Py.lines [
    "NestJS is a progressive Node.js framework for building efficient, scalable server-side applications. It uses TypeScript by default and combines elements of OOP (Object Oriented Programming), FP (Functional Programming), and FRP (Functional Reactive Programming).";
    "";
    "Key features of NestJS:";
    "";
    "• Strong TypeScript Support: Full TypeScript-first design with compile-time type checking";
    "• Dependency Injection: Powerful built-in IoC container for managing dependencies";
    "• Module System: Organized structure with module encapsulation and feature-based organization";
    "• Decorators: Simplify common patterns like routing, validation, and authentication";
    "• Middleware & Guards: Support for cross-cutting concerns";
    "• Exception Handling: Built-in exception filters and error handling";
    "• Database Integration: Seamless integration with TypeORM, Sequelize, Mongoose";
    "• Microservices Support: Built-in support for microservices patterns and message queues";
    "• WebSockets: Native support for real-time communication";
    "• Testing: Excellent support for unit and integration testing"].

Definition theoretical_background : Prog unit :=
  doc_add_heading "2. Theoretical Background" 1 ;;
  doc_add_heading "2.1 Software Architecture Concepts" 2 ;;
  doc_add_heading "2.1.1 Monolithic Architecture" 3 ;;
  doc_add_paragraph "A monolithic architecture represents the traditional approach to software design where an entire application is built as a single, unified codebase and deployed as a single unit. All features, business logic, and data access layers are tightly integrated within one application." None ;;
  doc_add_paragraph "Characteristics:" None ;;
  for_each char_mono (fun char =>
    doc_add_paragraph char (Some "List Bullet")) ;;
  doc_add_paragraph "Advantages:" None ;;
  for_each adv_mono (fun adv =>
    doc_add_paragraph adv (Some "List Bullet")) ;;
  doc_add_paragraph "Disadvantages:" None ;;
  for_each dis_mono (fun dis =>
    doc_add_paragraph dis (Some "List Bullet")) ;;
  doc_add_heading "2.1.2 Service-Oriented Architecture (SOA)" 3 ;;
  doc_add_paragraph soa_intro None ;;
  doc_add_paragraph "Characteristics:" None ;;
  for_each char_soa (fun char =>
    doc_add_paragraph char (Some "List Bullet")) ;;
  doc_add_heading "2.1.3 Microservice Architecture" 3 ;;
  doc_add_paragraph microservices_intro None ;;
  doc_add_paragraph "Characteristics:" None ;;
  for_each char_ms (fun char =>
    doc_add_paragraph char (Some "List Bullet")) ;;
  doc_add_paragraph "Advantages:" None ;;
  for_each adv_ms (fun adv =>
    doc_add_paragraph adv (Some "List Bullet")) ;;
  doc_add_heading "2.1.4 Comparison and Trade-offs" 3 ;;
  (* Add table *)
  table <- doc_add_table 5 4 ;;
  set_table_style table "Light Grid Accent 1" ;;
  header_cells <- rows_cells table 0 ;;
  set_text header_cells 0 "Aspect" ;;
  set_text header_cells 1 "Monolithic" ;;
  set_text header_cells 2 "SOA" ;;
  set_text header_cells 3 "Microservices" ;;
  for_each (Py.enumerate data 1) (fun '(i, row_data) =>
    cells <- rows_cells table i ;;
    for_each (Py.enumerate row_data 0) (fun '(j, cell_data) =>
      set_text cells j cell_data)) ;;
  doc_add_heading "2.2 Microservices Principles" 2 ;;
  for_each principles (fun '(title, description) =>
    doc_add_heading ("2.2." ++ Py.str (Py.len (filter (fun p => Py.str_le (fst p) title) principles)) ++ " " ++ title) 3 ;;
    doc_add_paragraph description None) ;;
  doc_add_heading "2.3 Backend Frameworks for Microservices" 2 ;;
  doc_add_heading "2.3.1 NestJS Framework" 3 ;;
  doc_add_paragraph nestjs_info None ;;
  doc_add_page_break ;;
  Ret tt.

(* ---------------------------------------------------------------------- *)
(** *** 3. TECHNOLOGIES AND TOOLS *)

Definition typescript_intro : string :=
  "TypeScript is a superset of JavaScript that adds static typing and advanced language features. It provides compile-time type checking, excellent IDE support, and improves code maintainability.".

Definition ts_benefits : list string :=
  [
    "Static Type Checking: Errors caught at compile-time rather than runtime";
    "Enhanced IDE Support: Accurate autocomplete, jump to definition, refactoring";
    "Self-Documenting Code: Type annotations serve as inline documentation";
    "Better Maintainability: Easier to understand code intent and facilitate team collaboration";
    "Advanced Features: Interfaces, generics, enums, decorators for metadata annotations"].

Definition db_intro : string :=
  "PostgreSQL is a powerful, open-source relational database system. It provides ACID compliance, complex queries, transactions, and excellent performance for structured data.".

Definition typeorm_features : list string :=
  [
    "Decorator-based entity definition";
    "Type-safe queries";
    "Automatic migrations";
    "Relation management";
    "Query builder for complex queries"].

Definition redis_intro : string :=
  "Redis is an in-memory data structure store used for caching, sessions, and message queues. It provides fast access to frequently used data and supports multiple data types (strings, lists, sets, hashes).".

Definition redis_uses : list string :=
  [
    "Caching frequently accessed data to reduce database load";
    "Session storage for user authentication";
    "Message queues for asynchronous operations";
    "Logging aggregation from multiple services"].

Definition docker_intro : string :=
  "Docker enables containerization of applications, providing consistency across development, testing, and production environments. Docker Compose orchestrates multiple containers for local development and deployment.".

Definition docker_benefits : list string :=
  [
    "Development: Consistent environment across developers";
    "Testing: Reproducible test environment";
    "Deployment: Same containers move from dev to production";
    "Scaling: Easily replicate services";
    "Isolation: Services run in isolated environments"].

Definition github_info : string :=
  Py.lines [
    "GitHub provides a comprehensive REST API for programmatic access to repository data. The system uses Personal Access Tokens for authentication, supporting scopes like 'repo', 'gist', 'user' etc.";
    "";
    "Key API Features:";
    "• Repository operations and metadata retrieval";
    "• Release management and version tracking";
    "• User and organization information";
    "• Event streaming and webhooks";
    "• Search functionality with advanced filters";
    "• Rate limiting: 5,000 requests/hour per authenticated user"].

Definition email_info : string :=
  Py.lines [
    "The system supports multiple email providers through Nodemailer:";
    "• Gmail with App Passwords";
    "• Custom SMTP servers";
    "• Third-party services (SendGrid, Mailgun, AWS SES)";
    "";
    "Email delivery is asynchronous to prevent blocking primary application logic."].

Definition technologies_and_tools : Prog unit :=
  doc_add_heading "3. Technologies and Tools" 1 ;;
  doc_add_heading "3.1 Programming Language: TypeScript" 2 ;;
  doc_add_paragraph typescript_intro None ;;
  doc_add_paragraph "Key Benefits:" None ;;
  for_each ts_benefits (fun benefit =>
    doc_add_paragraph benefit (Some "List Bullet")) ;;
  doc_add_heading "3.2 Database: PostgreSQL and TypeORM" 2 ;;
  doc_add_paragraph db_intro None ;;
  doc_add_paragraph "TypeORM is an ORM that bridges the gap between object-oriented code and relational databases:" None ;;
  for_each typeorm_features (fun feature =>
    doc_add_paragraph feature (Some "List Bullet")) ;;
  doc_add_heading "3.3 Redis" 2 ;;
  doc_add_paragraph redis_intro None ;;
  doc_add_paragraph "Use Cases in this Project:" None ;;
  for_each redis_uses (fun use =>
    doc_add_paragraph use (Some "List Bullet")) ;;
  doc_add_heading "3.4 Docker and Docker Compose" 2 ;;
  doc_add_paragraph docker_intro None ;;
  doc_add_paragraph "Benefits:" None ;;
  for_each docker_benefits (fun benefit =>
    doc_add_paragraph benefit (Some "List Bullet")) ;;
  doc_add_heading "3.5 External Services" 2 ;;
  doc_add_heading "3.5.1 GitHub REST API" 3 ;;
  doc_add_paragraph github_info None ;;
  doc_add_heading "3.5.2 Email Services" 3 ;;
  doc_add_paragraph email_info None ;;
  doc_add_page_break ;;
  Ret tt.

(* ---------------------------------------------------------------------- *)
(** *** 4. SYSTEM REQUIREMENTS AND ANALYSIS *)

Definition user_reqs : list string :=
  [
    "F1.1: Users must be able to register with username, email, and password";
    "F1.2: Users must be able to login with credentials";
    "F1.3: Users must be able to update their profile information";
    "F1.4: Users must be able to logout and invalidate their session";
    "F1.5: System must support password reset functionality"].

Definition github_reqs : list string :=
  [
    "F2.1: System must fetch repository information from GitHub API";
    "F2.2: System must store retrieved repository data in database";
    "F2.3: System must support repository search functionality";
    "F2.4: System must retrieve and display repository releases";
    "F2.5: System must handle GitHub API rate limiting gracefully";
    "F2.6: System must support pagination for large result sets"].

Definition email_reqs : list string :=
  [
    "F3.1: System must send email confirmations after user registration";
    "F3.2: System must send email notifications for important events";
    "F3.3: System must support asynchronous email delivery";
    "F3.4: System must log email sending attempts and results";
    "F3.5: System must support email template customization"].

Definition log_reqs : list string :=
  [
    "F4.1: System must log all API requests";
    "F4.2: System must log errors and exceptions with stack traces";
    "F4.3: System must aggregate logs from all services";
    "F4.4: System must support different log levels (debug, info, warn, error)";
    "F4.5: System must persist logs for historical analysis"].

Definition perf_reqs : list string :=
  [
    "NF1.1: API responses for cached data must complete within 100ms";
    "NF1.2: API responses for fresh data must complete within 2 seconds";
    "NF1.3: Email delivery must complete within 5 seconds from API call";
    "NF1.4: System must handle 100 concurrent users without degradation"].

Definition scalability_reqs : list string :=
  [
    "NF2.1: Each service must be independently scalable";
    "NF2.2: System must support horizontal scaling of stateless services";
    "NF2.3: Database connection pooling must prevent resource exhaustion";
    "NF2.4: Cache must support distributed invalidation"].

Definition sec_reqs : list string :=
  [
    "NF4.1: All sensitive data must be encrypted in transit (TLS)";
    "NF4.2: All sensitive data must be encrypted at rest";
    "NF4.3: JWT tokens must be signed with strong algorithms";
    "NF4.4: API credentials must never be logged or exposed"].

Definition roles : list (string * list string) :=
  [
    ("Anonymous User", ["Can browse public information (if available)"; "Can register for an account"; "Cannot access protected resources"]);
    ("Authenticated User", ["Can access their own data"; "Can search for repositories"; "Can manage their profile"; "Can receive email notifications"]);
    ("System Administrator", ["Can monitor system health"; "Can view logs from all services"; "Can manage user accounts"; "Can configure system parameters"])].

Definition constraints : list string :=
  [
    "GitHub API: 5,000 requests per hour for authenticated users, rate limiting enforcement";
    "Email Provider: Rate limits and bounce handling required";
    "Database: PostgreSQL version 12 or higher";
    "Node.js: Version 16 or higher";
    "Docker: Version 20.10 or higher";
    "Internet: Persistent connection required for external APIs"].

Definition system_requirements_and_analysis : Prog unit :=
  doc_add_heading "4. System Requirements and Analysis" 1 ;;
  doc_add_heading "4.1 Functional Requirements" 2 ;;
  doc_add_heading "4.1.1 User Management" 3 ;;
  for_each user_reqs (fun req =>
    doc_add_paragraph req (Some "List Bullet")) ;;
  doc_add_heading "4.1.2 GitHub Integration" 3 ;;
  for_each github_reqs (fun req =>
    doc_add_paragraph req (Some "List Bullet")) ;;
  doc_add_heading "4.1.3 Email Notifications" 3 ;;
  for_each email_reqs (fun req =>
    doc_add_paragraph req (Some "List Bullet")) ;;
  doc_add_heading "4.1.4 Logging" 3 ;;
  for_each log_reqs (fun req =>
    doc_add_paragraph req (Some "List Bullet")) ;;
  doc_add_heading "4.2 Non-Functional Requirements" 2 ;;
  doc_add_heading "4.2.1 Performance" 3 ;;
  for_each perf_reqs (fun req =>
    doc_add_paragraph req (Some "List Bullet")) ;;
  doc_add_heading "4.2.2 Scalability" 3 ;;
  for_each scalability_reqs (fun req =>
    doc_add_paragraph req (Some "List Bullet")) ;;
  doc_add_heading "4.2.3 Security" 3 ;;
  for_each sec_reqs (fun req =>
    doc_add_paragraph req (Some "List Bullet")) ;;
  doc_add_heading "4.3 User Roles and Use Cases" 2 ;;
  doc_add_heading "4.3.1 User Roles" 3 ;;
  for_each roles (fun '(role_name, role_perms) =>
    doc_add_heading role_name 4 ;;
    for_each role_perms (fun perm =>
      doc_add_paragraph perm (Some "List Bullet"))) ;;
  doc_add_heading "4.4 System Constraints and Assumptions" 2 ;;
  for_each constraints (fun constraint =>
    doc_add_paragraph constraint (Some "List Bullet")) ;;
  doc_add_page_break ;;
  Ret tt.

(* ---------------------------------------------------------------------- *)
(** *** 5. SYSTEM ARCHITECTURE DESIGN *)

Definition arch_intro : string :=
  Py.lines [
    "The system follows a microservice-based architecture with the following main components:";
    "";
    "1. API Gateway: Single entry point for all client requests, handles authentication, routing, and aggregation";
    "2. GitHub Stack Service: Core service for GitHub API integration and repository management";
    "3. Email Service: Handles asynchronous email delivery";
    "4. Logger Service: Centralized log aggregation and analysis";
    "5. PostgreSQL Database: Persistent storage for users, repositories, and metadata";
    "6. Redis: In-memory cache and message queue for inter-service communication"].

Definition gateway_resp : list string :=
  [
    "Request routing to appropriate services";
    "Authentication enforcement (JWT validation)";
    "Request validation and sanitization";
    "Response aggregation";
    "Rate limiting and throttling";
    "Load balancing across service instances"].

Definition github_stack_resp : list string :=
  [
    "GitHub REST API integration";
    "Repository data retrieval and caching";
    "Release management";
    "Rate limit handling";
    "Data transformation and validation";
    "Background job scheduling for syncing"].

Definition email_resp : list string :=
  [
    "Asynchronous email queue processing";
    "SMTP configuration management";
    "Email template rendering";
    "Delivery tracking and logging";
    "Retry logic for failed deliveries"].

Definition logger_resp : list string :=
  [
    "Centralized log aggregation";
    "Log persistence and storage";
    "Log search and filtering";
    "Metrics and analytics";
    "Alert generation for critical events"].

Definition db_design : string :=
  Py.lines [
    "The system uses PostgreSQL with TypeORM for data persistence. Key entities include:";
    "";
    "• User: Stores user accounts with authentication credentials";
    "• Repository: Caches GitHub repository information";
    "• Release: Tracks GitHub releases and versions";
    "• AuthToken: Manages JWT tokens and refresh tokens";
    "";
    "All entities include timestamps for audit trails and support relationships for data integrity."].

Definition comm_intro : string :=
  Py.lines [
    "Services communicate using REST APIs with HTTP. For asynchronous operations, Redis message queues are used to decouple services:";
    "";
    "1. Synchronous: Gateway calls GitHub Stack Service for API requests";
    "2. Asynchronous: Email Service consumes messages from Redis queue";
    "3. Logging: All services push logs to Redis and Logger Service";
    "";
    "This design ensures services remain loosely coupled and can fail independently."].

Definition system_architecture_design : Prog unit :=
  doc_add_heading "5. System Architecture Design" 1 ;;
  doc_add_heading "5.1 Overall Architecture Overview" 2 ;;
  doc_add_paragraph arch_intro None ;;
  doc_add_heading "5.2 Service Responsibilities" 2 ;;
  doc_add_heading "5.2.1 API Gateway" 3 ;;
  for_each gateway_resp (fun resp =>
    doc_add_paragraph resp (Some "List Bullet")) ;;
  doc_add_heading "5.2.2 GitHub Stack Service" 3 ;;
  for_each github_stack_resp (fun resp =>
    doc_add_paragraph resp (Some "List Bullet")) ;;
  doc_add_heading "5.2.3 Email Service" 3 ;;
  for_each email_resp (fun resp =>
    doc_add_paragraph resp (Some "List Bullet")) ;;
  doc_add_heading "5.2.4 Logger Service" 3 ;;
  for_each logger_resp (fun resp =>
    doc_add_paragraph resp (Some "List Bullet")) ;;
  doc_add_heading "5.3 Database Design" 2 ;;
  doc_add_paragraph db_design None ;;
  doc_add_heading "5.4 Communication Patterns" 2 ;;
  doc_add_paragraph comm_intro None ;;
  doc_add_page_break ;;
  Ret tt.

(* ---------------------------------------------------------------------- *)
(** *** 6. IMPLEMENTATION DETAILS *)

Definition structure_intro : string :=
  Py.lines [
    "The project follows a monorepo structure using NestJS CLI:";
    "";
    "GitHub_Project/";
    "  ├── apps/";
    "  │   ├── gateway/          # API Gateway service";
    "  │   ├── github-stack/     # GitHub integration service";
    "  │   ├── email/            # Email delivery service";
    "  │   └── logger/           # Logging aggregation service";
    "  ├── docker-compose.yaml   # Service orchestration";
    "  ├── package.json         # Shared dependencies";
    "  └── tsconfig.json        # TypeScript configuration";
    "";
    "Each service is independently deployable with its own Dockerfile."].

Definition tech_data : list (list string) :=
  [
    ["Framework"; "NestJS 10+"];
    ["Language"; "TypeScript 5+"];
    ["Database"; "PostgreSQL 15"];
    ["Cache/Queue"; "Redis 7"];
    ["Runtime"; "Node.js 18+"];
    ["Containerization"; "Docker & Docker Compose"]].

Definition deps_intro : string :=
  Py.lines [
    "The project uses several key libraries to support microservices architecture:";
    "";
    "Core NestJS Packages:";
    "• @nestjs/common: Core functionality";
    "• @nestjs/platform-express: HTTP server";
    "• @nestjs/typeorm: Database ORM integration";
    "• @nestjs/jwt: JWT authentication";
    "• @nestjs/config: Configuration management";
    "• @nestjs/schedule: Task scheduling";
    "• @nestjs/axios: HTTP client for external APIs";
    "";
    "Data and Persistence:";
    "• typeorm: Object-relational mapping";
    "• pg: PostgreSQL driver";
    "• ioredis: Redis client";
    "";
    "Authentication:";
    "• passport: Authentication middleware";
    "• passport-jwt: JWT strategy";
    "• bcrypt: Password hashing";
    "";
    "Utilities:";
    "• class-validator: Data validation";
    "• class-transformer: DTO transformation";
    "• nodemailer: Email sending";
    "• axios: HTTP requests"].

Definition security_impl : string :=
  Py.lines [
    "Security is implemented at multiple layers:";
    "";
    "1. Authentication: JWT-based authentication with access and refresh tokens";
    "2. Authorization: Role-based access control (RBAC) on protected endpoints";
    "3. Input Validation: Class-validator pipes for all DTOs";
    "4. Password Security: bcrypt hashing with salt rounds";
    "5. Configuration: Environment variables for sensitive data";
    "6. CORS: Configured to allow only trusted origins";
    "7. Rate Limiting: Express rate-limit middleware on API endpoints";
    "8. Error Handling: Proper exception filters to avoid information leakage"].

Definition testing_info : string :=
  Py.lines [
    "The project implements a comprehensive testing strategy:";
    "";
    "Unit Tests:";
    "• Test individual services and utilities in isolation";
    "• Mock external dependencies";
    "• Use Jest with coverage reports";
    "";
    "Integration Tests:";
    "• Test service interactions with databases";
    "• Test API gateway routing";
    "• Test external API calls with mocks";
    "";
    "End-to-End (E2E) Tests:";
    "• Test complete user workflows";
    "• Test authentication flows";
    "• Test error scenarios and edge cases";
    "";
    "Test Configuration:";
    "• Jest as test runner";
    "• ts-jest for TypeScript support";
    "• @nestjs/testing for NestJS utilities";
    "• supertest for HTTP testing"].

Definition implementation_details : Prog unit :=
  doc_add_heading "6. Implementation Details" 1 ;;
  doc_add_heading "6.1 Project Structure" 2 ;;
  doc_add_paragraph structure_intro None ;;
  doc_add_heading "6.2 Technology Stack Summary" 2 ;;
  tech_table <- doc_add_table 7 2 ;;
  set_table_style tech_table "Light Grid Accent 1" ;;
  headers <- rows_cells tech_table 0 ;;
  set_text headers 0 "Component" ;;
  set_text headers 1 "Technology" ;;
  for_each (Py.enumerate tech_data 1) (fun '(i, row_data) =>
    cells <- rows_cells tech_table i ;;
    text <- item row_data 0 ;;
    set_text cells 0 text ;;
    text <- item row_data 1 ;;
    set_text cells 1 text) ;;
  doc_add_heading "6.3 Key Libraries and Dependencies" 2 ;;
  doc_add_paragraph deps_intro None ;;
  doc_add_heading "6.4 Security Implementation" 2 ;;
  doc_add_paragraph security_impl None ;;
  doc_add_heading "6.5 Testing Strategy" 2 ;;
  doc_add_paragraph testing_info None ;;
  doc_add_page_break ;;
  Ret tt.

(* ---------------------------------------------------------------------- *)
(** *** 7. SECURITY CONSIDERATIONS *)

Definition config_intro : string :=
  Py.lines [
    "Sensitive configuration is managed through environment variables:";
    "";
    "Development (.env file - not committed):";
    "• Database credentials";
    "• GitHub access token";
    "• JWT secrets";
    "• Email provider credentials";
    "";
    "Production (Environment variables):";
    "• Set in deployment platform (Docker, Kubernetes, Cloud providers)";
    "• Never hardcoded in source code";
    "• Rotated regularly";
    "• Validated on startup"].

Definition auth_info : string :=
  Py.lines [
    "JWT-based Authentication:";
    "";
    "1. User Registration: Password hashed with bcrypt (10 salt rounds)";
    "2. User Login: Validates credentials and issues tokens";
    "3. Access Token: Short-lived (15 minutes) for API requests";
    "4. Refresh Token: Long-lived (7 days) for obtaining new access tokens";
    "5. Token Validation: Verified on every protected endpoint";
    "";
    "Authorization:";
    "• Role-based access control (RBAC)";
    "• Guards prevent unauthorized access";
    "• Different endpoints have different permission requirements"].

Definition data_protect : string :=
  Py.lines [
    "Data is protected through:";
    "";
    "In Transit:";
    "• TLS/SSL encryption for all HTTP connections";
    "• HTTPS enforced in production";
    "• Secure SMTP connections for email";
    "";
    "At Rest:";
    "• Database encryption supported";
    "• Sensitive fields encrypted with custom transformers";
    "• Secure password hashing";
    "";
    "API Security:";
    "• Input validation for all requests";
    "• SQL injection prevention through TypeORM";
    "• CSRF protection";
    "• Rate limiting to prevent brute force attacks";
    "• XSS prevention through proper response handling"].

Definition external_api : string :=
  Py.lines [
    "GitHub API Integration:";
    "";
    "• Personal Access Tokens never logged";
    "• Rate limit headers monitored";
    "• Exponential backoff for rate limits";
    "• Error responses don't leak sensitive data";
    "• Request validation and sanitization";
    "";
    "Email Service:";
    "";
    "• SMTP credentials in environment variables";
    "• TLS required for email transmission";
    "• Email validation before sending";
    "• No credentials in logs";
    "• Secure headers prevent email injection"].

Definition security_considerations : Prog unit :=
  doc_add_heading "7. Security Considerations" 1 ;;
  doc_add_heading "7.1 Secure Configuration Management" 2 ;;
  doc_add_paragraph config_intro None ;;
  doc_add_heading "7.2 Authentication and Authorization" 2 ;;
  doc_add_paragraph auth_info None ;;
  doc_add_heading "7.3 Data Protection" 2 ;;
  doc_add_paragraph data_protect None ;;
  doc_add_heading "7.4 External API Security" 2 ;;
  doc_add_paragraph external_api None ;;
  doc_add_page_break ;;
  Ret tt.

(* ---------------------------------------------------------------------- *)
(** *** 8. RESULTS AND EVALUATION *)

Definition performance_intro : string :=
  Py.lines [
    "The implemented system demonstrates solid performance characteristics:";
    "";
    "Response Times:";
    "• Cached data retrieval: 50-100ms";
    "• Fresh API calls: 800-1500ms";
    "• Database operations: 100-300ms";
    "• Email sending: 2000-5000ms";
    "";
    "Throughput:";
    "• Gateway: 500+ requests/second";
    "• GitHub Service: 200+ requests/second";
    "• Email Service: 50+ emails/second";
    "";
    "Resource Usage:";
    "• Gateway: 80-120MB memory";
    "• GitHub Service: 100-150MB memory";
    "• Database: 200-300MB memory";
    "• Redis: 50-100MB memory"].

Definition scalability : string :=
  Py.lines [
    "Horizontal Scaling Capabilities:";
    "";
    "Single Instance Baseline:";
    "• Throughput: 500 req/sec";
    "• Response time (p95): 400ms";
    "• Database CPU: 60-70%";
    "";
    "After Scaling (3x Gateway, 3x GitHub Service):";
    "• Throughput: 1500 req/sec (3x improvement)";
    "• Response time (p95): 200ms (50% improvement)";
    "• Database CPU: Remains at 20-30% due to caching";
    "";
    "Scaling Benefits:";
    "• Independent service scaling";
    "• Load distributed across instances";
    "• Better resource utilization";
    "• Improved fault tolerance";
    "• Easier maintenance and updates"].

Definition objectives_met : string :=
  Py.lines [
    "1. Scalable Microservice Architecture: ✓ Achieved";
    "   • Four independent services that can be deployed separately";
    "   • Horizontal scaling demonstrated";
    "";
    "2. GitHub API Integration: ✓ Achieved";
    "   • Successfully integrated GitHub REST API";
    "   • Handles rate limiting and caching";
    "   • Proper error handling";
    "";
    "3. Email Notification System: ✓ Achieved";
    "   • Asynchronous email delivery";
    "   • Multiple provider support";
    "   • Delivery tracking";
    "";
    "4. Centralized Logging: ✓ Achieved";
    "   • Aggregates logs from all services";
    "   • Redis-based persistence";
    "   • Search and filtering capabilities";
    "";
    "5. Security Implementation: ✓ Achieved";
    "   • JWT authentication";
    "   • Secure configuration";
    "   • Input validation";
    "   • Password hashing";
    "";
    "6. Production Readiness: ✓ Achieved";
    "   • Comprehensive test coverage";
    "   • Docker containerization";
    "   • Error handling";
    "   • Health checks"].

Definition limitations : string :=
  Py.lines [
    "Current Limitations:";
    "";
    "1. GitHub API Rate Limiting: 5,000 requests/hour per token";
    "   → Mitigation: Implement caching and request aggregation";
    "";
    "2. Single Database Instance: Becomes bottleneck at very high load";
    "   → Future: Read replicas and database sharding";
    "";
    "3. Email Queue Persistence: Redis queue not persistent";
    "   → Future: Upgrade to RabbitMQ or Kafka";
    "";
    "4. Token Revocation: No immediate token blacklist";
    "   → Future: Implement Redis-based token blacklist";
    "";
    "5. Authorization Granularity: Basic RBAC only";
    "   → Future: Implement fine-grained authorization (ABAC)";
    "";
    "Future Enhancements:";
    "";
    "• CI/CD pipeline integration";
    "• Kubernetes deployment configuration";
    "• Prometheus metrics collection";
    "• ELK stack for advanced logging";
    "• GraphQL API layer";
    "• WebSocket support for real-time updates";
    "• Multi-tenant support";
    "• Advanced caching strategies";
    "• Service mesh implementation"].

Definition results_and_evaluation : Prog unit :=
  doc_add_heading "8. Results and Evaluation" 1 ;;
  doc_add_heading "8.1 System Performance" 2 ;;
  doc_add_paragraph performance_intro None ;;
  doc_add_heading "8.2 Scalability Evaluation" 2 ;;
  doc_add_paragraph scalability None ;;
  doc_add_heading "8.3 Achievement of Objectives" 2 ;;
  doc_add_paragraph objectives_met None ;;
  doc_add_heading "8.4 Limitations and Future Work" 2 ;;
  doc_add_paragraph limitations None ;;
  doc_add_page_break ;;
  Ret tt.

(* ---------------------------------------------------------------------- *)
(** *** 9. CONCLUSION *)

Definition conclusion_text : string :=
  Py.lines [
    "This thesis has presented a comprehensive design and implementation of a microservice-based system for processing GitHub repository data using NestJS and modern backend technologies. The system successfully demonstrates how to build scalable, maintainable distributed systems that integrate with external APIs, manage authentication securely, and provide reliable asynchronous operations.";
    "";
    "Key Achievements:";
    "";
    "1. Successfully designed and implemented a microservice architecture that separates concerns across independent services";
    "2. Developed robust GitHub API integration with proper error handling and rate limit management";
    "3. Implemented secure JWT-based authentication with refresh token mechanisms";
    "4. Created asynchronous email notification system";
    "5. Established centralized logging and monitoring infrastructure";
    "6. Applied industry-standard security practices throughout the system";
    "7. Demonstrated scalability through Docker containerization and multi-service deployment";
    "";
    "Research Questions Answered:";
    "";
    "Q1: How can microservice architecture improve scalability and maintainability?";
    "→ The implementation shows that independent services can be scaled separately, developed in parallel, and deployed without affecting other services, significantly improving both scalability and maintainability compared to monolithic approaches.";
    "";
    "Q2: What are effective patterns for integrating external APIs?";
    "→ The GitHub Stack Service demonstrates effective patterns: proper authentication, caching strategies, rate limit handling, error recovery, and data transformation at service boundaries.";
    "";
    "Q3: How can NestJS features enable secure microservices?";
    "→ NestJS's dependency injection, guard system, pipe validation, and modular architecture provide strong foundation for secure, maintainable microservices.";
    "";
    "Q4: What trade-offs exist in distributed systems?";
    "→ The implementation reveals trade-offs between operational complexity vs. scalability benefits, eventual consistency vs. immediate consistency, and development complexity vs. deployment flexibility.";
    "";
    "Q5: How to implement centralized logging effectively?";
    "→ Redis-based logging provides scalable aggregation with fast retrieval, suitable for debugging and analysis.";
    "";
    "Production Readiness:";
    "";
    "The system is production-ready with:";
    "• Comprehensive test coverage (unit, integration, e2e)";
    "• Proper error handling and recovery mechanisms";
    "• Health checks and monitoring capabilities";
    "• Docker containerization for consistent deployment";
    "• Environment-based configuration";
    "• Security best practices implemented";
    "• Logging and audit trails";
    "";
    "This thesis serves as a practical guide for implementing microservice architectures using NestJS and demonstrates that with proper design patterns, architecture, and engineering practices, microservices can be effectively implemented and maintained."].

Definition conclusion : Prog unit :=
  doc_add_heading "9. Conclusion" 1 ;;
  doc_add_paragraph conclusion_text None ;;
  doc_add_page_break ;;
  Ret tt.

(* ---------------------------------------------------------------------- *)
(** *** 10. REFERENCES *)

Definition official_refs : list string :=
  [
    "NestJS Documentation: https://docs.nestjs.com/";
    "GitHub REST API v3: https://docs.github.com/en/rest";
    "Docker Documentation: https://docs.docker.com/";
    "PostgreSQL Documentation: https://www.postgresql.org/docs/";
    "Redis Documentation: https://redis.io/documentation";
    "TypeScript Handbook: https://www.typescriptlang.org/docs/";
    "TypeORM Documentation: https://typeorm.io/"].

Definition books : list string :=
  [
    "Sam Newman (2021): Building Microservices: Designing Fine-Grained Systems";
    "Martin Fowler (2015): Microservice Architecture";
    "Eric Evans (2003): Domain-Driven Design";
    "Robert C. Martin (2008): Clean Code";
    "Newman, S. (2019): Monolith to Microservices - Evolving Systems One Service at a Time (O'Reilly Media)"].

Definition tools : list string :=
  [
    "Passport.js: http://www.passportjs.org/";
    "Nodemailer: https://nodemailer.com/";
    "Jest: https://jestjs.io/";
    "Docker Hub: https://hub.docker.com/";
    "npm Registry: https://www.npmjs.com/"].

Definition references : Prog unit :=
  doc_add_heading "10. References" 1 ;;
  doc_add_heading "Official Documentation" 2 ;;
  for_each official_refs (fun ref =>
    doc_add_paragraph ref (Some "List Bullet")) ;;
  doc_add_heading "Books and Academic Sources" 2 ;;
  for_each books (fun book =>
    doc_add_paragraph book (Some "List Bullet")) ;;
  doc_add_heading "Tools and Libraries" 2 ;;
  for_each tools (fun tool =>
    doc_add_paragraph tool (Some "List Bullet")) ;;
  doc_add_page_break ;;
  Ret tt.

(* ---------------------------------------------------------------------- *)
(** *** 11. APPENDICES *)

Definition config_example : string :=
  Py.lines [
    "# Environment";
    "NODE_ENV=development";
    "";
    "# Server";
    "PORT=3000";
    "GATEWAY_PORT=3000";
    "GITHUB_SERVICE_PORT=3001";
    "EMAIL_SERVICE_PORT=3002";
    "LOGGER_SERVICE_PORT=3003";
    "";
    "# Database";
    "DB_HOST=postgres";
    "DB_PORT=5432";
    "DB_USERNAME=postgres";
    "DB_PASSWORD=postgres";
    "DB_NAME=github_stack";
    "DB_SYNCHRONIZE=true";
    "";
    "# Redis";
    "REDIS_HOST=redis";
    "REDIS_PORT=6379";
    "";
    "# GitHub";
    "GITHUB_TOKEN=ghp_xxxxxxxxxxxxxxxxxxxx";
    "GITHUB_API_BASE=https://api.github.com";
    "";
    "# Email";
    "EMAIL_PROVIDER=gmail";
    "EMAIL_USER=your-email@gmail.com";
    "EMAIL_PASSWORD=app-password";
    "EMAIL_FROM=noreply@github-stack.com";
    "";
    "# JWT";
    "JWT_SECRET=your-super-secret-key-min-32-chars";
    "JWT_EXPIRATION=900";
    "JWT_REFRESH_SECRET=your-refresh-secret";
    "JWT_REFRESH_EXPIRATION=604800";
    "";
    "# Logging";
    "LOG_LEVEL=info"].

Definition endpoints : list string :=
  [
    "POST /auth/register - Register new user";
    "POST /auth/login - Login and receive tokens";
    "POST /auth/refresh - Refresh access token";
    "GET /users/profile - Get current user profile";
    "GET /github/repositories/:owner/:repo - Get repository details";
    "GET /github/repositories/search?q=query - Search repositories";
    "GET /github/repositories/:owner/:repo/releases - Get releases";
    "POST /email/send - Send email notification";
    "GET /logs - Retrieve system logs";
    "GET /health - Service health check"].

Definition docker_commands : string :=
  Py.lines [
    "# Build all services";
    "docker-compose build";
    "";
    "# Start all services";
    "docker-compose up -d";
    "";
    "# View logs";
    "docker-compose logs -f";
    "";
    "# Stop services";
    "docker-compose down";
    "";
    "# Run migrations";
    "docker-compose exec github-stack npm run typeorm migration:run";
    "";
    "# Run tests";
    "docker-compose exec github-stack npm test"].

Definition test_commands : string :=
  Py.lines [
    "# Run all tests";
    "npm test";
    "";
    "# Run tests with coverage";
    "npm run test:cov";
    "";
    "# Run specific test file";
    "npm test -- auth.service.spec";
    "";
    "# Run tests in watch mode";
    "npm run test:watch";
    "";
    "# Run E2E tests";
    "npm run test:e2e"].

Definition appendices : Prog unit :=
  doc_add_heading "11. Appendices" 1 ;;
  doc_add_heading "A. Configuration Example (.env)" 2 ;;
  config_para <- doc_add_paragraph config_example None ;;
  set_style config_para "No Spacing" ;;
  doc_add_heading "B. Key API Endpoints" 2 ;;
  for_each endpoints (fun endpoint =>
    doc_add_paragraph endpoint (Some "List Bullet")) ;;
  doc_add_heading "C. Docker Deployment Commands" 2 ;;
  docker_para <- doc_add_paragraph docker_commands None ;;
  set_style docker_para "No Spacing" ;;
  doc_add_heading "D. Testing Commands" 2 ;;
  test_para <- doc_add_paragraph test_commands None ;;
  set_style test_para "No Spacing" ;;
  Ret tt.

(* ---------------------------------------------------------------------- *)
(** *** Save document *)

Definition output_path : string :=
  "c:\Users\Administrator\Desktop\Final_Project_2026\GitHub_Project\GitHub_Stack_Bachelor_Thesis.docx".

Definition save_document : Prog unit :=
  doc_save output_path ;;
  print ("✓ Document created successfully: " ++ output_path) ;;
  print "✓ Document contains:" ;;
  print "  - Professional title page" ;;
  print "  - Table of contents" ;;
  print "  - 11 main sections with comprehensive content" ;;
  print "  - Multiple subsections with detailed explanations" ;;
  print "  - Tables and structured data" ;;
  print "  - Security and implementation details" ;;
  print "  - References and appendices" ;;
  print "  - Proper formatting and styling" ;;
  Ret tt.

(** The whole script, top to bottom. *)
Definition content : Prog unit :=
  title_page ;;
  table_of_contents ;;
  abstract ;;
  introduction ;;
  theoretical_background ;;
  technologies_and_tools ;;
  system_requirements_and_analysis ;;
  system_architecture_design ;;
  implementation_details ;;
  security_considerations ;;
  results_and_evaluation ;;
  conclusion ;;
  references ;;
  appendices.

Definition script : Prog unit :=
  set_document_margins ;;
  content ;;
  save_document.

(** The world a run starts in: [doc = Document()] on the library's
    template, the files already on disk, nothing printed. *)
Definition start (template : list Section_) (disk : list (string * Document)) : World :=
  mkWorld (Document_ template) disk [].

(* ====================================================================== *)
(** ** Definitions used in the statements *)
(* ====================================================================== *)

Open Scope list_scope.

(** The world with another block sequence. *)
Definition with_body (w : World) (bs : list Block) : World :=
  set_doc w (set_body (doc w) bs).

(** The margins every section gets from the script. *)
Definition page_margins : Section_ :=
  mkSection (Some (Inches 1)) (Some (Inches 1))
    (Some (Inches 1.25)) (Some (Inches 1.25)).

(** The four margin assignments on the section at a position. *)
Definition margin_calls (i : nat) : list Op :=
  [SetMargin (section_at i) TopMargin (Inches 1);
   SetMargin (section_at i) BottomMargin (Inches 1);
   SetMargin (section_at i) LeftMargin (Inches 1.25);
   SetMargin (section_at i) RightMargin (Inches 1.25)].

(** The environment of a run that can write nowhere. *)
Definition closed_env : Env := mkEnv (fun _ => false) "" (fun _ => None).

(** The blocks the content part builds. *)
Definition thesis_body : list Block :=
  body (doc (final closed_env content (start [] []))).

(** The calls the content part makes. *)
Definition thesis_trace : list Op :=
  trace closed_env content (start [] []).

(** The environment of a run that can write everywhere. *)
Definition open_env : Env := mkEnv (fun _ => true) "" (fun _ => None).

(** The lines the script prints after a successful save. *)
Definition summary : list string :=
  stdout (final open_env save_document (start [] [])).

(** The text of a call is the first run of the paragraph it made (the
    empty text makes no run). *)
Definition first_text (p : Paragraph) (text : string) : bool :=
  if String.eqb text "" then true
  else match p_runs p with
       | r :: _ => String.eqb (run_text r) text
       | [] => false
       end.

(** A block is the one a call made. *)
Definition made_by (c : Call) (b : Block) : bool :=
  match c, b with
  | add_paragraph text _, Para p => first_text p text
  | add_heading text level, Heading l p => (l =? level) && first_text p text
  | add_table rows cols, Tbl t =>
      (Z.of_nat (List.length (t_rows t)) =? rows) &&
      forallb (fun r => Z.of_nat (List.length r) =? cols) (t_rows t)
  | add_page_break, PageBreak => true
  | _, _ => false
  end.

(** Two lists agree, element by element. *)
Fixpoint all2 {A B} (f : A -> B -> bool) (l : list A) (l' : list B) : bool :=
  match l, l' with
  | [], [] => true
  | x :: l, y :: l' => f x y && all2 f l l'
  | _, _ => false
  end.



(** Equality of kinds, as a test. *)
Definition kind_eqb (k k' : Kind) : bool :=
  match k, k' with
  | KHeading, KHeading | KParagraph, KParagraph
  | KTable, KTable | KPageBreak, KPageBreak => true
  | _, _ => false
  end.



(** The calls that assign a margin, save, and read the clock. *)
Definition is_set_margin (o : Op) : bool :=
  match o with
  | SetMargin _ _ _ => true
  | _ => false
  end.

Definition is_save (o : Op) : bool :=
  match o with
  | Save _ => true
  | _ => false
  end.

Definition is_now (o : Op) : bool :=
  match o with
  | Now => true
  | _ => false
  end.

(** The number the loop gives a principle: how many titles of
    [principles] are [<=] its title. *)
Definition principle_number (title : string) : Z :=
  Py.len (filter (fun p => Py.str_le (fst p) title) principles).

(** The heading calls whose text starts with a prefix. *)
Definition heading_under (prefix : string) (c : Call) : bool :=
  match c with
  | add_heading text _ => String.prefix prefix text
  | _ => false
  end.

(** Each number is smaller than the next. *)
Definition ascending (l : list Z) : bool :=
  forallb (fun p => fst p <? snd p) (combine l (tl l)).

(** The print calls. *)
Definition is_print (o : Op) : bool :=
  match o with
  | Print _ => true
  | _ => false
  end.

(** What [set_paragraph_spacing] makes of a paragraph. *)
Definition spaced (space_before space_after : Z) (p : Paragraph) : Paragraph :=
  mkParagraph (p_style p) (p_alignment p) (Some (Pt space_before))
    (Some (Pt space_after)) (Some 1.5%Q) (p_runs p).

(** The heading [add_heading_with_styling] makes. *)
Definition styled_heading (text : string) (level : Z) : Block :=
  Heading level
    (mkParagraph (Some ("Heading " ++ Py.str level)%string)
       (if level =? 1 then Some LEFT else None)
       (if level =? 1 then Some (Pt 12) else None)
       (if level =? 1 then Some (Pt 12) else None)
       None
       (if String.eqb text "" then [] else [new_run text])).

(** The paragraph [add_styled_paragraph] makes. *)
Definition styled_paragraph (text style : string) (bold italic : bool) : Block :=
  Para
    (mkParagraph (Some style) None (Some (Pt 0)) (Some (Pt 12)) (Some 1.5%Q)
       (if String.eqb text "" then []
        else [mkRun text (if bold then Some true else None)
                (if italic then Some true else None) None None])).

(** The loop that fills the comparison table (lines 313-316 of the
    script), for any table and any data. *)
Definition populate (table : BlockRef) (data : list (list string)) : Prog unit :=
  for_each (Py.enumerate data 1) (fun '(i, row_data) =>
    cells <- rows_cells table i ;;
    for_each (Py.enumerate row_data 0) (fun '(j, cell_data) =>
      set_text cells j cell_data)).

(** A row of data, blank-filled to the columns of the table. *)
Definition pad (cols : nat) (row_data : list string) : list string :=
  row_data ++ repeat ""%string (cols - List.length row_data).

(** The rows of a fresh table after the loop: the first row is not
    written, the rows after it hold the data, blank-filled, and the rows
    beyond the data are blank. *)
Definition grid (rows cols : nat) (data : list (list string)) : list (list string) :=
  match rows with
  | O => []
  | S rows' =>
      repeat ""%string cols :: map (pad cols) data ++
      repeat (repeat ""%string cols) (rows' - List.length data)
  end.

(** The data has a row in the table for each of its rows, and a cell for
    each of its strings. *)
Definition fits (rows cols : nat) (data : list (list string)) : bool :=
  (List.length data <=? rows - 1)%nat &&
  forallb (fun d => (List.length d <=? cols)%nat) data.

(** The string in a cell of a grid of rows. *)
Definition cell (g : list (list string)) (r c : nat) : option string :=
  match nth_error g r with
  | Some row => nth_error row c
  | None => None
  end.

(** The world with the table at a position replaced. *)
Definition put_table (n : nat) (t : Table) (w : World) : World :=
  update_block n (fun _ => Tbl t) w.

(** Data written over rows: each row of data replaces the first cells of
    its row, the other cells and the rows beyond the data stay. *)
Fixpoint overlay (data rest : list (list string)) : list (list string) :=
  match data, rest with
  | d :: data', r :: rest' => (d ++ skipn (List.length d) r) :: overlay data' rest'
  | _, _ => rest
  end.

(** Every cell of a table holds a string that is not empty. *)
Definition nonempty (s : string) : bool := negb (String.eqb s "").

Definition full_table (b : Block) : bool :=
  match b with
  | Tbl t => forallb (forallb nonempty) (t_rows t)
  | _ => true
  end.

(** Sample inputs: the three calls of the scenario of the specification,
    a world with one paragraph, and data that leaves cells of a 5x4 table
    without a string. *)
Definition sample_calls : list Call :=
  [add_heading "Introduction" 1; add_paragraph "text" None; add_page_break]%string.

Definition one_paragraph : World :=
  final open_env (doc_add_paragraph "text" None) (start [] []).

Definition partial_data : list (list string) :=
  [["Deployment"; "Single unit"]; ["Scalability"]]%string.

(** A text with a control character: [x], the NUL character, [y]. *)
Definition control_text : string :=
  String "x" (String (ascii_of_nat 0) (String "y" EmptyString)).

(* ---------------------------------------------------------------------- *)
(** *** The loops of the script, for any data *)

(** The number the loop of lines 327-329 gives a title among any list of
    principles. *)
Definition number_in (ps : list (string * string)) (title : string) : Z :=
  Py.len (filter (fun p => Py.str_le (fst p) title) ps).

(** The loop of lines 327-329, for any list of principles. *)
Definition numbered_headings (ps : list (string * string)) : Prog unit :=
  for_each ps (fun '(title, description) =>
    doc_add_heading ("2.2." ++ Py.str (number_in ps title) ++ " " ++ title)%string 3 ;;
    doc_add_paragraph description None).

(** The loop of lines 559-562, for any list of roles. *)
Definition role_sections (rs : list (string * list string)) : Prog unit :=
  for_each rs (fun '(role_name, role_perms) =>
    doc_add_heading role_name 4 ;;
    for_each role_perms (fun perm =>
      doc_add_paragraph perm (Some "List Bullet"%string))).

(** The calls the loop over the roles makes. *)
Definition role_calls (rs : list (string * list string)) : list Call :=
  flat_map (fun r =>
    add_heading (fst r) 4 ::
    map (fun perm => add_paragraph perm (Some "List Bullet"%string)) (snd r)) rs.

(** The loop of lines 724-727, for any table and data. *)
Definition populate_pairs (tech_table : BlockRef) (tech_data : list (list string)) :
    Prog unit :=
  for_each (Py.enumerate tech_data 1) (fun '(i, row_data) =>
    cells <- rows_cells tech_table i ;;
    text <- item row_data 0 ;;
    set_text cells 0 text ;;
    text <- item row_data 1 ;;
    set_text cells 1 text).

(** The data has a row in the table for each of its rows, and two strings
    in each row, on a table of at least two columns. *)
Definition fits_pairs (rest : list (list string)) (cols : nat)
    (data : list (list string)) : bool :=
  (List.length data <=? List.length rest)%nat &&
  match data with
  | [] => true
  | _ :: _ => (2 <=? cols)%nat
  end &&
  forallb (fun d => (2 <=? List.length d)%nat) data.

(** The calls the numbering loop makes on a list, numbering among [ps]. *)
Definition numbered_calls (ps l : list (string * string)) : list Call :=
  flat_map (fun p =>
    [add_heading ("2.2." ++ Py.str (number_in ps (fst p)) ++ " " ++ fst p)%string 3;
     add_paragraph (snd p) None]) l.

(** The number of a title, as a count. *)
Definition rank (ps : list (string * string)) (title : string) : nat :=
  List.length (filter (fun p => Py.str_le (fst p) title) ps).

(** A world with a 3x2 table whose first row is written, as the script
    writes the header cells before it runs the filling loop. *)
Definition headed_table : World :=
  final open_env
    (table <- doc_add_table 3 2 ;;
     header_cells <- rows_cells table 0 ;;
     set_text header_cells 0 "Component" ;;
     set_text header_cells 1 "Technology")
    (start [] []).

(** The loop of lines 80-83, for any text. *)
Definition centered_lines (info_text : string) : Prog unit :=
  for_each (Py.split info_text Py.newline) (fun line =>
    p <- doc_add_paragraph line None ;;
    set_alignment p CENTER ;;
    set_paragraph_spacing p 0 0).

(** The paragraph the loop makes of a line. *)
Definition centered_line (line : string) : Block :=
  Para (mkParagraph None (Some CENTER) (Some (Pt 0)) (Some (Pt 0)) (Some 1.5%Q)
          (if String.eqb line "" then [] else [new_run line])).

(** The text of a block: the texts of its runs, one after the other. *)
Definition block_text (b : Block) : string :=
  match paragraph_of b with
  | Some p => String.concat "" (map run_text (p_runs p))
  | None => ""%string
  end.

(** The number of newline characters of a text. *)
Fixpoint newlines (s : string) : nat :=
  match s with
  | EmptyString => O
  | String c s' => ((if Ascii.eqb c Py.newline then 1 else 0) + newlines s')%nat
  end.

(* ---------------------------------------------------------------------- *)
(** *** What the library lets through *)

(** A text the library stores as it is given: no control character but
    tab and line feed (a carriage return would come back as a line feed),
    and no byte ED or EF, the lead bytes of the forms lxml refuses. *)
Definition plain_byte (c : ascii) : bool :=
  let n := code c in
  (((32 <=? n) && negb (n =? 237) && negb (n =? 239)) || (n =? 9) || (n =? 10))%N.

Fixpoint plain (s : string) : bool :=
  match s with
  | EmptyString => true
  | String c s' => plain_byte c && plain s'
  end.

(** A text with a control character other than tab, line feed and
    carriage return. *)
Definition control_byte (c : ascii) : bool := negb (xml_char (code c)).

Fixpoint has_control (s : string) : bool :=
  match s with
  | EmptyString => false
  | String c s' => control_byte c || has_control s'
  end.

(** A number of points the library takes as a spacing and stores exactly:
    its EMU count is not negative and at most 2^53, so that the conversion
    to twentieths of a point loses nothing. *)
Definition pt_ok (x : Z) : bool :=
  (0 <=? emu (Pt x)) && (emu (Pt x) <=? 9007199254740992).

(** A number of points the library refuses as a spacing. *)
Definition pt_refused (x : Z) : bool := negb (unsigned_long (emu (Pt x))).

Definition length_ok (l : Length) : bool := unsigned_long (emu l).

Definition style_is (e : Env) (k : StyleType) (s : string) : bool :=
  match style_type e s with
  | Some k' => style_type_eqb k' k
  | None => false
  end.

(** A call whose text, style and length pass the checks of the library
    and are stored as given: on such a call [docx_step] is [step]. *)
Definition accepted (e : Env) (o : Op) : bool :=
  match o with
  | Append (add_paragraph text sty) =>
      plain text &&
      match sty with
      | Some s => style_is e ParagraphStyle s
      | None => true
      end
  | Append (add_heading text _) => plain text
  | AddRun _ text => plain text
  | SetParagraph _ (Style s) => style_is e ParagraphStyle s
  | SetParagraph _ (SpaceBefore l) | SetParagraph _ (SpaceAfter l) => length_ok l
  | SetParagraph _ (LineSpacing x) => signed_int (line_emu x)
  | SetRun _ (FontSize l) => length_ok l
  | SetRun _ (FontColorRGB c) => color_ok c
  | SetTableStyle _ s => style_is e TableStyle s
  | SetCellText _ _ s => plain s
  | SetMargin _ TopMargin l | SetMargin _ BottomMargin l => signed_int (emu l)
  | SetMargin _ LeftMargin l | SetMargin _ RightMargin l => length_ok l
  | _ => true
  end.

(** Every call a program can make has the property. *)
Fixpoint all_ops {A} (P : Op -> Prop) (p : Prog A) : Prop :=
  match p with
  | Ret _ | Throw _ => True
  | Vis o k => P o /\ forall r, all_ops P (k r)
  end.

Definition passes {A} (e : Env) (p : Prog A) : Prop :=
  all_ops (fun o => accepted e o = true) p.

(* ====================================================================== *)
(** ** Running programs: general facts *)
(* ====================================================================== *)

Section Runs.

Variable e : Env.

Lemma exec_bind A B (p : Prog A) (f : A -> Prog B) w :
  exec e (bind p f) w =
  match exec e p w with
  | (Ok a, w') => exec e (f a) w'
  | (Raised x, w') => (Raised x, w')
  end.
Proof.
  revert w; induction p as [a | x | o k IH]; intros w; simpl; try reflexivity.
  destruct (step e o w) as [[r | x] w']; [apply IH | reflexivity].
Qed.

Lemma trace_bind A B (p : Prog A) (f : A -> Prog B) w :
  trace e (bind p f) w =
  trace e p w ++
  match exec e p w with
  | (Ok a, w') => trace e (f a) w'
  | (Raised _, _) => []
  end.
Proof.
  revert w; induction p as [a | x | o k IH]; intros w; simpl; try reflexivity.
  destruct (step e o w) as [[r | x] w']; [now rewrite IH | reflexivity].
Qed.


Lemma appends_app t1 t2 : appends (t1 ++ t2) = appends t1 ++ appends t2.
Proof. unfold appends; apply flat_map_app. Qed.

(** *** What one call does to the block sequence *)

Lemma update_nth_length A i (f : A -> A) l :
  List.length (update_nth i f l) = List.length l.
Proof.
  revert i; induction l as [| x l IH]; intros [| i]; simpl; auto.
Qed.

Lemma update_nth_map A B i (f : A -> A) (g : A -> B) l :
  (forall x, g (f x) = g x) -> map g (update_nth i f l) = map g l.
Proof.
  intros H; revert i; induction l as [| x l IH]; intros [| i]; simpl;
    rewrite ?H, ?IH; reflexivity.
Qed.

Lemma nth_error_update_nth A i j (f : A -> A) l :
  nth_error (update_nth i f l) j =
  if Nat.eqb i j then option_map f (nth_error l j) else nth_error l j.
Proof.
  revert i j; induction l as [| x l IH]; intros [| i] [| j]; simpl; auto;
    now destruct (Nat.eqb _ _).
Qed.

Lemma kind_with_paragraph f b : block_kind (with_paragraph f b) = block_kind b.
Proof. now destruct b. Qed.

Lemma kind_with_table f b : block_kind (with_table f b) = block_kind b.
Proof. now destruct b. Qed.

Lemma kinds_update_block i f w :
  (forall b, block_kind (f b) = block_kind b) ->
  kinds (update_block i f w) = kinds w.
Proof. intros H; unfold kinds; simpl; now apply update_nth_map. Qed.

(** A failing call leaves the world as it was. *)
Lemma step_raised o w x w' : step e o w = (Raised x, w') -> w' = w.
Proof.
  destruct o as [c | [i] t | [i] | [i] a | [i r] a | [i] s | [i] row
                | [i row] j s | | [i] m l | path | line |]; simpl.
  - unfold append_block; destruct (new_block c); congruence.
  - destruct (paragraph_at w i); congruence.
  - destruct (paragraph_at w i); congruence.
  - destruct (paragraph_at w i); congruence.
  - destruct (paragraph_at w i); [destruct (_ <? _)%nat |]; congruence.
  - destruct (table_at w i); congruence.
  - destruct (table_at w i); [destruct (Py.index _ _) |]; congruence.
  - destruct (table_at w i) as [t |]; [| congruence].
    destruct (nth_error _ _); [destruct (Py.index _ _) |]; congruence.
  - congruence.
  - destruct (_ <? _)%nat; congruence.
  - unfold save_to; destruct (writable e path); congruence.
  - congruence.
  - congruence.
Qed.

(** A call that completes keeps every block in place and of its kind; an
    append call puts its block after them. *)
Lemma step_body o w r w' :
  step e o w = (Ok r, w') ->
  kinds w' = kinds w ++ map call_kind (appended_by o) /\
  (forall c, o = Append c ->
     body (doc w') = body (doc w) ++ [call_block c] /\
     call_ok c = true /\
     existT Resp o r = existT Resp (Append c) (block_at (List.length (body (doc w))))).
Proof.
  destruct o as [c | [i] t | [i] | [i] a | [i r0] a | [i] s | [i] row
                | [i row] j s | | [i] m l | path | line |]; simpl;
    intros H; (split; [| try (intros c0 Hc; discriminate Hc)]).
  - unfold append_block in H.
    destruct c; simpl in *; try destruct (level_ok level);
      inversion H; subst; unfold kinds; simpl; now rewrite map_app.
  - intros c0 Hc; inversion Hc; subst c0; unfold append_block in H.
    destruct c; simpl in *; try destruct (level_ok level) eqn:E;
      inversion H; subst; simpl; auto.
  - destruct (paragraph_at w i); inversion H; subst.
    rewrite app_nil_r; apply kinds_update_block, kind_with_paragraph.
  - destruct (paragraph_at w i); inversion H; subst; now rewrite app_nil_r.
  - destruct (paragraph_at w i); inversion H; subst.
    rewrite app_nil_r; apply kinds_update_block, kind_with_paragraph.
  - destruct (paragraph_at w i); [destruct (_ <? _)%nat |]; inversion H; subst.
    rewrite app_nil_r; apply kinds_update_block, kind_with_paragraph.
  - destruct (table_at w i); inversion H; subst.
    rewrite app_nil_r; apply kinds_update_block, kind_with_table.
  - destruct (table_at w i); [destruct (Py.index _ _) |]; inversion H; subst.
    now rewrite app_nil_r.
  - destruct (table_at w i) as [t |]; [| inversion H].
    destruct (nth_error _ _); [destruct (Py.index _ _) |]; inversion H; subst.
    rewrite app_nil_r; apply kinds_update_block, kind_with_table.
  - inversion H; subst; now rewrite app_nil_r.
  - destruct (_ <? _)%nat; inversion H; subst; now rewrite app_nil_r.
  - unfold save_to in H; destruct (writable e path); inversion H; subst.
    now rewrite app_nil_r.
  - inversion H; subst; now rewrite app_nil_r.
  - inversion H; subst; now rewrite app_nil_r.
Qed.

(** The kinds of the blocks after a run: those before it, then one per
    append call of the run, in call order. *)
Lemma run_kinds A (p : Prog A) w :
  kinds (final e p w) = kinds w ++ map call_kind (appends (trace e p w)).
Proof.
  unfold final; revert w; induction p as [a | x | o k IH]; intros w; simpl;
    try now rewrite app_nil_r.
  destruct (step e o w) as [[r | x] w'] eqn:E.
  - rewrite IH. destruct (step_body _ _ E) as [-> _].
    unfold appends; simpl. now rewrite map_app, app_assoc.
  - simpl. rewrite (step_raised _ _ E). now rewrite app_nil_r.
Qed.

End Runs.

(* ====================================================================== *)
(** ** Sequences of append calls *)
(* ====================================================================== *)

Lemma append_all_exec e cs w :
  forallb call_ok cs = true ->
  exec e (append_all cs) w = (Ok tt, with_body w (body (doc w) ++ map call_block cs)) /\
  trace e (append_all cs) w = map Append cs.
Proof.
  revert w; induction cs as [| c cs IH]; intros w H; simpl in *.
  - rewrite app_nil_r. now destruct w as [[s b] f o].
  - apply andb_prop in H as [Hc Hcs].
    assert (Hn : new_block c = Ok (call_block c)).
    { destruct c; simpl in *; try reflexivity. now rewrite Hc. }
    rewrite Hn; simpl.
    destruct (IH (with_body w (body (doc w) ++ [call_block c])) Hcs) as [H1 H2].
    unfold append_all, with_body in *. rewrite H1, H2.
    split; [| reflexivity].
    simpl. now rewrite <- app_assoc.
Qed.

Lemma append_all_body e cs w :
  body (doc (final e (append_all cs) w)) =
  body (doc w) ++ map call_block (appends (trace e (append_all cs) w)).
Proof.
  unfold final; revert w; induction cs as [| c cs IH]; intros w; simpl.
  - now rewrite app_nil_r.
  - destruct (new_block c) as [b | x] eqn:E; simpl.
    + assert (b = call_block c) as ->.
      { destruct c; simpl in E; try destruct (level_ok level);
          now inversion E. }
      rewrite IH; simpl. now rewrite <- app_assoc.
    + now rewrite app_nil_r.
Qed.

(* ====================================================================== *)
(** ** The run of the script *)
(* ====================================================================== *)

Lemma update_nth_app A (f : A -> A) pre x rest :
  update_nth (List.length pre) f (pre ++ x :: rest) = pre ++ f x :: rest.
Proof. induction pre as [| y pre IH]; simpl; [| rewrite IH]; reflexivity. Qed.

Lemma ltb_length_app A (pre : list A) x rest :
  (List.length pre <? List.length (pre ++ x :: rest))%nat = true.
Proof. apply Nat.ltb_lt; rewrite length_app; simpl; lia. Qed.

Lemma step_set_margin e pre s rest bd disk out m l :
  step e (SetMargin (section_at (List.length pre)) m l)
    (mkWorld (mkDocument (pre ++ s :: rest) bd) disk out) =
  (Ok tt, mkWorld (mkDocument (pre ++ set_margin_attr m l s :: rest) bd) disk out).
Proof.
  simpl. rewrite ltb_length_app. unfold set_doc; simpl.
  now rewrite update_nth_app.
Qed.

Lemma margins_loop e bd disk out rest pre :
  let body_ := fun section =>
    set_top_margin section (Inches 1) ;;
    set_bottom_margin section (Inches 1) ;;
    set_left_margin section (Inches 1.25) ;;
    set_right_margin section (Inches 1.25) in
  let l := map section_at (seq (List.length pre) (List.length rest)) in
  let w := mkWorld (mkDocument (pre ++ rest) bd) disk out in
  exec e (for_each l body_) w =
    (Ok tt, mkWorld (mkDocument (pre ++ map (fun _ => page_margins) rest) bd) disk out) /\
  trace e (for_each l body_) w =
    flat_map margin_calls (seq (List.length pre) (List.length rest)).
Proof.
  revert pre; induction rest as [| s rest IH]; intros pre.
  - split; reflexivity.
  - cbn -[step]. rewrite !step_set_margin. cbn -[step].
    specialize (IH (pre ++ [page_margins])).
    rewrite length_app, Nat.add_1_r, <- !app_assoc in IH.
    cbn -[step] in IH.
    destruct IH as [IH1 IH2]. unfold page_margins in *.
    split; [exact IH1 | now rewrite IH2].
Qed.

Lemma margins_exec e template bd disk out :
  let w := mkWorld (mkDocument template bd) disk out in
  exec e set_document_margins w =
    (Ok tt, mkWorld (mkDocument (map (fun _ => page_margins) template) bd) disk out) /\
  trace e set_document_margins w =
    Sections :: flat_map margin_calls (seq 0 (List.length template)).
Proof.
  destruct (margins_loop e bd disk out template []) as [H1 H2].
  cbn in H1, H2 |- *.
  rewrite exec_bind, trace_bind, H1, H2; cbn.
  now rewrite app_nil_r.
Qed.

Lemma content_exec e template disk :
  exec e content (start template disk) =
    (Ok tt, mkWorld (mkDocument template thesis_body) disk []) /\
  trace e content (start template disk) = thesis_trace.
Proof. split; vm_compute; reflexivity. Qed.

Lemma save_exec e d disk :
  let w := mkWorld d disk [] in
  exec e save_document w =
    (if writable e output_path
     then (Ok tt, mkWorld d (saved output_path d disk) summary)
     else (Raised (IOError output_path), w)) /\
  trace e save_document w =
    (if writable e output_path then Save output_path :: map Print summary else []).
Proof.
  unfold save_document; cbn -[output_path]; unfold save_to.
  destruct (writable e output_path); split; reflexivity.
Qed.

(** The whole run, for every environment, template and disk. *)
Lemma script_exec e template disk :
  let d := mkDocument (map (fun _ => page_margins) template) thesis_body in
  exec e script (start template disk) =
    (if writable e output_path
     then (Ok tt, mkWorld d (saved output_path d disk) summary)
     else (Raised (IOError output_path), mkWorld d disk [])).
Proof.
  unfold script. rewrite exec_bind.
  destruct (margins_exec e template [] disk []) as [H1 _].
  unfold start, Document_. rewrite H1.
  rewrite exec_bind.
  destruct (content_exec e (map (fun _ => page_margins) template) disk) as [H3 _].
  unfold start, Document_ in H3. rewrite H3.
  apply save_exec.
Qed.

Lemma script_trace e template disk :
  trace e script (start template disk) =
    Sections :: flat_map margin_calls (seq 0 (List.length template)) ++
    thesis_trace ++
    (if writable e output_path then Save output_path :: map Print summary else []).
Proof.
  unfold script. rewrite trace_bind.
  destruct (margins_exec e template [] disk []) as [H1 H2].
  unfold start, Document_. rewrite H1, H2.
  rewrite trace_bind.
  destruct (content_exec e (map (fun _ => page_margins) template) disk) as [H3 H4].
  unfold start, Document_ in H3, H4. rewrite H3, H4.
  destruct (save_exec e (mkDocument (map (fun _ => page_margins) template) thesis_body) disk)
    as [_ ->].
  reflexivity.
Qed.

(** The append calls and the blocks of the whole run are those of the
    content part: the margin assignments, the save and the prints append
    nothing. *)
Lemma appends_margin_calls l : appends (flat_map margin_calls l) = [].
Proof. induction l as [| i l IH]; [reflexivity | exact IH]. Qed.

Lemma appends_prints ls : appends (map Print ls) = [].
Proof. induction ls as [| s ls IH]; [reflexivity | exact IH]. Qed.

Lemma script_appends e template disk :
  appends (trace e script (start template disk)) = appends thesis_trace.
Proof.
  rewrite script_trace.
  change (Sections :: ?a ++ ?b) with ([Sections] ++ a ++ b).
  rewrite !appends_app, appends_margin_calls.
  destruct (writable e output_path);
    [change (appends (Save output_path :: ?t)) with (appends t);
     rewrite appends_prints |];
    now rewrite app_nil_r.
Qed.

Lemma script_doc e template disk :
  doc (final e script (start template disk)) =
  mkDocument (map (fun _ => page_margins) template) thesis_body.
Proof.
  unfold final; rewrite script_exec.
  now destruct (writable e output_path).
Qed.

(* ====================================================================== *)
(** ** Block order (C1) *)
(* ====================================================================== *)

Lemma all2_Forall2 A B (f : A -> B -> bool) l l' :
  all2 f l l' = true -> Forall2 (fun x y => f x y = true) l l'.
Proof.
  revert l'; induction l as [| x l IH]; intros [| y l'] H; simpl in H;
    try discriminate; constructor; apply andb_prop in H as [H1 H2]; auto.
Qed.

Lemma nth_error_app_map A B (f : A -> B) l0 l i x :
  nth_error l i = Some x ->
  nth_error (l0 ++ map f l) (List.length l0 + i) = Some (f x).
Proof.
  intros H. rewrite nth_error_app2 by lia.
  replace (List.length l0 + i - List.length l0)%nat with i by lia.
  now rewrite nth_error_map, H.
Qed.

(** C1: block order equals call order.  For every program over the
    document calls, the kinds of the blocks after the run are those before
    it followed by one per append call, in call order; a sequence of append
    calls (add_paragraph, add_heading, add_table, add_page_break) leaves
    exactly the blocks of its calls after the blocks that were there, the
    i-th call's block at the i-th position; and the script's 340 append
    calls give a document of 340 blocks, each made by the call at its
    position. *)
Theorem C1_block_order_is_call_order :
  (forall (e : Env) (A : Type) (p : Prog A) (w : World),
     map block_kind (body (doc (final e p w))) =
     map block_kind (body (doc w)) ++ map call_kind (appends (trace e p w)))
  /\
  (forall (e : Env) (cs : list Call) (w : World),
     body (doc (final e (append_all cs) w)) =
       body (doc w) ++ map call_block (appends (trace e (append_all cs) w))
     /\
     (forallb call_ok cs = true ->
        outcome e (append_all cs) w = Ok tt /\
        body (doc (final e (append_all cs) w)) = body (doc w) ++ map call_block cs /\
        forall i c, nth_error cs i = Some c ->
          nth_error (body (doc (final e (append_all cs) w)))
            (List.length (body (doc w)) + i) = Some (call_block c)))
  /\
  (forall (e : Env) template disk,
     let w := final e script (start template disk) in
     let cs := appends (trace e script (start template disk)) in
     List.length cs = 340%nat /\
     List.length (body (doc w)) = 340%nat /\
     Forall2 (fun c b => made_by c b = true) cs (body (doc w))).
Proof.
  split; [| split].
  - intros e A p w. apply run_kinds.
  - intros e cs w. split; [apply append_all_body |].
    intros H. destruct (append_all_exec e cs w H) as [H1 H2].
    unfold outcome, final; rewrite H1; simpl.
    repeat split. intros i c Hi. now apply nth_error_app_map.
  - intros e template disk w cs; subst w cs.
    rewrite script_appends, script_doc; cbn [body].
    split; [| split]; [vm_compute; reflexivity .. |].
    apply all2_Forall2. vm_compute; reflexivity.
Qed.

Lemma C1_block_order_witness :
  forallb call_ok sample_calls = true /\
  outcome open_env (append_all sample_calls) (start [] []) = Ok tt /\
  body (doc (final open_env (append_all sample_calls) (start [] []))) =
    [] ++ map call_block sample_calls /\
  nth_error (body (doc (final open_env (append_all sample_calls) (start [] [])))) 2 =
    Some PageBreak.
Proof.
  split; [reflexivity |].
  destruct (proj1 (proj2 C1_block_order_is_call_order) open_env sample_calls
              (start [] [])) as [_ H].
  destruct (H eq_refl) as [H1 [H2 H3]].
  split; [exact H1 | split; [exact H2 |]].
  exact (H3 2%nat add_page_break eq_refl).
Defined.

(* ====================================================================== *)
(** ** Heading levels (C7) *)
(* ====================================================================== *)




(* ====================================================================== *)
(** ** Page margins (C8) *)
(* ====================================================================== *)

Lemma filter_margin_prints ls : filter is_set_margin (map Print ls) = [].
Proof. induction ls as [| s ls IH]; [reflexivity | exact IH]. Qed.

(** C8: the run starts by reading the sections and assigning, once for
    each section, a top and a bottom margin of 1 inch and a left and a
    right margin of 1.25 inches; these calls append no block, no call after
    them assigns a margin, and at the end every section has these four
    margins. *)
Theorem C8_margins_set_once_before_content :
  forall (e : Env) template disk,
    let w := final e script (start template disk) in
    exists rest,
      trace e script (start template disk) =
        Sections :: flat_map margin_calls (seq 0 (List.length template)) ++ rest /\
      appends (Sections :: flat_map margin_calls (seq 0 (List.length template))) = [] /\
      filter is_set_margin rest = [] /\
      sections (doc w) =
        map (fun _ =>
               mkSection (Some (Inches 1)) (Some (Inches 1))
                 (Some (Inches 1.25)) (Some (Inches 1.25)))
            template.
Proof.
  intros e template disk w; subst w.
  rewrite script_trace, script_doc.
  eexists; split; [reflexivity |].
  split; [apply (appends_margin_calls (seq 0 (List.length template))) |].
  split; [| reflexivity].
  rewrite filter_app.
  replace (filter is_set_margin thesis_trace) with (@nil Op)
    by (vm_compute; reflexivity).
  destruct (writable e output_path); [| reflexivity].
  cbn [app filter is_set_margin]. apply filter_margin_prints.
Qed.

(* ====================================================================== *)
(** ** No input, one constant output path (C9) *)
(* ====================================================================== *)

Lemma filter_now_margin_calls l : filter is_now (flat_map margin_calls l) = [].
Proof. induction l as [| i l IH]; [reflexivity | exact IH]. Qed.

Lemma filter_now_prints ls : filter is_now (map Print ls) = [].
Proof. induction ls as [| s ls IH]; [reflexivity | exact IH]. Qed.

Lemma filter_save_margin_calls l : filter is_save (flat_map margin_calls l) = [].
Proof. induction l as [| i l IH]; [reflexivity | exact IH]. Qed.

Lemma filter_save_prints ls : filter is_save (map Print ls) = [].
Proof. induction ls as [| s ls IH]; [reflexivity | exact IH]. Qed.

Lemma script_outcome e template disk :
  outcome e script (start template disk) =
  if writable e output_path then Ok tt else Raised (IOError output_path).
Proof.
  unfold outcome; rewrite script_exec. now destruct (writable e output_path).
Qed.

(** C9: two runs, whatever the clock, the writable paths, the template and
    the disk they find, make the same append calls and build the same
    blocks; the clock is never read; a run saves once, to the constant
    [output_path], when that path is writable, and ends with the IOError of
    that path and saves nothing when it is not; the file written is the
    document at [output_path]; the date on the title page is the literal
    of the source. *)
Theorem C9_runs_are_deterministic :
  forall (e1 e2 : Env) template1 template2 disk1 disk2,
    let t1 := trace e1 script (start template1 disk1) in
    let t2 := trace e2 script (start template2 disk2) in
    let w1 := final e1 script (start template1 disk1) in
    let w2 := final e2 script (start template2 disk2) in
    appends t1 = appends t2 /\
    body (doc w1) = body (doc w2) /\
    filter is_now t1 = [] /\
    filter is_save t1 = (if writable e1 output_path then [Save output_path] else []) /\
    outcome e1 script (start template1 disk1) =
      (if writable e1 output_path then Ok tt else Raised (IOError output_path)) /\
    files w1 =
      (if writable e1 output_path then saved output_path (doc w1) disk1 else disk1) /\
    output_path =
      "c:\Users\Administrator\Desktop\Final_Project_2026\GitHub_Project\GitHub_Stack_Bachelor_Thesis.docx"%string /\
    nth_error (appends t1) 8 = Some (add_paragraph "Date: January 26, 2026" None).
Proof.
  intros e1 e2 template1 template2 disk1 disk2 t1 t2 w1 w2; subst t1 t2 w1 w2.
  rewrite !script_appends, !script_doc. cbn [body].
  split; [reflexivity |]. split; [reflexivity |].
  rewrite script_trace, script_outcome.
  change (Sections :: ?a ++ ?b) with ([Sections] ++ a ++ b).
  rewrite !filter_app, filter_now_margin_calls, filter_save_margin_calls.
  replace (filter is_now thesis_trace) with (@nil Op) by (vm_compute; reflexivity).
  replace (filter is_save thesis_trace) with (@nil Op) by (vm_compute; reflexivity).
  cbn [app filter is_now is_save].
  split; [| split; [| split; [reflexivity |
    split; [| split; [reflexivity | vm_compute; reflexivity]]]]].
  - destruct (writable e1 output_path); [| reflexivity].
    cbn [filter is_now]. apply filter_now_prints.
  - destruct (writable e1 output_path); [| reflexivity].
    cbn [filter is_save]. now rewrite filter_save_prints.
  - unfold final. rewrite script_exec.
    destruct (writable e1 output_path); reflexivity.
Qed.

(* ====================================================================== *)
(** ** The numbering of the principles (C10) *)
(* ====================================================================== *)

(** C10: the sub-numbers of the headings under section 2.2 are the counts
    of the principle titles that are [<=] the title, so the headings come
    out, in document order, as 2.2.4, 2.2.1, 2.2.2, 2.2.3: a permutation
    of 1..4 that is not ascending. *)
Theorem C10_principle_numbers_are_a_permutation :
  forall (e : Env) template disk,
    filter (heading_under "2.2.") (appends (trace e script (start template disk))) =
      [add_heading "2.2.4 Service Independence" 3;
       add_heading "2.2.1 Decentralized Data Management" 3;
       add_heading "2.2.2 Fault Isolation" 3;
       add_heading "2.2.3 Scalability and Resilience" 3] /\
    map (fun p => principle_number (fst p)) principles = [4; 1; 2; 3] /\
    Permutation [1; 2; 3; 4] (map (fun p => principle_number (fst p)) principles) /\
    ascending (map (fun p => principle_number (fst p)) principles) = false.
Proof.
  intros e template disk. rewrite script_appends.
  split; [vm_compute; reflexivity |].
  assert (H : map (fun p => principle_number (fst p)) principles = [4; 1; 2; 3])
    by (vm_compute; reflexivity).
  rewrite H. split; [reflexivity |]. split; [| reflexivity].
  apply (Permutation_app_comm [1; 2; 3] [4]).
Qed.

(* ====================================================================== *)
(** ** Saving (C2, C3) *)
(* ====================================================================== *)

Lemma forallb_prints ls : forallb is_print (map Print ls) = true.
Proof. induction ls as [| s ls IH]; [reflexivity | exact IH]. Qed.



(** C3 as stated fails: the library has no finalize and no guard; after
    [doc.save], the one call that completes a document, an append is
    accepted and the content changes. *)
Lemma C3_append_after_save_accepted :
  ~ (forall (e : Env) (w : World) (path : string) (c : Call),
       outcome e (doc_save path) w = Ok tt ->
       let w' := final e (doc_save path) w in
       (exists x, outcome e (appendBlock c) w' = Raised x) /\
       body (doc (final e (appendBlock c) w')) = body (doc w')).
Proof.
  intros H.
  destruct (H open_env (start [] []) "thesis.docx"%string (add_paragraph "more" None) eq_refl)
    as [[x Hx] _].
  discriminate Hx.
Qed.

(** C3, amended: the script appends nothing after it saves.  Its trace is
    the calls that build the document, then (when the path is writable)
    the save and after it prints only; the document saved at
    [output_path] is the final document. *)
Theorem C3_script_saves_last :
  forall (e : Env) template disk,
    let w0 := start template disk in
    exists build after,
      trace e script w0 = build ++ after /\
      filter is_save build = [] /\
      appends build = appends (trace e script w0) /\
      (after = [] \/
       exists prints, after = Save output_path :: prints /\
                      forallb is_print prints = true) /\
      (writable e output_path = true ->
         In (output_path, doc (final e script w0)) (files (final e script w0))).
Proof.
  intros e template disk w0; subst w0.
  exists (Sections :: flat_map margin_calls (seq 0 (List.length template)) ++ thesis_trace).
  exists (if writable e output_path then Save output_path :: map Print summary else []).
  rewrite script_appends. unfold final. rewrite script_trace, script_exec.
  split; [now rewrite <- app_comm_cons, <- app_assoc |].
  change (Sections :: ?a ++ ?b) with ([Sections] ++ a ++ b).
  rewrite !filter_app, !appends_app, filter_save_margin_calls, appends_margin_calls.
  replace (filter is_save thesis_trace) with (@nil Op) by (vm_compute; reflexivity).
  split; [reflexivity |]. split; [reflexivity |].
  destruct (writable e output_path); split.
  - right. eexists; split; [reflexivity | apply forallb_prints].
  - intros _. left; reflexivity.
  - left; reflexivity.
  - discriminate.
Qed.

Lemma C3_script_saves_last_witness :
  In (output_path, doc (final open_env script (start [] [])))
     (files (final open_env script (start [] []))).
Proof.
  destruct (C3_script_saves_last open_env [] []) as [build [after [_ [_ [_ [_ H]]]]]].
  exact (H eq_refl).
Defined.

(* ====================================================================== *)
(** ** Updates through a reference *)
(* ====================================================================== *)

Lemma update_nth_at A i (f : A -> A) l x :
  nth_error l i = Some x -> update_nth i f l = update_nth i (fun _ => f x) l.
Proof.
  revert i; induction l as [| y l IH]; intros [| i] H; simpl in *;
    try discriminate; [now inversion H | now rewrite (IH i H)].
Qed.

Lemma update_nth_twice A i (f g : A -> A) l :
  update_nth i g (update_nth i f l) = update_nth i (fun x => g (f x)) l.
Proof.
  revert i; induction l as [| y l IH]; intros [| i]; simpl; try reflexivity.
  now rewrite IH.
Qed.

Lemma update_nth_same A i (f : A -> A) l x :
  nth_error l i = Some x -> f x = x -> update_nth i f l = l.
Proof.
  revert i; induction l as [| y l IH]; intros [| i] H E; simpl in *;
    try discriminate; [inversion H; subst; now rewrite E | now rewrite (IH i H E)].
Qed.

Lemma update_nth_last A (f : A -> A) l x :
  update_nth (List.length l) f (l ++ [x]) = l ++ [f x].
Proof. apply update_nth_app. Qed.

Lemma nth_error_last A (l : list A) x : nth_error (l ++ [x]) (List.length l) = Some x.
Proof. rewrite nth_error_app2, Nat.sub_diag by lia; reflexivity. Qed.

Lemma update_block_twice i f g w :
  update_block i g (update_block i f w) = update_block i (fun b => g (f b)) w.
Proof. unfold update_block; simpl. now rewrite update_nth_twice. Qed.

Lemma update_block_at i f w b :
  nth_error (body (doc w)) i = Some b ->
  update_block i f w = update_block i (fun _ => f b) w.
Proof. intros H; unfold update_block. now rewrite (@update_nth_at _ i f _ _ H). Qed.

Lemma block_at_update i f w b :
  nth_error (body (doc w)) i = Some b ->
  nth_error (body (doc (update_block i f w))) i = Some (f b).
Proof.
  intros H; unfold update_block; simpl.
  now rewrite nth_error_update_nth, Nat.eqb_refl, H.
Qed.

Lemma paragraph_at_block w i p :
  paragraph_at w i = Some p ->
  exists b, nth_error (body (doc w)) i = Some b /\ paragraph_of b = Some p.
Proof.
  unfold paragraph_at; destruct (nth_error _ _) as [b |]; [eauto | discriminate].
Qed.

Lemma paragraph_of_with f b p :
  paragraph_of b = Some p -> paragraph_of (with_paragraph f b) = Some (f p).
Proof. destruct b; simpl; intros H; inversion H; reflexivity. Qed.

(** One attribute assignment on a paragraph. *)
Lemma step_set_paragraph e w i a b p :
  nth_error (body (doc w)) i = Some b -> paragraph_of b = Some p ->
  step e (SetParagraph (block_at i) a) w =
    (Ok tt, update_block i (with_paragraph (set_paragraph_attr a)) w).
Proof. intros Hb Hp; simpl; unfold paragraph_at; now rewrite Hb, Hp. Qed.

(* ====================================================================== *)
(** ** The style helpers on the builder of the specification *)
(* ====================================================================== *)

Lemma with_paragraph_spaced sb sa b :
  with_paragraph (set_paragraph_attr (LineSpacing 1.5))
    (with_paragraph (set_paragraph_attr (SpaceAfter (Pt sa)))
       (with_paragraph (set_paragraph_attr (SpaceBefore (Pt sb))) b)) =
  with_paragraph (spaced sb sa) b.
Proof. destruct b; reflexivity. Qed.

Lemma set_paragraph_spacing_exec e w i p sb sa :
  paragraph_at w i = Some p ->
  exec e (set_paragraph_spacing (block_at i) sb sa) w =
    (Ok tt, update_block i (with_paragraph (spaced sb sa)) w).
Proof.
  intros H. destruct (@paragraph_at_block w i p H) as [b [Hb Hp]].
  unfold set_paragraph_spacing, paragraph_format.
  cbn -[step].
  rewrite (@step_set_paragraph e _ _ _ _ _ Hb Hp).
  rewrite (@step_set_paragraph e _ _ _ _ _ (@block_at_update _ _ _ _ Hb)
             (@paragraph_of_with _ _ _ Hp)).
  rewrite update_block_twice.
  rewrite (@step_set_paragraph e _ _ _ _ _ (@block_at_update _ _ _ _ Hb)
             (@paragraph_of_with _ _ _ (@paragraph_of_with _ _ _ Hp))).
  rewrite update_block_twice.
  f_equal. rewrite (@update_block_at _ _ _ _ Hb), with_paragraph_spaced.
  symmetry; apply (@update_block_at _ _ _ _ Hb).
Qed.

Lemma set_paragraph_spacing_not_paragraph e w i sb sa :
  paragraph_at w i = None ->
  exec e (set_paragraph_spacing (block_at i) sb sa) w = (Raised AttributeError, w).
Proof. intros H; simpl. now rewrite H. Qed.

(** The world after one more block. *)
Lemma with_body_last w bs b i f :
  i = List.length bs ->
  update_block i f (with_body w (bs ++ [b])) = with_body w (bs ++ [f b]).
Proof.
  intros ->; unfold update_block, with_body; simpl. now rewrite update_nth_last.
Qed.

Lemma body_with_body w bs : body (doc (with_body w bs)) = bs.
Proof. reflexivity. Qed.

Lemma step_append e c w :
  call_ok c = true ->
  step e (Append c) w =
    (Ok (block_at (List.length (body (doc w)))),
     with_body w (body (doc w) ++ [call_block c])).
Proof.
  intros H; simpl.
  replace (new_block c) with (Ok (call_block c)); [reflexivity |].
  destruct c; simpl in *; try reflexivity. now rewrite H.
Qed.

Lemma step_set_last_heading e w bs level p a :
  step e (SetParagraph (block_at (List.length bs)) a)
    (with_body w (bs ++ [Heading level p])) =
  (Ok tt, with_body w (bs ++ [Heading level (set_paragraph_attr a p)])).
Proof.
  rewrite (@step_set_paragraph e _ _ a (Heading level p) p).
  - now rewrite with_body_last.
  - apply nth_error_last.
  - reflexivity.
Qed.

Lemma add_heading_with_styling_exec e w text level :
  1 <= level <= 9 ->
  exec e (add_heading_with_styling text level) w =
    (Ok (block_at (List.length (body (doc w)))),
     with_body w (body (doc w) ++ [styled_heading text level])).
Proof.
  intros H.
  assert (Hok : call_ok (add_heading text level) = true)
    by (unfold call_ok, level_ok; lia).
  assert (H0 : (level =? 0) = false) by lia.
  unfold add_heading_with_styling, paragraph_format, when.
  cbn -[step]. rewrite (@step_append e _ w Hok).
  cbn [call_block]. rewrite step_set_last_heading.
  unfold styled_heading, heading_style, new_paragraph. rewrite H0.
  destruct (level =? 1) eqn:E; cbn -[step].
  - now rewrite !step_set_last_heading.
  - reflexivity.
Qed.

Lemma add_heading_with_styling_raises e w text level :
  level < 0 \/ 9 < level ->
  exec e (add_heading_with_styling text level) w =
    (Raised (ValueError ("level must be in range 0-9, got " ++ Py.str level)%string), w).
Proof.
  intros H. simpl. replace (level_ok level) with false; [reflexivity |].
  unfold level_ok; lia.
Qed.

Lemma add_styled_paragraph_exec e w text style bold italic :
  exec e (add_styled_paragraph text style bold italic) w =
    (Ok (block_at (List.length (body (doc w)))),
     with_body w (body (doc w) ++ [styled_paragraph text style bold italic])).
Proof.
  unfold add_styled_paragraph, when.
  set (n := List.length (body (doc w))).
  assert (Hb : forall b, nth_error (body (doc (with_body w (body (doc w) ++ [b])))) n
                         = Some b) by (intros b; apply nth_error_last).
  assert (Hs : forall p, exec e (set_paragraph_spacing (block_at n) 0 12)
                           (with_body w (body (doc w) ++ [Para p])) =
                         (Ok tt, with_body w (body (doc w) ++ [Para (spaced 0 12 p)]))).
  { intros p. rewrite (@set_paragraph_spacing_exec e _ n p 0 12).
    - now rewrite with_body_last.
    - unfold paragraph_at. now rewrite Hb. }
  assert (Hr : forall p, step e (Runs (block_at n))
                           (with_body w (body (doc w) ++ [Para p])) =
                         (Ok (map (run_at n) (seq 0 (List.length (p_runs p)))),
                          with_body w (body (doc w) ++ [Para p]))).
  { intros p. simpl. unfold paragraph_at. now rewrite Hb. }
  assert (Hu : forall p a r, (r < List.length (p_runs p))%nat ->
             step e (SetRun (run_at n r) a) (with_body w (body (doc w) ++ [Para p])) =
             (Ok tt, with_body w (body (doc w) ++
                [Para (mkParagraph (p_style p) (p_alignment p) (p_space_before p)
                         (p_space_after p) (p_line_spacing p)
                         (update_nth r (set_run_attr a) (p_runs p)))]))).
  { intros p a r Hlt. cbn [step]. unfold paragraph_at. rewrite Hb.
    cbn [paragraph_of]. apply Nat.ltb_lt in Hlt; rewrite Hlt.
    now rewrite with_body_last. }
  rewrite exec_bind. cbn [doc_add_paragraph call exec].
  rewrite (@step_append e (add_paragraph text (Some style)) w eq_refl).
  cbn [exec call_block]. fold n.
  rewrite exec_bind.
  unfold styled_paragraph, new_paragraph.
  destruct (String.eqb text "") eqn:Et; destruct bold; destruct italic;
    cbn [orb]; cbn -[step set_paragraph_spacing];
    rewrite ?Hr; cbn -[step set_paragraph_spacing];
    rewrite ?Hu by (simpl; lia); cbn -[step set_paragraph_spacing];
    rewrite ?Hu by (simpl; lia); cbn -[step set_paragraph_spacing];
    rewrite exec_bind, Hs; reflexivity.
Qed.

(* ====================================================================== *)
(** ** The checks of the library *)
(* ====================================================================== *)


(** *** Texts *)

Lemma code_bound c : (code c < 256)%N.
Proof. apply N_ascii_bounded. Qed.

Lemma plain_byte_spec c :
  plain_byte c = true ->
  (code c = 9 \/ code c = 10 \/ (32 <= code c /\ code c <> 237 /\ code c <> 239))%N.
Proof.
  unfold plain_byte; cbv zeta.
  destruct (N.leb_spec 32 (code c)); destruct (N.eqb_spec (code c) 237);
    destruct (N.eqb_spec (code c) 239); destruct (N.eqb_spec (code c) 9);
    destruct (N.eqb_spec (code c) 10); cbn; intros Hp; try discriminate Hp; lia.
Qed.

Lemma forbidden_lead a b c :
  (b < 256)%N -> (c < 256)%N -> a <> 237%N -> a <> 239%N -> forbidden a b c = false.
Proof.
  intros Hb Hc H1 H2. unfold forbidden; cbv zeta.
  destruct (N.eqb_spec (a * 65536 + b * 256 + c) 15712190); [lia |].
  destruct (N.eqb_spec (a * 65536 + b * 256 + c) 15712191); [lia |].
  destruct (N.leb_spec 15573120 (a * 65536 + b * 256 + c));
    destruct (N.leb_spec (a * 65536 + b * 256 + c) 15581119); try reflexivity; lia.
Qed.

Lemma plain_xml_text s : plain s = true -> xml_text s = true.
Proof.
  induction s as [| a s IH]; [reflexivity |].
  cbn [plain xml_text]; intros H. apply andb_prop in H as [Ha Hs].
  rewrite (IH Hs), andb_true_r.
  apply plain_byte_spec in Ha.
  destruct (N.leb_spec 128 (code a)) as [E | E].
  - destruct s as [| b [| c s']]; try reflexivity.
    rewrite forbidden_lead; try apply code_bound; try reflexivity; lia.
  - unfold xml_char.
    destruct Ha as [-> | [-> | [Ha _]]]; try reflexivity.
    apply N.leb_le in Ha. now rewrite Ha.
Qed.

Lemma plain_app a b : plain (a ++ b) = plain a && plain b.
Proof.
  induction a as [| c a IH]; [reflexivity |].
  cbn [String.append plain]. now rewrite IH, andb_assoc.
Qed.

Lemma string_app_assoc (a b c : string) : ((a ++ b) ++ c = a ++ (b ++ c))%string.
Proof. induction a as [| x a IH]; simpl; [| rewrite IH]; reflexivity. Qed.

Lemma string_app_nil (a : string) : (a ++ "" = a)%string.
Proof. induction a as [| x a IH]; simpl; [| rewrite IH]; reflexivity. Qed.

(** A plain text goes into a run whole, and reads back as it was given. *)
Lemma put_text_plain text :
  forall done buffer,
    plain buffer = true -> plain text = true ->
    put_text text done buffer = ((done ++ buffer ++ text)%string, true).
Proof.
  induction text as [| c text IH]; intros done buffer Hb Ht.
  - cbn [put_text]. now rewrite (@plain_xml_text _ Hb), string_app_nil.
  - cbn [plain] in Ht. apply andb_prop in Ht as [Hc Ht].
    cbn [put_text]. rewrite (@plain_xml_text _ Hb).
    destruct (Ascii.eqb_spec c tab) as [-> | Htab].
    + rewrite (IH _ ""%string eq_refl Ht). cbn [String.append].
      now rewrite !string_app_assoc.
    + destruct (Ascii.eqb_spec c Py.newline) as [-> | Hnl].
      * cbn [orb]. rewrite (IH _ ""%string eq_refl Ht). cbn [String.append].
        unfold Py.nl. now rewrite !string_app_assoc.
      * destruct (Ascii.eqb_spec c carriage_return) as [-> | Hcr];
          [discriminate Hc |].
        cbn [orb]. rewrite IH; trivial.
        -- now rewrite !string_app_assoc.
        -- rewrite plain_app. cbn [plain]. now rewrite Hb, Hc.
Qed.

Lemma put_text_plain_whole text :
  plain text = true -> put_text text ""%string ""%string = (text, true).
Proof. intros H. now rewrite (@put_text_plain text ""%string ""%string eq_refl H). Qed.

Lemma has_control_xml_text s : has_control s = true -> xml_text s = false.
Proof.
  induction s as [| a s IH]; [discriminate |].
  cbn [has_control xml_text]; intros H.
  destruct (control_byte a) eqn:E.
  - unfold control_byte in E. apply negb_true_iff in E.
    assert (Hlt : (128 <=? code a)%N = false).
    { unfold xml_char in E. apply N.leb_gt.
      destruct (N.leb_spec 32 (code a)); [discriminate E | lia]. }
    now rewrite Hlt, E.
  - rewrite (IH H). apply andb_false_r.
Qed.

Lemma has_control_app a b : has_control (a ++ b) = has_control a || has_control b.
Proof.
  induction a as [| c a IH]; [reflexivity |].
  cbn [String.append has_control]. now rewrite IH, orb_assoc.
Qed.

(** A text with a control character is refused: the call that stores it
    raises. *)
Lemma put_text_control text :
  forall done buffer,
    has_control buffer || has_control text = true ->
    snd (put_text text done buffer) = false.
Proof.
  induction text as [| c text IH]; intros done buffer H.
  - cbn [put_text]. cbn [has_control] in H. rewrite orb_false_r in H.
    now rewrite (@has_control_xml_text _ H).
  - cbn [put_text]. cbn [has_control] in H.
    destruct (has_control buffer) eqn:Eb.
    + rewrite (@has_control_xml_text _ Eb).
      destruct (Ascii.eqb c tab); [reflexivity |].
      destruct (Ascii.eqb c Py.newline || Ascii.eqb c carriage_return); [reflexivity |].
      apply IH. now rewrite has_control_app, Eb.
    + cbn [orb] in H.
      destruct (Ascii.eqb_spec c tab) as [-> | Htab].
      * cbn in H. destruct (xml_text buffer); [| reflexivity]. now apply IH.
      * destruct (Ascii.eqb_spec c Py.newline) as [-> | Hnl].
        -- cbn in H. destruct (xml_text buffer); [| reflexivity]. now apply IH.
        -- destruct (Ascii.eqb_spec c carriage_return) as [-> | Hcr].
           ++ cbn in H. destruct (xml_text buffer); [| reflexivity]. now apply IH.
           ++ cbn [orb]. apply IH. rewrite has_control_app. cbn [has_control].
              rewrite Eb, orb_false_r. cbn [orb]. exact H.
Qed.

(** *** Styles *)

Lemma heading_style_found e level :
  0 <= level <= 9 -> find_style e ParagraphStyle (heading_style level) = Ok tt.
Proof.
  intros H.
  assert (level = 0 \/ level = 1 \/ level = 2 \/ level = 3 \/ level = 4 \/
          level = 5 \/ level = 6 \/ level = 7 \/ level = 8 \/ level = 9) as Hl by lia.
  repeat (destruct Hl as [-> | Hl]; [reflexivity |]). now subst.
Qed.

Lemma find_style_is e k s : style_is e k s = true -> find_style e k s = Ok tt.
Proof.
  unfold style_is, find_style. destruct (style_type e s) as [k' |]; [| discriminate].
  now intros ->.
Qed.

(** *** Accepted calls *)

Lemma docx_paragraph_plain e text sty :
  plain text = true ->
  match sty with
  | Some s => style_is e ParagraphStyle s = true
  | None => True
  end ->
  docx_paragraph e text sty = (Ok tt, new_paragraph text sty).
Proof.
  intros Ht Hs. unfold docx_paragraph, new_paragraph.
  rewrite (@put_text_plain_whole _ Ht).
  destruct sty as [s |]; [| reflexivity].
  now rewrite (@find_style_is _ _ _ Hs).
Qed.

(** On an accepted call the library does what the builder of the
    specification does. *)
Lemma docx_step_accepted e o w :
  accepted e o = true -> docx_step e o w = step e o w.
Proof.
  destruct o as [c | [i] text | p | [i] a | [i r] a | [i] s | t i | [i row] j s
                 | | [i] m l | path | line |]; try reflexivity; cbn [accepted].
  - destruct c as [text sty | text level | rows cols |]; try reflexivity; intros H.
    + apply andb_prop in H as [Ht Hs].
      cbn [docx_step step new_block call_block]. unfold docx_append.
      rewrite docx_paragraph_plain; trivial.
      destruct sty; [exact Hs | exact I].
    + cbn [docx_step step new_block call_block].
      destruct (level_ok level) eqn:El; [| reflexivity].
      unfold docx_append. rewrite docx_paragraph_plain; trivial.
      unfold style_is.
      assert (Hf := @heading_style_found e level).
      unfold find_style in Hf. unfold level_ok in El.
      destruct (style_type e (heading_style level)) as [k |].
      * destruct (style_type_eqb k ParagraphStyle); [reflexivity |].
        assert (0 <= level <= 9) as Hl by lia. specialize (Hf Hl). discriminate Hf.
      * assert (0 <= level <= 9) as Hl by lia. specialize (Hf Hl). discriminate Hf.
  - intros H. cbn [docx_step step].
    destruct (paragraph_at w i); [| reflexivity].
    now rewrite (@put_text_plain_whole _ H).
  - intros H. cbn [docx_step step].
    destruct (paragraph_at w i); [| reflexivity].
    destruct a as [x | s | l | l | x]; cbn [check_paragraph_attr]; try reflexivity.
    + now rewrite (@find_style_is _ _ _ H).
    + unfold check_length. unfold length_ok in H. now rewrite H.
    + unfold check_length. unfold length_ok in H. now rewrite H.
    + unfold check_signed. now rewrite H.
  - intros H. cbn [docx_step].
    destruct a as [b | b | l | c]; cbn [check_run_attr check_run_value];
      try (cbn [step]; destruct (paragraph_at w i); [| reflexivity];
           destruct (r <? List.length (p_runs _))%nat; reflexivity).
    + unfold check_length. unfold length_ok in H. rewrite H.
      cbn [step]; destruct (paragraph_at w i); [| reflexivity];
        destruct (r <? List.length (p_runs _))%nat; reflexivity.
    + rewrite H.
      cbn [step]; destruct (paragraph_at w i); [| reflexivity];
        destruct (r <? List.length (p_runs _))%nat; reflexivity.
  - intros H. cbn [docx_step]. rewrite (@find_style_is _ _ _ H).
    cbn [step]. destruct (table_at w i); reflexivity.
  - intros H. cbn [docx_step step].
    destruct (table_at w i) as [t |]; [| reflexivity].
    destruct (nth_error (t_rows t) row) as [cells |]; [| reflexivity].
    destruct (Py.index (List.length cells) j) as [n |]; [| reflexivity].
    now rewrite (@put_text_plain_whole _ H).
  - intros H. cbn [docx_step step].
    destruct (i <? List.length (sections (doc w)))%nat; [| reflexivity].
    destruct m; cbn [check_margin]; unfold check_signed, check_length;
      unfold length_ok in H; now rewrite H.
Qed.

(** A program that makes accepted calls only runs on the library as it
    runs on the builder of the specification. *)
Lemma docx_exec_passes e A (p : Prog A) :
  passes e p -> forall w, docx_exec e p w = exec e p w.
Proof.
  unfold passes. induction p as [a | x | o k IH]; intros H w; try reflexivity.
  cbn [all_ops] in H. destruct H as [Ho Hk].
  cbn [docx_exec exec]. rewrite (@docx_step_accepted e o w Ho).
  destruct (step e o w) as [[r | x] w']; [now apply IH | reflexivity].
Qed.

Lemma passes_bind e A B (p : Prog A) (f : A -> Prog B) :
  passes e p -> (forall a, passes e (f a)) -> passes e (bind p f).
Proof.
  unfold passes. induction p as [a | x | o k IH]; intros Hp Hf; cbn [bind all_ops].
  - apply Hf.
  - exact I.
  - destruct Hp as [Ho Hk]. split; [exact Ho |]. intros r. now apply IH.
Qed.

Lemma passes_call e o : accepted e o = true -> passes e (call o).
Proof. intros H. split; [exact H | intros r; exact I]. Qed.

Lemma passes_for_each e A B (l : list A) (f : A -> Prog B) :
  (forall x, In x l -> passes e (f x)) -> passes e (for_each l f).
Proof.
  induction l as [| x l IH]; intros H; [exact I |].
  cbn [for_each]. apply passes_bind; [apply H; now left |].
  intros _. apply IH. intros y Hy. apply H. now right.
Qed.

Lemma passes_item e A B (l : list A) i (f : A -> Prog B) :
  (forall x, In x l -> passes e (f x)) -> passes e (bind (item l i) f).
Proof.
  intros H. unfold item.
  destruct (Py.index (List.length l) i) as [n |]; [| exact I].
  destruct (nth_error l n) as [x |] eqn:E; [| exact I].
  cbn [bind]. apply H. eapply nth_error_In; eassumption.
Qed.

Lemma in_enumerate A (l : list A) :
  forall start i x, In (i, x) (Py.enumerate l start) -> In x l.
Proof.
  induction l as [| y l IH]; intros start i x H; [destruct H |].
  cbn [Py.enumerate] in H. destruct H as [H | H].
  - inversion H; now left.
  - right. eapply IH; eassumption.
Qed.

(** *** The style helpers on the library (C6) *)

Lemma pt_ok_length x : pt_ok x = true -> length_ok (Pt x) = true.
Proof. unfold pt_ok, length_ok, unsigned_long. lia. Qed.

Lemma pt_refused_check x :
  pt_refused x = true -> exists msg, check_length (Pt x) = Raised (ValueError msg).
Proof.
  unfold pt_refused, check_length. intros H. apply negb_true_iff in H.
  rewrite H. eexists; reflexivity.
Qed.

Lemma set_paragraph_spacing_passes e p sb sa :
  pt_ok sb = true -> pt_ok sa = true -> passes e (set_paragraph_spacing p sb sa).
Proof.
  intros Hb Ha. unfold set_paragraph_spacing, paragraph_format.
  apply passes_bind; [apply passes_call; now apply pt_ok_length |]. intros _.
  apply passes_bind; [apply passes_call; now apply pt_ok_length |]. intros _.
  now apply passes_call.
Qed.

Lemma docx_set_paragraph_spacing e w i p sb sa :
  paragraph_at w i = Some p -> pt_ok sb = true -> pt_ok sa = true ->
  docx_exec e (set_paragraph_spacing (block_at i) sb sa) w =
    (Ok tt, update_block i (with_paragraph (spaced sb sa)) w).
Proof.
  intros H Hb Ha.
  rewrite (@docx_exec_passes e _ _ (@set_paragraph_spacing_passes e (block_at i) sb sa Hb Ha)).
  now apply set_paragraph_spacing_exec with (p := p).
Qed.

Lemma docx_set_paragraph_spacing_before e w i p sb sa :
  paragraph_at w i = Some p -> pt_refused sb = true ->
  exists msg,
    docx_exec e (set_paragraph_spacing (block_at i) sb sa) w = (Raised (ValueError msg), w).
Proof.
  intros H Hb. destruct (@pt_refused_check sb Hb) as [msg Hm].
  exists msg. unfold set_paragraph_spacing, paragraph_format.
  cbn [bind set_space_before call docx_exec docx_step].
  rewrite H. cbn [check_paragraph_attr]. now rewrite Hm.
Qed.

Lemma docx_set_paragraph_spacing_after e w i p sb sa :
  paragraph_at w i = Some p -> pt_ok sb = true -> pt_refused sa = true ->
  exists msg,
    docx_exec e (set_paragraph_spacing (block_at i) sb sa) w =
      (Raised (ValueError msg),
       update_block i (with_paragraph (set_paragraph_attr (SpaceBefore (Pt sb)))) w).
Proof.
  intros H Hb Ha. destruct (@pt_refused_check sa Ha) as [msg Hm].
  exists msg. destruct (@paragraph_at_block w i p H) as [b [Hblk Hp]].
  unfold set_paragraph_spacing, paragraph_format.
  cbn [bind set_space_before set_space_after call docx_exec].
  rewrite docx_step_accepted by (now apply pt_ok_length).
  rewrite (@step_set_paragraph e _ _ _ _ _ Hblk Hp).
  cbn [docx_step]. unfold paragraph_at.
  rewrite (@block_at_update _ _ _ _ Hblk), (@paragraph_of_with _ _ _ Hp).
  cbn [check_paragraph_attr]. now rewrite Hm.
Qed.

Lemma heading_style_is e level :
  1 <= level <= 9 -> style_is e ParagraphStyle ("Heading " ++ Py.str level)%string = true.
Proof.
  intros H.
  assert (level = 1 \/ level = 2 \/ level = 3 \/ level = 4 \/
          level = 5 \/ level = 6 \/ level = 7 \/ level = 8 \/ level = 9) as Hl by lia.
  repeat (destruct Hl as [-> | Hl]; [reflexivity |]). now subst.
Qed.

Lemma add_heading_with_styling_passes e text level :
  1 <= level <= 9 -> plain text = true -> passes e (add_heading_with_styling text level).
Proof.
  intros Hl Ht. unfold add_heading_with_styling, paragraph_format, when.
  apply passes_bind; [now apply passes_call |]. intros heading.
  apply passes_bind; [apply passes_call; now apply heading_style_is |]. intros _.
  apply passes_bind; [| intros _; exact I].
  destruct (level =? 1); [| exact I].
  repeat (apply passes_bind; [now apply passes_call | intros _]).
  now apply passes_call.
Qed.

Lemma docx_add_heading_with_styling e w text level :
  1 <= level <= 9 -> plain text = true ->
  docx_exec e (add_heading_with_styling text level) w =
    (Ok (block_at (List.length (body (doc w)))),
     with_body w (body (doc w) ++ [styled_heading text level])).
Proof.
  intros Hl Ht.
  rewrite (@docx_exec_passes e _ _ (@add_heading_with_styling_passes e text level Hl Ht)).
  now apply add_heading_with_styling_exec.
Qed.

Lemma docx_add_heading_with_styling_range e w text level :
  level < 0 \/ 9 < level ->
  docx_exec e (add_heading_with_styling text level) w =
    (Raised (ValueError ("level must be in range 0-9, got " ++ Py.str level)%string), w).
Proof.
  intros H. cbn. replace (level_ok level) with false; [reflexivity |].
  unfold level_ok; lia.
Qed.

Lemma docx_add_heading_with_styling_title e w text :
  plain text = true -> style_type e "Heading 0" = None ->
  exists msg,
    docx_exec e (add_heading_with_styling text 0) w =
      (Raised (KeyError msg),
       with_body w (body (doc w) ++ [call_block (add_heading text 0)])).
Proof.
  intros Ht Hs. eexists.
  unfold add_heading_with_styling.
  cbn [bind doc_add_heading call docx_exec].
  rewrite docx_step_accepted by exact Ht.
  rewrite (@step_append e (add_heading text 0) w eq_refl).
  cbn [bind set_style call docx_exec docx_step]. unfold paragraph_at.
  rewrite body_with_body, nth_error_last.
  cbn [call_block paragraph_of check_paragraph_attr].
  change ("Heading " ++ Py.str 0)%string with "Heading 0"%string.
  unfold find_style. rewrite Hs. reflexivity.
Qed.

(** A text with a control character: the paragraph is appended, then the
    text is refused. *)
Lemma docx_paragraph_control e text sty :
  has_control text = true ->
  exists p, docx_paragraph e text sty = (Raised (ValueError xml_message), p).
Proof.
  intros H. unfold docx_paragraph.
  pose proof (@put_text_control text ""%string ""%string H) as Hp.
  destruct (put_text text "" "") as [stored ok]. cbn [snd] in Hp. subst ok.
  eexists; reflexivity.
Qed.

Lemma docx_append_raised mk x p w :
  docx_append mk (Raised x, p) w = (Raised x, with_body w (body (doc w) ++ [mk p])).
Proof. reflexivity. Qed.

Lemma docx_add_heading_with_styling_text e w text level :
  0 <= level <= 9 -> has_control text = true ->
  exists msg b,
    docx_exec e (add_heading_with_styling text level) w =
      (Raised (ValueError msg), with_body w (body (doc w) ++ [b])).
Proof.
  intros Hl Ht.
  destruct (@docx_paragraph_control e text (Some (heading_style level)) Ht) as [p Hp].
  exists xml_message, (Heading level p).
  unfold add_heading_with_styling.
  cbn [bind doc_add_heading call docx_exec docx_step].
  replace (level_ok level) with true by (unfold level_ok; lia).
  now rewrite Hp, docx_append_raised.
Qed.

Lemma add_styled_paragraph_passes e text style bold italic :
  plain text = true -> style_is e ParagraphStyle style = true ->
  passes e (add_styled_paragraph text style bold italic).
Proof.
  intros Ht Hs. unfold add_styled_paragraph, when.
  apply passes_bind.
  { apply passes_call. cbn [accepted]. now rewrite Ht, Hs. }
  intros p. apply passes_bind.
  { destruct (bold || italic); [| exact I].
    apply passes_bind; [now apply passes_call |]. intros rs.
    apply passes_for_each. intros r _.
    apply passes_bind; [destruct bold; [now apply passes_call | exact I] |].
    intros _. destruct italic; [now apply passes_call | exact I]. }
  intros _. apply passes_bind; [now apply set_paragraph_spacing_passes |].
  intros _. exact I.
Qed.

Lemma style_type_is e k s : style_type e s = Some k -> style_is e k s = true.
Proof. unfold style_is. intros ->. now destruct k. Qed.

Lemma docx_add_styled_paragraph e w text style bold italic :
  plain text = true -> style_type e style = Some ParagraphStyle ->
  docx_exec e (add_styled_paragraph text style bold italic) w =
    (Ok (block_at (List.length (body (doc w)))),
     with_body w (body (doc w) ++ [styled_paragraph text style bold italic])).
Proof.
  intros Ht Hs.
  rewrite (@docx_exec_passes e _ _
             (@add_styled_paragraph_passes e text style bold italic Ht
                (@style_type_is e _ style Hs))).
  apply add_styled_paragraph_exec.
Qed.

Lemma docx_add_styled_paragraph_style e w text style bold italic :
  plain text = true ->
  (style_type e style = None ->
   exists msg,
     docx_exec e (add_styled_paragraph text style bold italic) w =
       (Raised (KeyError msg),
        with_body w (body (doc w) ++ [Para (new_paragraph text None)]))) /\
  (forall k, style_type e style = Some k -> k <> ParagraphStyle ->
   exists msg,
     docx_exec e (add_styled_paragraph text style bold italic) w =
       (Raised (ValueError msg),
        with_body w (body (doc w) ++ [Para (new_paragraph text None)]))).
Proof.
  intros Ht. split.
  - intros Hs. eexists. unfold add_styled_paragraph.
    cbn [bind doc_add_paragraph call docx_exec docx_step].
    unfold docx_paragraph, find_style.
    rewrite (@put_text_plain_whole _ Ht), Hs. reflexivity.
  - intros k Hs Hk. eexists. unfold add_styled_paragraph.
    cbn [bind doc_add_paragraph call docx_exec docx_step].
    unfold docx_paragraph, find_style.
    rewrite (@put_text_plain_whole _ Ht), Hs.
    destruct k; [contradiction | reflexivity | reflexivity].
Qed.

Lemma docx_add_styled_paragraph_text e w text style bold italic :
  has_control text = true ->
  exists msg b,
    docx_exec e (add_styled_paragraph text style bold italic) w =
      (Raised (ValueError msg), with_body w (body (doc w) ++ [b])).
Proof.
  intros Ht.
  destruct (@docx_paragraph_control e text (Some style) Ht) as [p Hp].
  exists xml_message, (Para p).
  unfold add_styled_paragraph.
  cbn [bind doc_add_paragraph call docx_exec docx_step].
  now rewrite Hp, docx_append_raised.
Qed.

(** C6 as stated fails: [set_paragraph_spacing] returns nothing and changes
    the paragraph it is given in place; [add_styled_paragraph] appends a
    block to the document; [add_heading_with_styling] raises for level 10,
    and [set_paragraph_spacing] for a negative spacing. *)
Lemma C6_helpers_not_pure_nor_total :
  docx_outcome open_env (set_paragraph_spacing (block_at 0) 0 12) one_paragraph = Ok tt /\
  docx_final open_env (set_paragraph_spacing (block_at 0) 0 12) one_paragraph <>
    one_paragraph /\
  List.length (body (doc one_paragraph)) = 1%nat /\
  List.length (body (doc (docx_final open_env
     (add_styled_paragraph "text" "Normal" false false) one_paragraph))) = 2%nat /\
  docx_outcome open_env (add_heading_with_styling "text" 10) one_paragraph =
    Raised (ValueError "level must be in range 0-9, got 10") /\
  (exists msg,
     docx_outcome open_env (set_paragraph_spacing (block_at 0) (-1) 12) one_paragraph =
       Raised (ValueError msg)).
Proof.
  split; [reflexivity |]. split; [| repeat split].
  - intros H. discriminate H.
  - eexists. reflexivity.
Qed.

(** C6, amended: the style helpers update the document in place, and fail
    where the library refuses what they pass on.
    [set_paragraph_spacing] returns nothing and sets, on the paragraph it
    is given, the space before and after in points and the line spacing
    1.5, leaving the rest as it was; a spacing the library refuses (a
    negative one, or one above the unsigned range) raises ValueError, and
    when it is the second one the first stays assigned.
    [add_heading_with_styling] appends, for a level from 1 to 9 and a plain
    text, a heading of style [Heading <level>] (with 12 pt spacing and
    left alignment at level 1) and returns it; it raises ValueError for a
    level outside 0-9, leaving the document as it was; at level 0 it raises
    KeyError (no style [Heading 0]) with the title heading left in the
    document; a text with a control character (other than tab, line feed
    and carriage return) raises ValueError with a block left in the
    document.
    [add_styled_paragraph] appends, for a plain text and a paragraph style
    of the template, a paragraph of that style with the spacing 0, 12,
    1.5, its run bold and italic as asked, and returns it; a style name the
    template lacks raises KeyError and a style of another type ValueError,
    both with the unstyled paragraph left in the document, and a text with
    a control character raises ValueError with a block left. *)
Theorem C6_style_helpers_update_in_place :
  forall (e : Env) (w : World),
    (forall i p space_before space_after,
       paragraph_at w i = Some p ->
       (pt_ok space_before = true -> pt_ok space_after = true ->
          docx_exec e (set_paragraph_spacing (block_at i) space_before space_after) w =
            (Ok tt, update_block i (with_paragraph (spaced space_before space_after)) w))
       /\
       (pt_refused space_before = true ->
          exists msg,
            docx_exec e (set_paragraph_spacing (block_at i) space_before space_after) w =
              (Raised (ValueError msg), w))
       /\
       (pt_ok space_before = true -> pt_refused space_after = true ->
          exists msg,
            docx_exec e (set_paragraph_spacing (block_at i) space_before space_after) w =
              (Raised (ValueError msg),
               update_block i
                 (with_paragraph (set_paragraph_attr (SpaceBefore (Pt space_before)))) w)))
    /\
    (forall text level,
       (1 <= level <= 9 -> plain text = true ->
          docx_exec e (add_heading_with_styling text level) w =
            (Ok (block_at (List.length (body (doc w)))),
             with_body w (body (doc w) ++ [styled_heading text level])))
       /\
       (level < 0 \/ 9 < level ->
          docx_exec e (add_heading_with_styling text level) w =
            (Raised (ValueError ("level must be in range 0-9, got " ++ Py.str level)%string),
             w))
       /\
       (level = 0 -> plain text = true -> style_type e "Heading 0" = None ->
          exists msg,
            docx_exec e (add_heading_with_styling text level) w =
              (Raised (KeyError msg),
               with_body w (body (doc w) ++ [call_block (add_heading text 0)])))
       /\
       (0 <= level <= 9 -> has_control text = true ->
          exists msg b,
            docx_exec e (add_heading_with_styling text level) w =
              (Raised (ValueError msg), with_body w (body (doc w) ++ [b]))))
    /\
    (forall text style bold italic,
       (plain text = true -> style_type e style = Some ParagraphStyle ->
          docx_exec e (add_styled_paragraph text style bold italic) w =
            (Ok (block_at (List.length (body (doc w)))),
             with_body w (body (doc w) ++ [styled_paragraph text style bold italic])))
       /\
       (plain text = true -> style_type e style = None ->
          exists msg,
            docx_exec e (add_styled_paragraph text style bold italic) w =
              (Raised (KeyError msg),
               with_body w (body (doc w) ++ [Para (new_paragraph text None)])))
       /\
       (forall k, plain text = true -> style_type e style = Some k ->
          k <> ParagraphStyle ->
          exists msg,
            docx_exec e (add_styled_paragraph text style bold italic) w =
              (Raised (ValueError msg),
               with_body w (body (doc w) ++ [Para (new_paragraph text None)])))
       /\
       (has_control text = true ->
          exists msg b,
            docx_exec e (add_styled_paragraph text style bold italic) w =
              (Raised (ValueError msg), with_body w (body (doc w) ++ [b])))).
Proof.
  intros e w. split; [| split].
  - intros i p sb sa H. split; [| split].
    + intros Hb Ha. exact (@docx_set_paragraph_spacing e w i p sb sa H Hb Ha).
    + intros Hb. exact (@docx_set_paragraph_spacing_before e w i p sb sa H Hb).
    + intros Hb Ha. exact (@docx_set_paragraph_spacing_after e w i p sb sa H Hb Ha).
  - intros text level. split; [| split; [| split]].
    + intros Hl Ht. exact (@docx_add_heading_with_styling e w text level Hl Ht).
    + intros Hl. exact (@docx_add_heading_with_styling_range e w text level Hl).
    + intros -> Ht Hs. exact (@docx_add_heading_with_styling_title e w text Ht Hs).
    + intros Hl Ht. exact (@docx_add_heading_with_styling_text e w text level Hl Ht).
  - intros text style bold italic. split; [| split; [| split]].
    + intros Ht Hs. exact (@docx_add_styled_paragraph e w text style bold italic Ht Hs).
    + intros Ht Hs.
      exact (proj1 (@docx_add_styled_paragraph_style e w text style bold italic Ht) Hs).
    + intros k Ht Hs Hk.
      exact (proj2 (@docx_add_styled_paragraph_style e w text style bold italic Ht) k Hs Hk).
    + intros Ht. exact (@docx_add_styled_paragraph_text e w text style bold italic Ht).
Qed.

Lemma C6_style_helpers_witness :
  docx_exec open_env (set_paragraph_spacing (block_at 0) 0 6) one_paragraph =
    (Ok tt, update_block 0 (with_paragraph (spaced 0 6)) one_paragraph) /\
  (exists msg,
     docx_exec open_env (set_paragraph_spacing (block_at 0) (-1) 6) one_paragraph =
       (Raised (ValueError msg), one_paragraph)) /\
  (exists msg,
     docx_exec open_env (set_paragraph_spacing (block_at 0) 6 (-1)) one_paragraph =
       (Raised (ValueError msg),
        update_block 0 (with_paragraph (set_paragraph_attr (SpaceBefore (Pt 6))))
          one_paragraph)) /\
  docx_exec open_env (add_heading_with_styling "Introduction" 1) one_paragraph =
    (Ok (block_at 1),
     with_body one_paragraph
       (body (doc one_paragraph) ++ [styled_heading "Introduction" 1])) /\
  docx_exec open_env (add_heading_with_styling "Introduction" (-1)) one_paragraph =
    (Raised (ValueError "level must be in range 0-9, got -1"), one_paragraph) /\
  (exists msg,
     docx_exec open_env (add_heading_with_styling "Introduction" 0) one_paragraph =
       (Raised (KeyError msg),
        with_body one_paragraph
          (body (doc one_paragraph) ++ [call_block (add_heading "Introduction" 0)]))) /\
  (exists msg b,
     docx_exec open_env (add_heading_with_styling control_text 2) one_paragraph =
       (Raised (ValueError msg),
        with_body one_paragraph (body (doc one_paragraph) ++ [b]))) /\
  docx_exec open_env (add_styled_paragraph "text" "Normal" true false) one_paragraph =
    (Ok (block_at 1),
     with_body one_paragraph
       (body (doc one_paragraph) ++ [styled_paragraph "text" "Normal" true false])) /\
  (exists msg,
     docx_exec open_env (add_styled_paragraph "text" "No Such Style" false false)
       one_paragraph =
       (Raised (KeyError msg),
        with_body one_paragraph
          (body (doc one_paragraph) ++ [Para (new_paragraph "text" None)]))) /\
  (exists msg,
     docx_exec open_env (add_styled_paragraph "text" "Light Grid Accent 1" false false)
       one_paragraph =
       (Raised (ValueError msg),
        with_body one_paragraph
          (body (doc one_paragraph) ++ [Para (new_paragraph "text" None)]))) /\
  (exists msg b,
     docx_exec open_env (add_styled_paragraph control_text "Normal" false false)
       one_paragraph =
       (Raised (ValueError msg),
        with_body one_paragraph (body (doc one_paragraph) ++ [b]))).
Proof.
  destruct (C6_style_helpers_update_in_place open_env one_paragraph) as [H1 [H2 H3]].
  split.
  { apply (proj1 (H1 0%nat (new_paragraph "text" None) 0 6 eq_refl)); reflexivity. }
  split.
  { apply (proj1 (proj2 (H1 0%nat (new_paragraph "text" None) (-1) 6 eq_refl))).
    reflexivity. }
  split.
  { apply (proj2 (proj2 (H1 0%nat (new_paragraph "text" None) 6 (-1) eq_refl)));
      reflexivity. }
  split.
  { apply (proj1 (H2 "Introduction"%string 1)); [lia | reflexivity]. }
  split.
  { apply (proj1 (proj2 (H2 "Introduction"%string (-1)))). lia. }
  split.
  { apply (proj1 (proj2 (proj2 (H2 "Introduction"%string 0)))); reflexivity. }
  split.
  { apply (proj2 (proj2 (proj2 (H2 control_text 2)))); [lia | reflexivity]. }
  split.
  { apply (proj1 (H3 "text"%string "Normal"%string true false)); reflexivity. }
  split.
  { apply (proj1 (proj2 (H3 "text"%string "No Such Style"%string false false)));
      reflexivity. }
  split.
  { apply (proj1 (proj2 (proj2 (H3 "text"%string "Light Grid Accent 1"%string false false)))
             TableStyle); [reflexivity | reflexivity | discriminate]. }
  apply (proj2 (proj2 (proj2 (H3 control_text "Normal"%string false false)))).
  reflexivity.
Defined.

(* ====================================================================== *)
(** ** Populating a table (C4) *)
(* ====================================================================== *)

Lemma py_index_nat len k :
  Py.index len (Z.of_nat k) = if (k <? len)%nat then Some k else None.
Proof.
  unfold Py.index.
  destruct (Nat.ltb_spec k len).
  - replace (0 <=? Z.of_nat k) with true by lia.
    replace (Z.of_nat k <? Z.of_nat len) with true by lia.
    simpl. now rewrite Nat2Z.id.
  - replace (Z.of_nat k <? Z.of_nat len) with false by lia.
    replace (Z.of_nat k <? 0) with false by lia.
    now rewrite andb_false_r.
Qed.

Lemma table_at_block w n t :
  table_at w n = Some t -> nth_error (body (doc w)) n = Some (Tbl t).
Proof.
  unfold table_at. destruct (nth_error _ _) as [[| | t' |] |]; simpl;
    intros H; inversion H; reflexivity.
Qed.

Lemma table_at_put w n t t' :
  table_at w n = Some t -> table_at (put_table n t' w) n = Some t'.
Proof.
  intros H. unfold table_at, put_table.
  now rewrite (@block_at_update n (fun _ => Tbl t') w _ (table_at_block _ _ H)).
Qed.

Lemma put_table_twice n t1 t2 w : put_table n t2 (put_table n t1 w) = put_table n t2 w.
Proof. unfold put_table. now rewrite update_block_twice. Qed.

Lemma put_table_same w n t : table_at w n = Some t -> put_table n t w = w.
Proof.
  intros H. apply table_at_block in H.
  unfold put_table, update_block.
  rewrite (@update_nth_same _ n (fun _ => Tbl t) _ _ H eq_refl).
  now destruct w as [[s b] f o].
Qed.

Lemma update_block_table w n t f :
  table_at w n = Some t ->
  update_block n (with_table f) w = put_table n (f t) w.
Proof.
  intros H. apply table_at_block in H. unfold put_table.
  now rewrite (@update_block_at n (with_table f) w _ H).
Qed.

Lemma update_nth_const_twice A i (x y : A) l :
  update_nth i (fun _ => y) (update_nth i (fun _ => x) l) = update_nth i (fun _ => y) l.
Proof. apply update_nth_twice. Qed.

Section Populate.

Variable e : Env.
Variable n : nat.

(** Writing the strings of one row, from a column on. *)
Lemma fill_cells r row_data :
  forall cpre crest w t,
    table_at w n = Some t ->
    nth_error (t_rows t) r = Some (cpre ++ crest) ->
    let p := for_each (Py.enumerate row_data (Z.of_nat (List.length cpre)))
               (fun '(j, cell_data) => set_text (cells_at n r) j cell_data) in
    if (List.length row_data <=? List.length crest)%nat then
      exec e p w =
        (Ok tt,
         put_table n
           (mkTable (t_style t)
              (update_nth r
                 (fun _ => cpre ++ row_data ++ skipn (List.length row_data) crest)
                 (t_rows t)))
           w)
    else outcome e p w = Raised IndexError.
Proof.
  induction row_data as [| s rd IH]; intros cpre crest w t Ht Hr; cbn zeta.
  - simpl. f_equal.
    rewrite (@update_nth_same _ r (fun _ => cpre ++ crest) _ _ Hr eq_refl).
    destruct t as [sty rows]; simpl. symmetry; now apply put_table_same.
  - destruct crest as [| x crest'].
    + simpl. unfold outcome; simpl. rewrite Ht, Hr.
      rewrite app_nil_r, py_index_nat, Nat.ltb_irrefl. reflexivity.
    + assert (Hstep :
        step e (SetCellText (cells_at n r) (Z.of_nat (List.length cpre)) s) w =
        (Ok tt,
         put_table n
           (mkTable (t_style t)
              (update_nth r (fun _ => (cpre ++ [s]) ++ crest') (t_rows t))) w)).
      { cbn [step]. rewrite Ht, Hr, py_index_nat.
        rewrite ltb_length_app. rewrite (update_block_table _ _ _ Ht).
        cbn [t_style t_rows]. f_equal. f_equal. f_equal.
        rewrite (@update_nth_at _ r _ _ _ Hr), update_nth_app.
        now rewrite <- app_assoc. }
      set (t1 := mkTable (t_style t)
                   (update_nth r (fun _ => (cpre ++ [s]) ++ crest') (t_rows t))).
      assert (Ht1 : table_at (put_table n t1 w) n = Some t1)
        by (eapply table_at_put; eassumption).
      assert (Hr1 : nth_error (t_rows t1) r = Some ((cpre ++ [s]) ++ crest')).
      { unfold t1; simpl. now rewrite nth_error_update_nth, Nat.eqb_refl, Hr. }
      specialize (IH (cpre ++ [s]) crest' (put_table n t1 w) t1 Ht1 Hr1).
      cbn zeta in IH.
      rewrite length_app, Nat.add_1_r, Nat2Z.inj_succ in IH.
      unfold Z.succ in IH.
      change (List.length (s :: rd) <=? List.length (x :: crest'))%nat
        with (List.length rd <=? List.length crest')%nat.
      cbn [Py.enumerate for_each bind set_text call]. unfold outcome in *.
      cbn [exec]. rewrite Hstep. subst t1.
      destruct (List.length rd <=? List.length crest')%nat.
      * rewrite IH. f_equal. rewrite put_table_twice. f_equal.
        cbn [t_style t_rows]. rewrite update_nth_const_twice.
        f_equal. f_equal. now rewrite <- !app_assoc.
      * exact IH.
Qed.

(** Writing the rows of data, from a row on. *)
Lemma fill_rows cols data :
  forall pre rest w t,
    table_at w n = Some t ->
    t_rows t = pre ++ rest ->
    Forall (fun r => List.length r = cols) rest ->
    let p := for_each (Py.enumerate data (Z.of_nat (List.length pre)))
               (fun '(i, row_data) =>
                  cells <- rows_cells (block_at n) i ;;
                  for_each (Py.enumerate row_data 0) (fun '(j, cell_data) =>
                    set_text cells j cell_data)) in
    if (List.length data <=? List.length rest)%nat &&
       forallb (fun d => (List.length d <=? cols)%nat) data then
      exec e p w =
        (Ok tt, put_table n (mkTable (t_style t) (pre ++ overlay data rest)) w)
    else outcome e p w = Raised IndexError.
Proof.
  induction data as [| d data IH]; intros pre rest w t Ht Hrows Hcols; cbn zeta.
  - simpl. f_equal. rewrite <- Hrows.
    destruct t as [sty rows]; simpl. symmetry; now apply put_table_same.
  - destruct rest as [| r0 rest'].
    + simpl. unfold outcome; simpl. rewrite Ht, Hrows.
      rewrite app_nil_r, py_index_nat, Nat.ltb_irrefl. reflexivity.
    + assert (Hcells :
        step e (RowCells (block_at n) (Z.of_nat (List.length pre))) w =
        (Ok (cells_at n (List.length pre)), w)).
      { cbn [step]. rewrite Ht, Hrows, py_index_nat, ltb_length_app. reflexivity. }
      assert (Hr : nth_error (t_rows t) (List.length pre) = Some ([] ++ r0)).
      { rewrite Hrows. rewrite nth_error_app2, Nat.sub_diag by lia. reflexivity. }
      pose proof (@fill_cells (List.length pre) d [] r0 w t Ht Hr) as Hin.
      cbn zeta in Hin. cbn [List.length Z.of_nat app] in Hin.
      apply Forall_cons_iff in Hcols as [Hc0 Hcols]. rewrite Hc0 in Hin.
      set (t1 := mkTable (t_style t)
                   (update_nth (List.length pre)
                      (fun _ => d ++ skipn (List.length d) r0) (t_rows t))) in *.
      assert (Ht1 : table_at (put_table n t1 w) n = Some t1)
        by (eapply table_at_put; eassumption).
      assert (Hrows1 : t_rows t1 = (pre ++ [d ++ skipn (List.length d) r0]) ++ rest').
      { unfold t1; cbn [t_rows]. rewrite Hrows, update_nth_app.
        now rewrite <- app_assoc. }
      specialize (IH (pre ++ [d ++ skipn (List.length d) r0]) rest'
                     (put_table n t1 w) t1 Ht1 Hrows1 Hcols).
      cbn zeta in IH.
      rewrite length_app, Nat.add_1_r, Nat2Z.inj_succ in IH.
      unfold Z.succ in IH.
      change (List.length (d :: data) <=? List.length (r0 :: rest'))%nat
        with (List.length data <=? List.length rest')%nat.
      cbn [forallb].
      cbn [Py.enumerate for_each]. unfold outcome in *.
      match goal with
      | |- context [exec e (bind ?p ?f) w] => rewrite !(@exec_bind e _ _ p f w)
      end.
      cbn [rows_cells call bind exec]. rewrite Hcells.
      cbn [rows_cells call bind] in IH. subst t1.
      destruct (List.length d <=? cols)%nat.
      * rewrite Hin.
        rewrite andb_true_l.
        destruct ((List.length data <=? List.length rest')%nat &&
                  forallb (fun d0 => (List.length d0 <=? cols)%nat) data).
        -- rewrite IH. f_equal. rewrite put_table_twice. f_equal.
           cbn [t_style overlay]. f_equal. now rewrite <- app_assoc.
        -- exact IH.
      * rewrite andb_false_l, andb_false_r.
        destruct (exec e _ w) as [[u | x] w']; simpl in Hin |- *;
          [discriminate | exact Hin].
Qed.

End Populate.

Lemma skipn_blank k cols :
  skipn k (repeat ""%string cols) = repeat ""%string (cols - k).
Proof.
  revert k; induction cols as [| cols IH]; intros [| k]; simpl; auto.
Qed.

Lemma overlay_blank cols data m :
  (List.length data <= m)%nat ->
  overlay data (repeat (repeat ""%string cols) m) =
  map (pad cols) data ++ repeat (repeat ""%string cols) (m - List.length data).
Proof.
  revert m; induction data as [| d data IH]; intros m H; simpl.
  - now rewrite Nat.sub_0_r.
  - destruct m as [| m]; simpl in *; [lia |].
    rewrite skipn_blank, IH by lia. reflexivity.
Qed.

Lemma grid_cell rows cols data r c :
  (r < rows)%nat -> (c < cols)%nat ->
  cell (grid rows cols data) r c =
  Some (match r with
        | O => ""%string
        | S r' => match nth_error data r' with
                  | Some d => nth c d ""%string
                  | None => ""%string
                  end
        end).
Proof.
  intros Hr Hc. unfold cell, grid.
  destruct rows as [| rows']; [lia |].
  destruct r as [| r']; simpl.
  - now apply nth_error_repeat.
  - destruct (Nat.lt_ge_cases r' (List.length data)) as [Hlt | Hge].
    + rewrite nth_error_app1 by now rewrite length_map.
      rewrite nth_error_map.
      destruct (nth_error data r') as [d |] eqn:E;
        [| apply nth_error_None in E; lia].
      simpl. unfold pad.
      destruct (Nat.lt_ge_cases c (List.length d)) as [Hcl | Hcg].
      * rewrite nth_error_app1 by assumption. now apply nth_error_nth'.
      * rewrite nth_error_app2 by assumption.
        rewrite nth_error_repeat by lia. now rewrite nth_overflow.
    + rewrite nth_error_app2 by now rewrite length_map.
      rewrite length_map, nth_error_repeat by lia.
      replace (nth_error data r') with (@None (list string))
        by (symmetry; now apply nth_error_None).
      now apply nth_error_repeat.
Qed.

Lemma populate_fresh_table e w rows cols data :
  let p := table <- doc_add_table (Z.of_nat rows) (Z.of_nat cols) ;;
           populate table data ;;
           Ret table in
  if fits rows cols data then
    exec e p w =
      (Ok (block_at (List.length (body (doc w)))),
       with_body w (body (doc w) ++ [Tbl (mkTable None (grid rows cols data))]))
  else outcome e p w = Raised IndexError.
Proof.
  cbn zeta. unfold outcome.
  rewrite (exec_bind e). cbn [doc_add_table call exec].
  rewrite (@step_append e (add_table (Z.of_nat rows) (Z.of_nat cols)) w eq_refl).
  cbn [exec call_block]. unfold new_table, Py.range_count. rewrite !Nat2Z.id.
  set (n := List.length (body (doc w))).
  set (blank := repeat ""%string cols).
  match goal with
  | |- context [exec e (bind ?q ?f) ?v] => rewrite !(@exec_bind e _ _ q f v)
  end.
  destruct rows as [| rows'].
  - destruct data as [| d data]; [reflexivity |].
    unfold fits; simpl. unfold table_at; simpl.
    unfold n; rewrite nth_error_last. reflexivity.
  - pose proof (@fill_rows e n cols data [blank] (repeat blank rows')
                  (with_body w (body (doc w) ++ [Tbl (mkTable None (repeat blank (S rows')))]))
                  (mkTable None (repeat blank (S rows')))) as H.
    cbn zeta in H. unfold outcome in H.
    unfold fits. rewrite repeat_length in H.
    replace (S rows' - 1)%nat with rows' by lia.
    change (Z.of_nat (List.length [blank])) with 1 in H.
    unfold populate.
    assert (H1 : table_at (with_body w (body (doc w) ++
                   [Tbl (mkTable None (repeat blank (S rows')))])) n
                 = Some (mkTable None (repeat blank (S rows')))).
    { unfold table_at; simpl. unfold n; now rewrite nth_error_last. }
    assert (H2 : Forall (fun r => List.length r = cols) (repeat blank rows')).
    { apply Forall_forall. intros r Hr. apply repeat_spec in Hr; subst r.
      apply repeat_length. }
    specialize (H H1 eq_refl H2).
    destruct ((List.length data <=? rows')%nat &&
              forallb (fun d => (List.length d <=? cols)%nat) data) eqn:E.
    + rewrite H. cbn [exec]. f_equal.
      unfold put_table. rewrite with_body_last by reflexivity.
      apply andb_prop in E as [E1 _]. apply Nat.leb_le in E1.
      subst blank. cbn [t_style grid app]. now rewrite overlay_blank.
    + destruct (exec e _ _) as [[u | x] w']; simpl in H |- *;
        [discriminate | now inversion H].
Qed.

(** C4: a table is created with every cell blank, and the filling loop
    leaves a cell it has no data for blank: after [add_table] and the
    loop over data that fits, the rows hold the data blank-filled to the
    columns (the first row and the rows beyond the data stay blank), so
    every cell reads as its data string or as the empty string; data with
    more rows than the table has after the first, or with a row longer
    than the columns, raises IndexError.  In the script both tables end
    with every cell populated: the 5x4 table is the header row over the
    four full rows of [data]. *)
Theorem C4_unpopulated_cells_are_blank :
  (forall (e : Env) (w : World) (rows cols : nat) (data : list (list string)),
     let p := table <- doc_add_table (Z.of_nat rows) (Z.of_nat cols) ;;
              populate table data ;;
              Ret table in
     (fits rows cols data = true ->
        exec e p w =
          (Ok (block_at (List.length (body (doc w)))),
           with_body w (body (doc w) ++ [Tbl (mkTable None (grid rows cols data))])) /\
        forall r c, (r < rows)%nat -> (c < cols)%nat ->
          cell (grid rows cols data) r c =
          Some (match r with
                | O => ""%string
                | S r' => match nth_error data r' with
                          | Some d => nth c d ""%string
                          | None => ""%string
                          end
                end)) /\
     (fits rows cols data = false -> outcome e p w = Raised IndexError))
  /\
  (forall (e : Env) template disk,
     let bs := body (doc (final e script (start template disk))) in
     nth_error bs 111 =
       Some (Tbl (mkTable (Some "Light Grid Accent 1"%string)
                    (["Aspect"; "Monolithic"; "SOA"; "Microservices"]%string
                     :: tl (grid 5 4 data)))) /\
     grid 5 4 data = repeat ""%string 4 :: data /\
     forallb full_table bs = true /\
     List.length (filter (fun b => kind_eqb (block_kind b) KTable) bs) = 2%nat).
Proof.
  split.
  - intros e w rows cols data p; subst p.
    pose proof (populate_fresh_table e w rows cols data) as H. cbn zeta in H.
    split; intros F; rewrite F in H.
    + split; [exact H |]. intros r c Hr Hc. now apply grid_cell.
    + exact H.
  - intros e template disk bs; subst bs. rewrite script_doc. cbn [body].
    repeat split; vm_compute; reflexivity.
Qed.

Lemma C4_unpopulated_cells_witness :
  fits 5 4 partial_data = true /\
  outcome open_env
    (table <- doc_add_table 5 4 ;; populate table partial_data ;; Ret table)
    (start [] []) = Ok (block_at 0) /\
  cell (grid 5 4 partial_data) 1 1 = Some "Single unit"%string /\
  cell (grid 5 4 partial_data) 2 3 = Some ""%string /\
  outcome open_env
    (table <- doc_add_table 2 2 ;; populate table partial_data ;; Ret table)
    (start [] []) = Raised IndexError.
Proof.
  destruct (proj1 C4_unpopulated_cells_are_blank open_env (start [] []) 5%nat 4%nat
              partial_data) as [H _].
  destruct (H eq_refl) as [H1 H2].
  destruct (proj1 C4_unpopulated_cells_are_blank open_env (start [] []) 2%nat 2%nat
              partial_data) as [_ H3].
  split; [reflexivity |].
  split; [unfold outcome; cbn [Z.of_nat Pos.of_succ_nat Pos.succ] in H1; rewrite H1; reflexivity |].
  split; [apply (H2 1%nat 1%nat); lia |].
  split; [apply (H2 2%nat 3%nat); lia |].
  apply (H3 eq_refl).
Defined.

(* ====================================================================== *)
(** ** Further properties of the helpers and the loops *)
(* ====================================================================== *)

Lemma spaced_spaced a b c d blk :
  with_paragraph (spaced c d) (with_paragraph (spaced a b) blk) =
  with_paragraph (spaced c d) blk.
Proof. destruct blk; reflexivity. Qed.

(** On the builder of the specification the second of two calls decides. *)
Lemma set_paragraph_spacing_twice e w i p a b c d :
  paragraph_at w i = Some p ->
  exec e (set_paragraph_spacing (block_at i) a b ;;
          set_paragraph_spacing (block_at i) c d) w =
  exec e (set_paragraph_spacing (block_at i) c d) w.
Proof.
  intros H.
  destruct (@paragraph_at_block w i p H) as [blk [Hb Hp]].
  rewrite exec_bind.
  rewrite (@set_paragraph_spacing_exec e w i p a b H).
  rewrite (@set_paragraph_spacing_exec e w i p c d H).
  assert (H' : paragraph_at (update_block i (with_paragraph (spaced a b)) w) i
               = Some (spaced a b p)).
  { unfold paragraph_at.
    rewrite (@block_at_update i (with_paragraph (spaced a b)) w blk Hb).
    now apply paragraph_of_with. }
  rewrite (@set_paragraph_spacing_exec e _ i _ c d H').
  f_equal. rewrite update_block_twice.
  rewrite (@update_block_at i _ w blk Hb), spaced_spaced.
  symmetry; apply (@update_block_at i _ w blk Hb).
Qed.

(** X1: [set_paragraph_spacing] called twice on a paragraph, with spacings
    the library takes, leaves what the second call alone leaves (the last
    spacing wins, and a repeated call changes nothing more); no other block
    is touched. *)
Theorem set_paragraph_spacing_last_wins :
  forall (e : Env) (w : World) (i : nat) (p : Paragraph) (a b c d : Z),
    paragraph_at w i = Some p ->
    pt_ok a = true -> pt_ok b = true -> pt_ok c = true -> pt_ok d = true ->
    docx_exec e (set_paragraph_spacing (block_at i) a b ;;
                 set_paragraph_spacing (block_at i) c d) w =
    docx_exec e (set_paragraph_spacing (block_at i) c d) w /\
    List.length (body (doc (docx_final e (set_paragraph_spacing (block_at i) c d) w))) =
      List.length (body (doc w)) /\
    forall j, j <> i ->
      nth_error (body (doc (docx_final e (set_paragraph_spacing (block_at i) c d) w))) j =
      nth_error (body (doc w)) j.
Proof.
  intros e w i p a b c d H Ha Hb Hc Hd.
  pose proof (@set_paragraph_spacing_passes e (block_at i) a b Ha Hb) as P1.
  pose proof (@set_paragraph_spacing_passes e (block_at i) c d Hc Hd) as P2.
  unfold docx_final.
  rewrite (@docx_exec_passes e _ _ (@passes_bind e _ _ _ _ P1 (fun _ => P2))).
  rewrite (@docx_exec_passes e _ _ P2).
  split; [exact (@set_paragraph_spacing_twice e w i p a b c d H) |].
  rewrite (@set_paragraph_spacing_exec e w i p c d H).
  split.
  - simpl. apply update_nth_length.
  - intros j Hj. simpl. rewrite nth_error_update_nth.
    destruct (Nat.eqb_spec i j); [congruence | reflexivity].
Qed.

Lemma set_paragraph_spacing_last_wins_witness :
  docx_exec open_env (set_paragraph_spacing (block_at 0) 0 6 ;;
                      set_paragraph_spacing (block_at 0) 0 12) one_paragraph =
  docx_exec open_env (set_paragraph_spacing (block_at 0) 0 12) one_paragraph.
Proof.
  apply (@set_paragraph_spacing_last_wins open_env one_paragraph 0%nat
           (new_paragraph "text" None) 0 6 0 12); reflexivity.
Defined.

(** A heading call on the library either appends a heading of its style
    or raises. *)
Lemma docx_step_heading e text level w :
  level_ok level = true ->
  (exists p,
     docx_step e (Append (add_heading text level)) w =
       (Ok (block_at (List.length (body (doc w)))),
        with_body w (body (doc w) ++ [Heading level p])) /\
     p_style p = Some (heading_style level)) \/
  (exists x w', docx_step e (Append (add_heading text level)) w = (Raised x, w')).
Proof.
  intros Hl. cbn [docx_step]. rewrite Hl. unfold docx_paragraph.
  destruct (put_text text "" "") as [stored ok].
  destruct ok; [| right; eexists; eexists; reflexivity].
  rewrite heading_style_found by (unfold level_ok in Hl; lia).
  left. eexists. split; reflexivity.
Qed.

(** X2: for a level from 2 to 9 [add_heading_with_styling] does what the
    plain [doc.add_heading] does, whatever the text (the style it assigns
    is the one the heading already has, and a text the library refuses is
    refused by both in the same way); at level 1, for a plain text, it
    does more: the two results differ. *)
Theorem add_heading_with_styling_only_styles_level_1 :
  forall (e : Env) (w : World) (text : string) (level : Z),
    (2 <= level <= 9 ->
       docx_exec e (add_heading_with_styling text level) w =
       docx_exec e (doc_add_heading text level) w) /\
    (plain text = true ->
       docx_exec e (add_heading_with_styling text 1) w <>
       docx_exec e (doc_add_heading text 1) w).
Proof.
  intros e w text level. split.
  - intros H.
    assert (Hl : level_ok level = true) by (unfold level_ok; lia).
    unfold add_heading_with_styling, doc_add_heading.
    cbn [bind call docx_exec].
    destruct (@docx_step_heading e text level w Hl) as [[p [Hp Hs]] | [x [w' Hx]]];
      [| now rewrite Hx].
    rewrite Hp. cbn [set_style bind call docx_exec docx_step].
    unfold paragraph_at. rewrite body_with_body, nth_error_last.
    cbn [paragraph_of check_paragraph_attr].
    rewrite (@find_style_is e ParagraphStyle _ (@heading_style_is e level ltac:(lia))).
    rewrite with_body_last by reflexivity.
    replace (level =? 1) with false by lia. cbn [when bind docx_exec].
    do 3 f_equal. destruct p as [sty al sb sa ls rs]. cbn in Hs |- *.
    rewrite Hs. unfold heading_style. now replace (level =? 0) with false by lia.
  - intros Ht.
    rewrite (@docx_exec_passes e _ _
               (@add_heading_with_styling_passes e text 1 ltac:(lia) Ht)).
    rewrite (@docx_exec_passes e _ (doc_add_heading text 1)
               (@passes_call e (Append (add_heading text 1)) Ht)).
    rewrite (@add_heading_with_styling_exec e w text 1) by lia.
    cbn [doc_add_heading call exec].
    rewrite (@step_append e (add_heading text 1) w eq_refl). cbn [exec].
    intros H. inversion H as [Hb]. apply app_inv_head in Hb. discriminate Hb.
Qed.

Lemma add_heading_with_styling_only_styles_witness :
  docx_exec open_env (add_heading_with_styling control_text 2) one_paragraph =
    docx_exec open_env (doc_add_heading control_text 2) one_paragraph /\
  docx_exec open_env (add_heading_with_styling "1. INTRODUCTION" 1) one_paragraph <>
    docx_exec open_env (doc_add_heading "1. INTRODUCTION" 1) one_paragraph.
Proof.
  split.
  - apply (proj1 (add_heading_with_styling_only_styles_level_1
                    open_env one_paragraph control_text 2)).
    lia.
  - apply (proj2 (add_heading_with_styling_only_styles_level_1
                    open_env one_paragraph "1. INTRODUCTION" 1)).
    reflexivity.
Defined.

(** X3: the margin loop, on any document (also one that has content
    already): whatever margins the sections had, each gets the four page
    margins; the blocks, the files and the output are untouched; and
    running the loop again changes nothing. *)
Theorem set_document_margins_overwrites_and_is_idempotent :
  forall (e : Env) (w : World),
    exec e set_document_margins w =
      (Ok tt,
       mkWorld (mkDocument (map (fun _ => page_margins) (sections (doc w)))
                  (body (doc w)))
         (files w) (stdout w)) /\
    exec e (set_document_margins ;; set_document_margins) w =
      exec e set_document_margins w.
Proof.
  intros e [[secs bd] disk out]. cbn [doc sections body files stdout].
  destruct (margins_exec e secs bd disk out) as [H _]. cbn zeta in H.
  split; [exact H |].
  rewrite exec_bind, H.
  destruct (margins_exec e (map (fun _ => page_margins) secs) bd disk out) as [H2 _].
  cbn zeta in H2. rewrite H2. now rewrite map_map.
Qed.

(** *** Loops that only append *)

Lemma with_body_with_body w bs bs' : with_body (with_body w bs) bs' = with_body w bs'.
Proof. reflexivity. Qed.

Lemma with_body_same w : with_body w (body (doc w)) = w.
Proof. now destruct w as [[s b] f o]. Qed.

(** One append call in front of a program. *)
Lemma exec_append e A c (k : BlockRef -> Prog A) w :
  call_ok c = true ->
  exec e (Vis (Append c) k) w =
  exec e (k (block_at (List.length (body (doc w)))))
    (with_body w (body (doc w) ++ [call_block c])).
Proof. intros H. cbn [exec]. now rewrite (@step_append e c w H). Qed.

Lemma numbered_loop e ps l :
  forall w,
    exec e (for_each l (fun '(title, description) =>
              doc_add_heading
                ("2.2." ++ Py.str (number_in ps title) ++ " " ++ title)%string 3 ;;
              doc_add_paragraph description None)) w =
    (Ok tt, with_body w (body (doc w) ++ map call_block (numbered_calls ps l))).
Proof.
  induction l as [| [title description] l IH]; intros w.
  - cbn [for_each exec]; unfold numbered_calls; cbn [flat_map map].
    now rewrite app_nil_r, with_body_same.
  - cbn [for_each doc_add_heading doc_add_paragraph call bind].
    rewrite exec_append by reflexivity.
    rewrite exec_append by reflexivity.
    rewrite IH. f_equal.
    rewrite with_body_with_body, with_body_with_body.
    rewrite !body_with_body.
    unfold numbered_calls; cbn [flat_map map fst snd app].
    now rewrite <- !app_assoc.
Qed.

Lemma bullets_loop e perms :
  forall w,
    exec e (for_each perms (fun perm =>
              doc_add_paragraph perm (Some "List Bullet"%string))) w =
    (Ok tt,
     with_body w (body (doc w) ++
       map call_block
         (map (fun perm => add_paragraph perm (Some "List Bullet"%string)) perms))).
Proof.
  induction perms as [| perm perms IH]; intros w.
  - cbn [for_each exec map]. now rewrite app_nil_r, with_body_same.
  - cbn [for_each doc_add_paragraph call bind].
    rewrite exec_append by reflexivity.
    rewrite IH. f_equal. rewrite with_body_with_body.
    rewrite !body_with_body.
    cbn [map]. now rewrite <- app_assoc.
Qed.

Lemma role_loop e rs :
  forall w,
    exec e (role_sections rs) w =
    (Ok tt, with_body w (body (doc w) ++ map call_block (role_calls rs))).
Proof.
  unfold role_sections.
  induction rs as [| [role_name role_perms] rs IH]; intros w.
  - cbn [for_each exec]; unfold role_calls; cbn [flat_map map].
    now rewrite app_nil_r, with_body_same.
  - cbn [for_each doc_add_heading call bind] in IH |- *.
    rewrite exec_append by reflexivity.
    rewrite exec_bind, bullets_loop, IH. f_equal.
    rewrite !with_body_with_body, !body_with_body.
    unfold role_calls; cbn [flat_map fst snd map].
    rewrite map_app. cbn [map]. now rewrite <- !app_assoc.
Qed.

Lemma role_sections_passes e rs :
  Forall (fun r => plain (fst r) = true /\
                   Forall (fun perm => plain perm = true) (snd r)) rs ->
  passes e (role_sections rs).
Proof.
  intros H. unfold role_sections. apply passes_for_each.
  intros [role_name role_perms] Hin.
  destruct (proj1 (Forall_forall _ rs) H _ Hin) as [Hn Hp]. cbn [fst snd] in Hn, Hp.
  apply passes_bind; [now apply passes_call |]. intros _.
  apply passes_for_each. intros perm Hperm.
  apply passes_call. cbn [accepted].
  now rewrite (proj1 (Forall_forall _ role_perms) Hp _ Hperm).
Qed.

(** X4: the loop over the roles, for roles whose names and permissions are
    plain texts, appends, for each role in order, its heading of level 4
    and then one bullet paragraph for each of its permissions: the nested
    loops flatten to one sequence of blocks, one heading more than
    permissions for each role, and the library refuses none of the
    calls. *)
Theorem role_sections_flatten :
  forall (e : Env) (rs : list (string * list string)) (w : World),
    Forall (fun r => plain (fst r) = true /\
                     Forall (fun perm => plain perm = true) (snd r)) rs ->
    docx_exec e (role_sections rs) w =
      (Ok tt, with_body w (body (doc w) ++ map call_block (role_calls rs))) /\
    List.length (role_calls rs) =
      (List.length rs + List.length (List.concat (map snd rs)))%nat.
Proof.
  intros e rs w H. split.
  - rewrite (@docx_exec_passes e _ _ (@role_sections_passes e rs H)). apply role_loop.
  - clear H. induction rs as [| [role_name role_perms] rs IH]; [reflexivity |].
    unfold role_calls in *; cbn [flat_map map List.concat fst snd].
    rewrite !length_app, IH. cbn [List.length]. rewrite length_map. lia.
Qed.

Lemma role_sections_flatten_witness :
  docx_exec open_env (role_sections roles) (start [] []) =
    (Ok tt,
     with_body (start [] []) (body (doc (start [] [])) ++ map call_block (role_calls roles))).
Proof.
  apply (proj1 (@role_sections_flatten open_env roles (start [] [])
                  ltac:(repeat constructor))).
Defined.

(** *** The numbers of the principles *)

Lemma str_leb_refl s : String.leb s s = true.
Proof. now destruct (String.leb_total s s). Qed.

Lemma str_leb_trans a :
  forall b c, String.leb a b = true -> String.leb b c = true -> String.leb a c = true.
Proof.
  unfold String.leb.
  induction a as [| ca a IH]; intros [| cb b] [| cc c]; simpl; try easy.
  unfold Ascii.compare.
  destruct (N.compare_spec (N_of_ascii ca) (N_of_ascii cb));
    destruct (N.compare_spec (N_of_ascii cb) (N_of_ascii cc));
    destruct (N.compare_spec (N_of_ascii ca) (N_of_ascii cc));
    try lia; try easy.
  apply IH.
Qed.

Lemma filter_length_mono A (f g : A -> bool) l :
  (forall x, f x = true -> g x = true) ->
  (List.length (filter f l) <= List.length (filter g l))%nat.
Proof.
  intros H; induction l as [| x l IH]; simpl; [lia |].
  destruct (f x) eqn:F; [rewrite (H x F); simpl; lia |].
  destruct (g x); simpl; lia.
Qed.

Lemma filter_length_strict A (f g : A -> bool) l x :
  (forall y, f y = true -> g y = true) ->
  In x l -> g x = true -> f x = false ->
  (List.length (filter f l) < List.length (filter g l))%nat.
Proof.
  intros H; induction l as [| y l IH]; simpl; [easy |].
  intros [-> | Hin] G F.
  - rewrite G, F; simpl.
    pose proof (filter_length_mono f g l H). lia.
  - specialize (IH Hin G F).
    destruct (f y) eqn:Fy; [rewrite (H y Fy); simpl; lia |].
    destruct (g y); simpl; lia.
Qed.

Lemma rank_strict ps t1 t2 :
  In t2 (map fst ps) -> String.leb t1 t2 = true -> t1 <> t2 ->
  (rank ps t1 < rank ps t2)%nat.
Proof.
  intros Hin Hle Hne. apply in_map_iff in Hin as [p [Hp Hin]].
  unfold rank, Py.str_le.
  apply (@filter_length_strict _ _ _ ps p); trivial.
  - intros y Hy. now apply (@str_leb_trans _ t1).
  - rewrite Hp. apply str_leb_refl.
  - rewrite Hp. destruct (String.leb t2 t1) eqn:E; [| reflexivity].
    exfalso. apply Hne. now apply String.leb_antisym.
Qed.

Lemma rank_injective ps t1 t2 :
  In t1 (map fst ps) -> In t2 (map fst ps) -> rank ps t1 = rank ps t2 -> t1 = t2.
Proof.
  intros H1 H2 E. destruct (string_dec t1 t2) as [| Hne]; [assumption |].
  destruct (String.leb_total t1 t2) as [Hle | Hle].
  - pose proof (@rank_strict ps t1 t2 H2 Hle Hne). lia.
  - pose proof (@rank_strict ps t2 t1 H1 Hle (not_eq_sym Hne)). lia.
Qed.

Lemma rank_bounds ps t :
  In t (map fst ps) -> (1 <= rank ps t <= List.length ps)%nat.
Proof.
  intros Hin. split; [| apply filter_length_le].
  apply in_map_iff in Hin as [p [Hp Hin]].
  unfold rank. destruct (filter _ ps) as [| q l] eqn:E; [| simpl; lia].
  assert (Hf : In p (filter (fun p => Py.str_le (fst p) t) ps)).
  { apply filter_In; split; [assumption |]. rewrite Hp. apply str_leb_refl. }
  rewrite E in Hf. destruct Hf.
Qed.

Lemma plain_digits d : plain (NilEmpty.string_of_uint d) = true.
Proof. induction d; cbn [NilEmpty.string_of_uint plain]; try reflexivity; exact IHd. Qed.

(** [str(n)] of an int is a plain text. *)
Lemma plain_str n : plain (Py.str n) = true.
Proof.
  unfold Py.str, NilZero.string_of_int, NilZero.string_of_uint.
  destruct (Z.to_int n) as [d | d]; destruct d;
    try reflexivity; try apply plain_digits;
    cbn [plain]; apply plain_digits.
Qed.

Lemma numbered_headings_passes e ps :
  Forall (fun p => plain (fst p) = true /\ plain (snd p) = true) ps ->
  passes e (numbered_headings ps).
Proof.
  intros H. unfold numbered_headings. apply passes_for_each.
  intros [title description] Hin.
  destruct (proj1 (Forall_forall _ ps) H _ Hin) as [Ht Hd]. cbn [fst snd] in Ht, Hd.
  apply passes_bind; [| intros _; apply passes_call; cbn [accepted];
                        now rewrite Hd].
  apply passes_call. cbn [accepted].
  now rewrite !plain_app, plain_str, Ht.
Qed.

(** X5: the numbering loop, for principles whose titles and descriptions
    are plain texts: it appends, for each principle in order, the heading
    numbered with the count of the titles that are [<=] its title, then
    the description, and the library refuses none of the calls; for any
    list of principles every number is between 1 and the number of
    principles, and when the titles are distinct the numbers are a
    permutation of 1..n (each title gets its alphabetical rank, not its
    position). *)
Theorem numbered_headings_number_by_rank :
  forall (e : Env) (ps : list (string * string)) (w : World),
    (Forall (fun p => plain (fst p) = true /\ plain (snd p) = true) ps ->
       docx_exec e (numbered_headings ps) w =
         (Ok tt, with_body w (body (doc w) ++ map call_block (numbered_calls ps ps)))) /\
    (NoDup (map fst ps) ->
       Permutation (map (fun p => number_in ps (fst p)) ps)
         (map Z.of_nat (seq 1 (List.length ps)))) /\
    (forall p, In p ps -> 1 <= number_in ps (fst p) <= Py.len ps).
Proof.
  intros e ps w. split; [| split].
  - intros H. rewrite (@docx_exec_passes e _ _ (@numbered_headings_passes e ps H)).
    apply numbered_loop.
  - intros Hnd.
    replace (map (fun p => number_in ps (fst p)) ps)
      with (map Z.of_nat (map (rank ps) (map fst ps)))
      by (rewrite !map_map; reflexivity).
    apply Permutation_map.
    apply NoDup_Permutation_bis.
    + apply NoDup_map_NoDup_ForallPairs; [| assumption].
      intros t1 t2 H1 H2 E. now apply (@rank_injective ps).
    + now rewrite length_seq, !length_map.
    + intros n Hn. apply in_map_iff in Hn as [t [<- Ht]].
      apply in_seq. pose proof (@rank_bounds ps t Ht). lia.
  - intros p Hin.
    pose proof (@rank_bounds ps (fst p) (in_map fst ps p Hin)) as H.
    unfold number_in, Py.len. fold (rank ps (fst p)). lia.
Qed.

Lemma numbered_headings_number_by_rank_witness :
  docx_exec open_env (numbered_headings principles) (start [] []) =
    (Ok tt,
     with_body (start [] [])
       (body (doc (start [] [])) ++ map call_block (numbered_calls principles principles))) /\
  Permutation (map (fun p => number_in principles (fst p)) principles)
    (map Z.of_nat (seq 1 (List.length principles))) /\
  1 <= number_in principles "Fault Isolation" <= Py.len principles.
Proof.
  destruct (numbered_headings_number_by_rank open_env principles (start [] []))
    as [H1 [H2 H3]].
  split; [apply H1; repeat constructor |].
  split; [apply H2; repeat constructor; simpl; intuition discriminate |].
  apply (H3 (nth 2 principles (""%string, ""%string))).
  right; right; left; reflexivity.
Defined.

(** *** The two loops that fill a table *)

Lemma overlay_cell data :
  forall rest r c,
    (List.length data <= List.length rest)%nat ->
    cell (overlay data rest) r c =
    match nth_error data r with
    | Some d => if (c <? List.length d)%nat then nth_error d c else cell rest r c
    | None => cell rest r c
    end.
Proof.
  unfold cell.
  induction data as [| d data IH]; intros rest r c H.
  - simpl. now destruct r.
  - destruct rest as [| r0 rest]; simpl in H; [lia |].
    destruct r as [| r]; simpl.
    + rewrite nth_error_app. destruct (c <? List.length d)%nat eqn:E; [reflexivity |].
      rewrite nth_error_skipn. f_equal. apply Nat.ltb_ge in E. lia.
    + apply IH. lia.
Qed.

Lemma populate_passes e table data :
  Forall (Forall (fun s => plain s = true)) data -> passes e (populate table data).
Proof.
  intros H. unfold populate. apply passes_for_each.
  intros [i row_data] Hin. apply in_enumerate in Hin.
  pose proof (proj1 (Forall_forall _ data) H _ Hin) as Hrow.
  apply passes_bind; [now apply passes_call |]. intros cells.
  apply passes_for_each. intros [j cell_data] Hj. apply in_enumerate in Hj.
  apply passes_call. exact (proj1 (Forall_forall _ row_data) Hrow _ Hj).
Qed.

(** X6: the filling loop of the first table, on any table (also one that
    is written already) and data of plain texts: it never writes the first
    row, so the header cells set before the loop stay; in a data row it
    replaces the cells it has a string for and keeps the others, as it
    keeps the rows beyond the data and the table style; data that does not
    fit the rows after the first, or the columns, raises IndexError. *)
Theorem populate_keeps_what_it_does_not_write :
  forall (e : Env) (w : World) (n : nat) (t : Table)
         (header : list string) (rest : list (list string)) (cols : nat)
         (data : list (list string)),
    table_at w n = Some t ->
    t_rows t = header :: rest ->
    Forall (fun r => List.length r = cols) rest ->
    Forall (Forall (fun s => plain s = true)) data ->
    (if (List.length data <=? List.length rest)%nat &&
        forallb (fun d => (List.length d <=? cols)%nat) data
     then
       docx_exec e (populate (block_at n) data) w =
         (Ok tt, put_table n (mkTable (t_style t) (header :: overlay data rest)) w) /\
       forall r c,
         cell (header :: overlay data rest) (S r) c =
         match nth_error data r with
         | Some d =>
             if (c <? List.length d)%nat then nth_error d c else cell rest r c
         | None => cell rest r c
         end
     else docx_outcome e (populate (block_at n) data) w = Raised IndexError).
Proof.
  intros e w n t header rest cols data Ht Hrows Hcols Hplain.
  unfold docx_outcome.
  rewrite (@docx_exec_passes e _ _ (@populate_passes e (block_at n) data Hplain)).
  pose proof (@fill_rows e n cols data [header] rest w t Ht Hrows Hcols) as H.
  cbn zeta in H. change (Z.of_nat (List.length [header])) with 1 in H.
  unfold populate.
  destruct ((List.length data <=? List.length rest)%nat &&
            forallb (fun d => (List.length d <=? cols)%nat) data) eqn:E.
  - split; [exact H |]. intros r c.
    apply andb_prop in E as [E _]. apply Nat.leb_le in E.
    exact (@overlay_cell data rest r c E).
  - exact H.
Qed.

Lemma populate_keeps_what_it_does_not_write_witness :
  docx_exec open_env
    (populate (block_at 0) [["Framework"]; ["Language"; "TypeScript 5+"]]%string)
    headed_table =
  (Ok tt,
   put_table 0
     (mkTable None
        [["Component"; "Technology"]; ["Framework"; ""]; ["Language"; "TypeScript 5+"]]%string)
     headed_table).
Proof.
  apply (@populate_keeps_what_it_does_not_write open_env headed_table 0%nat
           (mkTable None [["Component"; "Technology"]; [""; ""]; [""; ""]]%string)
           ["Component"; "Technology"]%string [[""; ""]; [""; ""]]%string 2%nat
           [["Framework"]; ["Language"; "TypeScript 5+"]]%string
           eq_refl eq_refl); repeat constructor.
Defined.

Lemma item_nat A (l : list A) k :
  item l (Z.of_nat k) =
  match nth_error l k with
  | Some x => Ret x
  | None => Throw IndexError
  end.
Proof.
  unfold item. rewrite py_index_nat.
  destruct (Nat.ltb_spec k (List.length l)) as [H | H]; [reflexivity |].
  now rewrite (proj2 (nth_error_None l k) H).
Qed.

Lemma step_set_cell e n r k s w t cells :
  table_at w n = Some t ->
  nth_error (t_rows t) r = Some cells ->
  step e (SetCellText (cells_at n r) (Z.of_nat k) s) w =
  if (k <? List.length cells)%nat then
    (Ok tt,
     put_table n
       (mkTable (t_style t)
          (update_nth r (fun _ => update_nth k (fun _ => s) cells) (t_rows t))) w)
  else (Raised IndexError, w).
Proof.
  intros Ht Hr. cbn [step]. rewrite Ht, Hr, py_index_nat.
  destruct (k <? List.length cells)%nat; [| reflexivity].
  rewrite (@update_block_table w n t _ Ht). cbn [t_style t_rows].
  now rewrite (@update_nth_at _ r _ _ _ Hr).
Qed.

(** The two cell writes of one row of the second loop. *)
Lemma pairs_row e n r d w t cells :
  table_at w n = Some t ->
  nth_error (t_rows t) r = Some cells ->
  let p := text <- item d 0 ;;
           set_text (cells_at n r) 0 text ;;
           text <- item d 1 ;;
           set_text (cells_at n r) 1 text in
  if (2 <=? List.length d)%nat && (2 <=? List.length cells)%nat then
    exec e p w =
      (Ok tt,
       put_table n
         (mkTable (t_style t)
            (update_nth r (fun _ => firstn 2 d ++ skipn 2 cells) (t_rows t))) w)
  else outcome e p w = Raised IndexError.
Proof.
  intros Ht Hr. cbn zeta. unfold outcome.
  change 0 with (Z.of_nat 0). change 1 with (Z.of_nat 1).
  rewrite !item_nat.
  destruct d as [| x [| y d]]; [reflexivity | |].
  - cbn [nth_error bind set_text call exec List.length Nat.leb andb].
    rewrite (@step_set_cell e n r 0 x w t cells Ht Hr).
    destruct (0 <? List.length cells)%nat; reflexivity.
  - cbn [nth_error bind set_text call exec List.length Nat.leb andb].
    rewrite (@step_set_cell e n r 0 x w t cells Ht Hr).
    destruct cells as [| c0 cells]; [reflexivity |].
    cbn [List.length Nat.ltb Nat.leb update_nth].
    set (t1 := mkTable (t_style t)
                 (update_nth r (fun _ => x :: cells) (t_rows t))).
    assert (Ht1 : table_at (put_table n t1 w) n = Some t1)
      by (eapply table_at_put; eassumption).
    assert (Hr1 : nth_error (t_rows t1) r = Some (x :: cells)).
    { unfold t1; simpl. now rewrite nth_error_update_nth, Nat.eqb_refl, Hr. }
    rewrite (@step_set_cell e n r 1 y _ t1 (x :: cells) Ht1 Hr1).
    destruct cells as [| c1 cells]; [reflexivity |].
    cbn [List.length Nat.ltb Nat.leb update_nth firstn skipn app].
    f_equal. rewrite put_table_twice. subst t1. cbn [t_style t_rows].
    now rewrite update_nth_const_twice.
Qed.

Lemma pairs_rows e n cols data :
  forall pre rest w t,
    table_at w n = Some t ->
    t_rows t = pre ++ rest ->
    Forall (fun r => List.length r = cols) rest ->
    let p := for_each (Py.enumerate data (Z.of_nat (List.length pre)))
               (fun '(i, row_data) =>
                  cells <- rows_cells (block_at n) i ;;
                  text <- item row_data 0 ;;
                  set_text cells 0 text ;;
                  text <- item row_data 1 ;;
                  set_text cells 1 text) in
    if fits_pairs rest cols data then
      exec e p w =
        (Ok tt,
         put_table n
           (mkTable (t_style t) (pre ++ overlay (map (firstn 2) data) rest)) w)
    else outcome e p w = Raised IndexError.
Proof.
  unfold fits_pairs.
  induction data as [| d data IH]; intros pre rest w t Ht Hrows Hcols; cbn zeta.
  - simpl. f_equal. rewrite <- Hrows.
    destruct t as [sty rows]; simpl. symmetry; now apply put_table_same.
  - destruct rest as [| r0 rest'].
    + simpl. unfold outcome; simpl. rewrite Ht, Hrows.
      rewrite app_nil_r, py_index_nat, Nat.ltb_irrefl. reflexivity.
    + assert (Hcells :
        step e (RowCells (block_at n) (Z.of_nat (List.length pre))) w =
        (Ok (cells_at n (List.length pre)), w)).
      { cbn [step]. rewrite Ht, Hrows, py_index_nat, ltb_length_app. reflexivity. }
      assert (Hr : nth_error (t_rows t) (List.length pre) = Some r0).
      { rewrite Hrows. rewrite nth_error_app2, Nat.sub_diag by lia. reflexivity. }
      pose proof (@pairs_row e n (List.length pre) d w t r0 Ht Hr) as Hin.
      cbn zeta in Hin.
      apply Forall_cons_iff in Hcols as [Hc0 Hcols]. rewrite Hc0 in Hin.
      set (t1 := mkTable (t_style t)
                   (update_nth (List.length pre)
                      (fun _ => firstn 2 d ++ skipn 2 r0) (t_rows t))) in *.
      assert (Ht1 : table_at (put_table n t1 w) n = Some t1)
        by (eapply table_at_put; eassumption).
      assert (Hrows1 : t_rows t1 = (pre ++ [firstn 2 d ++ skipn 2 r0]) ++ rest').
      { unfold t1; cbn [t_rows]. rewrite Hrows, update_nth_app.
        now rewrite <- app_assoc. }
      specialize (IH (pre ++ [firstn 2 d ++ skipn 2 r0]) rest'
                     (put_table n t1 w) t1 Ht1 Hrows1 Hcols).
      cbn zeta in IH.
      rewrite length_app, Nat.add_1_r, Nat2Z.inj_succ in IH.
      unfold Z.succ in IH.
      change (List.length (d :: data) <=? List.length (r0 :: rest'))%nat
        with (List.length data <=? List.length rest')%nat.
      cbn [forallb Py.enumerate for_each]. unfold outcome in *.
      match goal with
      | |- context [exec e (bind ?q ?f) w] => rewrite !(@exec_bind e _ _ q f w)
      end.
      cbn [rows_cells call bind exec]. rewrite Hcells.
      cbn [rows_cells call bind] in IH. subst t1.
      change (fun r1 : Resp (RowCells (block_at n) (Z.of_nat (List.length pre))) => ?b)
        with (fun r1 : CellsRef => b) in *.
      destruct (2 <=? List.length d)%nat eqn:Ed.
      * destruct (2 <=? cols)%nat eqn:Ec; cbn [andb] in Hin.
        -- rewrite Hin.
           assert (Hlen : List.length (firstn 2 d) = 2%nat).
           { apply Nat.leb_le in Ed. rewrite length_firstn. lia. }
           destruct data as [| d' data'].
           ++ cbn [List.length Nat.leb andb forallb] in IH |- *.
              rewrite IH. f_equal. rewrite put_table_twice. f_equal.
              cbn [t_style map overlay]. rewrite Hlen. f_equal.
              now rewrite <- app_assoc.
           ++ cbv iota in IH |- *.
              destruct (List.length (d' :: data') <=? List.length rest')%nat;
                destruct (forallb (fun d0 => (2 <=? List.length d0)%nat) (d' :: data'));
                cbn [andb] in IH |- *; try exact IH.
              rewrite IH. f_equal. rewrite put_table_twice. f_equal.
              cbn [t_style map overlay]. rewrite Hlen. f_equal.
              now rewrite <- app_assoc.
        -- rewrite !andb_false_r. cbn [andb].
           destruct (exec e _ w) as [[u | x] w']; simpl in Hin |- *;
             [discriminate | exact Hin].
      * rewrite !andb_false_r. cbn [andb] in Hin.
        destruct (exec e _ w) as [[u | x] w']; simpl in Hin |- *;
          [discriminate | exact Hin].
Qed.

Lemma populate_pairs_passes e table data :
  Forall (Forall (fun s => plain s = true)) data -> passes e (populate_pairs table data).
Proof.
  intros H. unfold populate_pairs. apply passes_for_each.
  intros [i row_data] Hin. apply in_enumerate in Hin.
  pose proof (proj1 (Forall_forall _ data) H _ Hin) as Hrow.
  apply passes_bind; [now apply passes_call |]. intros cells.
  apply passes_item. intros x Hx.
  apply passes_bind;
    [apply passes_call; exact (proj1 (Forall_forall _ row_data) Hrow _ Hx) |].
  intros _. apply passes_item. intros y Hy.
  apply passes_call. exact (proj1 (Forall_forall _ row_data) Hrow _ Hy).
Qed.

(** X7: the filling loop of the second table, on any table and data of
    plain texts: it takes the first two strings of each row of data and
    ignores the rest; a row of data with fewer than two strings raises
    IndexError (this loop does not blank-fill), as does data with more
    rows than the table has after the first, or a table with fewer than
    two columns; otherwise the first row, the other cells and the style
    are kept. *)
Theorem populate_pairs_needs_two_strings :
  forall (e : Env) (w : World) (n : nat) (t : Table)
         (header : list string) (rest : list (list string)) (cols : nat)
         (tech_data : list (list string)),
    table_at w n = Some t ->
    t_rows t = header :: rest ->
    Forall (fun r => List.length r = cols) rest ->
    Forall (Forall (fun s => plain s = true)) tech_data ->
    (if fits_pairs rest cols tech_data then
       docx_exec e (populate_pairs (block_at n) tech_data) w =
         (Ok tt,
          put_table n
            (mkTable (t_style t)
               (header :: overlay (map (firstn 2) tech_data) rest)) w)
     else docx_outcome e (populate_pairs (block_at n) tech_data) w = Raised IndexError).
Proof.
  intros e w n t header rest cols tech_data Ht Hrows Hcols Hplain.
  unfold docx_outcome.
  rewrite (@docx_exec_passes e _ _ (@populate_pairs_passes e (block_at n) tech_data Hplain)).
  pose proof (@pairs_rows e n cols tech_data [header] rest w t Ht Hrows Hcols) as H.
  cbn zeta in H. change (Z.of_nat (List.length [header])) with 1 in H.
  exact H.
Qed.

Lemma populate_pairs_needs_two_strings_witness :
  docx_exec open_env
    (populate_pairs (block_at 0) [["Framework"; "NestJS 10+"; "extra"]]%string)
    headed_table =
  (Ok tt,
   put_table 0
     (mkTable None
        [["Component"; "Technology"]; ["Framework"; "NestJS 10+"]; [""; ""]]%string)
     headed_table) /\
  docx_outcome open_env (populate_pairs (block_at 0) [["Framework"]]%string) headed_table =
    Raised IndexError.
Proof.
  split.
  - apply (@populate_pairs_needs_two_strings open_env headed_table 0%nat
             (mkTable None [["Component"; "Technology"]; [""; ""]; [""; ""]]%string)
             ["Component"; "Technology"]%string [[""; ""]; [""; ""]]%string 2%nat
             [["Framework"; "NestJS 10+"; "extra"]]%string eq_refl eq_refl);
      repeat constructor.
  - apply (@populate_pairs_needs_two_strings open_env headed_table 0%nat
             (mkTable None [["Component"; "Technology"]; [""; ""]; [""; ""]]%string)
             ["Component"; "Technology"]%string [[""; ""]; [""; ""]]%string 2%nat
             [["Framework"]]%string eq_refl eq_refl);
      repeat constructor.
Defined.

(** *** The lines of the title page *)

Lemma split_go_nonempty sep s piece : Py.split_go sep s piece <> [].
Proof.
  revert piece; induction s as [| c s IH]; intros piece; simpl; [easy |].
  destruct (Ascii.eqb c sep); [easy | apply IH].
Qed.

Lemma split_go_join s :
  forall piece,
    String.concat Py.nl (Py.split_go Py.newline s piece) = (piece ++ s)%string.
Proof.
  induction s as [| c s IH]; intros piece; simpl.
  - induction piece as [| x piece IHp]; simpl; [| rewrite <- IHp]; reflexivity.
  - destruct (Ascii.eqb_spec c Py.newline) as [-> | Hne].
    + pose proof (@split_go_nonempty Py.newline s ""%string) as Hn.
      pose proof (IH ""%string) as H0.
      destruct (Py.split_go Py.newline s "") as [| x l]; [easy |].
      cbn [String.concat]. cbn [String.concat] in H0. rewrite H0. reflexivity.
    + rewrite IH, string_app_assoc. reflexivity.
Qed.

Lemma split_go_length s :
  forall piece, List.length (Py.split_go Py.newline s piece) = S (newlines s).
Proof.
  induction s as [| c s IH]; intros piece; simpl; [reflexivity |].
  destruct (Ascii.eqb c Py.newline); simpl; now rewrite IH.
Qed.

Lemma step_set_last_para e w bs p a :
  step e (SetParagraph (block_at (List.length bs)) a) (with_body w (bs ++ [Para p])) =
  (Ok tt, with_body w (bs ++ [Para (set_paragraph_attr a p)])).
Proof.
  rewrite (@step_set_paragraph e _ _ a (Para p) p).
  - now rewrite with_body_last.
  - apply nth_error_last.
  - reflexivity.
Qed.

Lemma set_paragraph_spacing_last e w bs p a b :
  exec e (set_paragraph_spacing (block_at (List.length bs)) a b)
    (with_body w (bs ++ [Para p])) =
  (Ok tt, with_body w (bs ++ [Para (spaced a b p)])).
Proof.
  rewrite (@set_paragraph_spacing_exec e _ (List.length bs) p a b).
  - now rewrite with_body_last.
  - unfold paragraph_at. rewrite body_with_body, nth_error_last. reflexivity.
Qed.

Lemma lines_loop e ls :
  forall w,
    exec e (for_each ls (fun line =>
              p <- doc_add_paragraph line None ;;
              set_alignment p CENTER ;;
              set_paragraph_spacing p 0 0)) w =
    (Ok tt, with_body w (body (doc w) ++ map centered_line ls)).
Proof.
  induction ls as [| line ls IH]; intros w.
  - cbn [for_each exec map]. now rewrite app_nil_r, with_body_same.
  - cbn [for_each].
    rewrite exec_bind, exec_bind. cbn [doc_add_paragraph call exec].
    rewrite (@step_append e (add_paragraph line None) w eq_refl). cbn [exec].
    rewrite exec_bind. cbn [set_alignment call exec call_block].
    rewrite step_set_last_para. cbn [exec].
    rewrite set_paragraph_spacing_last, IH. f_equal.
    rewrite !with_body_with_body, !body_with_body.
    cbn [map]. now rewrite <- app_assoc.
Qed.

Lemma centered_line_text line : block_text (centered_line line) = line.
Proof.
  unfold block_text, centered_line; simpl.
  destruct (String.eqb_spec line ""); [now subst | reflexivity].
Qed.

Lemma split_go_plain s :
  forall piece x,
    plain piece = true -> plain s = true ->
    In x (Py.split_go Py.newline s piece) -> plain x = true.
Proof.
  induction s as [| c s IH]; intros piece x Hp Hs Hin.
  - destruct Hin as [<- | []]. exact Hp.
  - cbn [plain] in Hs. apply andb_prop in Hs as [Hc Hs].
    cbn [Py.split_go] in Hin. destruct (Ascii.eqb c Py.newline).
    + destruct Hin as [<- | Hin]; [exact Hp |].
      exact (IH ""%string x eq_refl Hs Hin).
    + apply (IH (piece ++ String c "")%string x); trivial.
      rewrite plain_app. cbn [plain]. now rewrite Hp, Hc.
Qed.

Lemma centered_lines_passes e info_text :
  plain info_text = true -> passes e (centered_lines info_text).
Proof.
  intros H. unfold centered_lines. apply passes_for_each. intros line Hin.
  pose proof (@split_go_plain info_text ""%string line eq_refl H Hin) as Hl.
  apply passes_bind; [apply passes_call; cbn [accepted]; now rewrite Hl |].
  intros p. apply passes_bind; [now apply passes_call |]. intros _.
  now apply set_paragraph_spacing_passes.
Qed.

(** X8: the loop over the lines of the title-page text, for any plain text:
    it appends one centred paragraph with spacing 0, 0, 1.5 for each line,
    one more than the text has newline characters (an empty line gives a
    paragraph without run), the library refuses none of the calls, and the
    texts of the paragraphs, joined by newlines, are the text again: no
    character is lost. *)
Theorem centered_lines_keep_the_text :
  forall (e : Env) (info_text : string) (w : World),
    plain info_text = true ->
    docx_exec e (centered_lines info_text) w =
      (Ok tt,
       with_body w (body (doc w) ++ map centered_line (Py.split info_text Py.newline))) /\
    List.length (Py.split info_text Py.newline) = S (newlines info_text) /\
    String.concat Py.nl
      (map block_text (map centered_line (Py.split info_text Py.newline))) = info_text.
Proof.
  intros e info_text w H. split.
  { rewrite (@docx_exec_passes e _ _ (@centered_lines_passes e info_text H)).
    apply lines_loop. }
  split; [apply split_go_length |].
  rewrite map_map.
  replace (map (fun x => block_text (centered_line x)) (Py.split info_text Py.newline))
    with (Py.split info_text Py.newline)
    by (symmetry; erewrite map_ext; [apply map_id | apply centered_line_text]).
  apply (split_go_join info_text ""%string).
Qed.

Lemma centered_lines_keep_the_text_witness :
  docx_exec open_env (centered_lines info_text) (start [] []) =
    (Ok tt,
     with_body (start [] [])
       (body (doc (start [] [])) ++ map centered_line (Py.split info_text Py.newline))) /\
  List.length (Py.split info_text Py.newline) = S (newlines info_text) /\
  String.concat Py.nl
    (map block_text (map centered_line (Py.split info_text Py.newline))) = info_text.
Proof.
  apply (@centered_lines_keep_the_text open_env info_text (start [] [])).
  reflexivity.
Defined.

(** *** The script on the library *)






